(** * GDP_Model: a shallow embedding of [GDP/gdp_model.py]

    The Python class [GDPModel] computes GDP = C + I + G + (X - M) over a
    table of yearly indicators, derives growth rates and prints a summary.

    Numbers are IEEE-754 binary64 values, as in CPython, NumPy and pandas:
    they are modelled by Rocq's primitive [float], so rounding, infinities
    and NaN are those of the program.  The NumPy and pandas operations the
    script calls ([+], [-], [pct_change], [mean], [max], [min], [idxmax],
    [idxmin], positional slicing, [.loc]) are modelled after the behaviour
    of those libraries on one-dimensional data with the default
    [RangeIndex].  A printed line is kept with the numbers it formats, not
    with their decimal rendering, and a chart with the data it is drawn
    from.  What matplotlib does with a chart is not modelled: whether it
    lays a figure out and under which name it writes the file are left to
    the library environment below. *)

From Stdlib Require Import String ZArith Bool Lia Floats List.
Import ListNotations.

Set Implicit Arguments.

(** ** Python results and exceptions *)

(** The exceptions that the modelled code can raise. *)
Inductive exn : Type :=
| NoData
    (* ValueError raised by the guards [if self.data is None] *)
| BroadcastError (n m : nat)
    (* NumPy's ValueError: operands could not be broadcast together
       with shapes (n,) (m,) *)
| EmptyArg
    (* ValueError: attempt to get argmax/argmin of an empty sequence *)
| AllNA
    (* idxmax/idxmin of an all-NaN Series: ValueError (pandas 3), or the
       KeyError of [.loc[nan, ...]] (pandas 2) *)
| KeyError (column : string)
    (* a column that the frame does not have *)
| LabelError (label : nat)
    (* KeyError of [.loc] on a row label that the frame does not have *)
| MatplotlibError
    (* whatever [plt.tight_layout] or [plt.savefig] raises: a figure that
       cannot be laid out, a path that cannot be written, an unknown
       file format *)
| OutsideModel.
    (* not a Python exception: the step leads to a table that the frames
       of this development cannot hold (see [set_GDP]) *)

Inductive result (A : Type) : Type :=
| Ok (a : A)
| Raise (e : exn).

Arguments Ok {A} a.
Arguments Raise {A} e.

Definition rbind {A B} (r : result A) (k : A -> result B) : result B :=
  match r with
  | Ok a => k a
  | Raise e => Raise e
  end.

Declare Scope result_scope.
Delimit Scope result_scope with result.
Notation "'let?' x ':=' r 'in' k" := (rbind r (fun x => k))
  (at level 10, x name, r at level 100, k at level 200) : result_scope.

Definition is_ok {A} (r : result A) : bool :=
  match r with Ok _ => true | Raise _ => false end.

(** ** Floats *)

Local Open Scope float_scope.

(** [float(z)] for a Python int: the nearest binary64 value. *)
Definition float_of_int (z : Z) : float :=
  SF2Prim (binary_normalize prec emax z 0%Z false).

(** ** Operands of [+] and [-]

    [calculate_gdp] is duck-typed: its body only uses [__add__] and
    [__sub__] of its arguments.  The class below is that interface; the
    instances are Python floats and ints, NumPy operands of dimension at
    most one, and pandas Series with the default index. *)

Class Operand (A : Type) : Type := {
  py_add : A -> A -> result A;
  py_sub : A -> A -> result A
}.

#[export] Instance float_operand : Operand float := {
  py_add x y := Ok (x + y);
  py_sub x y := Ok (x - y)
}.

(** Python ints are unbounded. *)
#[export] Instance int_operand : Operand Z := {
  py_add x y := Ok (x + y)%Z;
  py_sub x y := Ok (x - y)%Z
}.

(** *** NumPy: a Python float or a one-dimensional array *)

Inductive npvalue : Type :=
| NpFloat (x : float)
| NpArray (xs : list float).

Fixpoint zip_with {A B C} (f : A -> B -> C) (xs : list A) (ys : list B) : list C :=
  match xs, ys with
  | x :: xs', y :: ys' => f x y :: zip_with f xs' ys'
  | _, _ => []
  end.

(** Broadcasting of shapes (n,) and (m,): equal lengths go elementwise, a
    length-one array is stretched, anything else is a ValueError. *)
Definition np_binop (op : float -> float -> float) (a b : npvalue) : result npvalue :=
  match a, b with
  | NpFloat x, NpFloat y => Ok (NpFloat (op x y))
  | NpFloat x, NpArray ys => Ok (NpArray (map (op x) ys))
  | NpArray xs, NpFloat y => Ok (NpArray (map (fun x => op x y) xs))
  | NpArray xs, NpArray ys =>
      if Nat.eqb (length xs) (length ys) then Ok (NpArray (zip_with op xs ys))
      else match xs, ys with
           | [x], _ => Ok (NpArray (map (op x) ys))
           | _, [y] => Ok (NpArray (map (fun x => op x y) xs))
           | _, _ => Raise (BroadcastError (length xs) (length ys))
           end
  end.

#[export] Instance np_operand : Operand npvalue := {
  py_add := np_binop add;
  py_sub := np_binop sub
}.

(** *** pandas: a float Series with index 0 .. n-1 *)

Inductive Series : Type :=
| mkSeries (values : list float).

Definition values (s : Series) : list float :=
  match s with mkSeries v => v end.

(** [reindex n xs]: the values of [xs] at labels 0 .. n-1, NaN where [xs]
    has no such label. *)
Definition reindex (n : nat) (xs : list float) : list float :=
  firstn n (xs ++ repeat nan (n - length xs)).

(** Series arithmetic aligns both operands on the union of their labels
    and never fails; a label missing on one side yields NaN. *)
Definition series_binop (op : float -> float -> float) (a b : Series) : result Series :=
  let n := Nat.max (length (values a)) (length (values b)) in
  Ok (mkSeries (zip_with op (reindex n (values a)) (reindex n (values b)))).

#[export] Instance series_operand : Operand Series := {
  py_add := series_binop add;
  py_sub := series_binop sub
}.

(** ** The value of [GDPModel.calculate_gdp] (lines 54-56)

    [exports - imports] is evaluated first, then the sum from left to
    right. *)

Local Open Scope result_scope.

Definition gdp_formula {A} `{Operand A}
    (consumption investment government_spending exports imports : A) : result A :=
  let? net_exports := py_sub exports imports in
  let? t1 := py_add consumption investment in
  let? t2 := py_add t1 government_spending in
  py_add t2 net_exports.

(** ** NumPy reductions *)

(** The inner loops of [np.maximum.reduce] and [np.minimum.reduce] come
    from one template, [io1 = (io1 >= in2 || isnan(io1)) ? io1 : in2] with
    [<=] for the minimum: [keep a b] says that [a] stays. *)
Definition np_pick (keep : float -> float -> bool) (a b : float) : float :=
  if keep a b || is_nan a then a else b.

Definition np_maximum : float -> float -> float := np_pick (fun a b => b <=? a).

Definition np_minimum : float -> float -> float := np_pick (fun a b => a <=? b).

Definition np_reduce (f : float -> float -> float) (xs : list float) : option float :=
  match xs with
  | [] => None
  | x :: rest => Some (fold_left f rest x)
  end.

(** [ndarray.sum()] of a contiguous float64 array: the inner loop of
    [np.add.reduce], [DOUBLE_pairwise_sum].

    Fewer than eight values are added one after the other.  Up to 128
    values are added in eight interleaved accumulators [r[0]] .. [r[7]],
    which are combined as a balanced tree, and the values left over
    after the last full block of eight are added one after the other.
    Longer arrays are split at [n/2] rounded down to a multiple of eight
    and the two sums are added. *)
Definition sum_sequential (acc : float) (xs : list float) : float :=
  fold_left add xs acc.

(** [r[j] += a[i + j]] for the next [blocks] blocks of eight: the
    accumulators and the values not yet read. *)
Fixpoint accumulate (blocks : nat) (r xs : list float) : list float * list float :=
  match blocks with
  | O => (r, xs)
  | S b => accumulate b (zip_with add r (firstn 8 xs)) (skipn 8 xs)
  end.

Definition combine_accumulators (r : list float) : float :=
  match r with
  | [r0; r1; r2; r3; r4; r5; r6; r7] =>
      ((r0 + r1) + (r2 + r3)) + ((r4 + r5) + (r6 + r7))
  | _ => 0   (* not reached: there are eight accumulators *)
  end.

(** The branch for 8 <= n <= 128. *)
Definition sum_unrolled (xs : list float) : float :=
  let n := length xs in
  let (r, rest) := accumulate (n / 8 - 1) (firstn 8 xs) (skipn 8 xs) in
  sum_sequential (combine_accumulators r) rest.

(** [fuel] bounds the depth of the recursion; the length of the list is
    enough. *)
Fixpoint pairwise_sum (fuel : nat) (xs : list float) : float :=
  let n := length xs in
  if Nat.ltb n 8 then sum_sequential 0 xs
  else if Nat.leb n 128 then sum_unrolled xs
  else match fuel with
       | O => 0   (* not reached when [length xs <= fuel] *)
       | S f =>
           let n2 := (n / 2 - (n / 2) mod 8)%nat in
           pairwise_sum f (firstn n2 xs) + pairwise_sum f (skipn n2 xs)
       end.

(** The reduction starts from 0.0, the identity of [np.add], to which
    the inner loop adds its sum; so a sum of zeros is +0.0 whatever
    their signs.  (A NumPy that starts from -0.0 instead differs in the
    sign of a zero sum and in nothing else.) *)
Definition np_sum (xs : list float) : float :=
  0 + pairwise_sum (length xs) xs.

(** The loops of [ndarray.argmax()] and [ndarray.argmin()], one template
    again: the scan moves to [x] at position [i] when the current best
    [mp] does not stay, and stops on a NaN, which is extremal. *)
Fixpoint arg_scan (keep : float -> float -> bool) (mp : float) (best i : nat)
    (xs : list float) : nat :=
  match xs with
  | [] => best
  | x :: rest =>
      if is_nan mp then best
      else if negb (keep mp x) then arg_scan keep x i (S i) rest
      else arg_scan keep mp best (S i) rest
  end.

(** [argmax]: the scan moves on [not (x <= mp)], so the first position of
    the maximum wins. *)
Definition np_argmax (xs : list float) : result nat :=
  match xs with
  | [] => Raise EmptyArg
  | x :: rest => Ok (arg_scan (fun mp x => x <=? mp) x 0 1 rest)
  end.

(** [argmin]: the scan moves on [not (x >= mp)]. *)
Definition np_argmin (xs : list float) : result nat :=
  match xs with
  | [] => Raise EmptyArg
  | x :: rest => Ok (arg_scan (fun mp x => mp <=? x) x 0 1 rest)
  end.

(** ** pandas reductions ([skipna=True], the default) *)

Definition fill_na (d x : float) : float := if is_nan x then d else x.

Definition all_na (xs : list float) : bool := forallb is_nan xs.

(** [Series.max()]: NaN is replaced by -inf before the NumPy reduction; an
    empty or all-NaN Series gives NaN. *)
Definition nanmax (xs : list float) : float :=
  match np_reduce np_maximum (map (fill_na neg_infinity) xs) with
  | None => nan
  | Some v => if all_na xs then nan else v
  end.

Definition nanmin (xs : list float) : float :=
  match np_reduce np_minimum (map (fill_na infinity) xs) with
  | None => nan
  | Some v => if all_na xs then nan else v
  end.

(** [Series.mean()], that is [nanops.nanmean]: NaN is replaced by 0.0,
    the values are summed by NumPy, and the sum is divided by the number
    of values that are not NaN. *)
Definition count_valid (xs : list float) : nat :=
  length (filter (fun x => negb (is_nan x)) xs).

Definition nanmean (xs : list float) : float :=
  let count := count_valid xs in
  let the_sum := np_sum (map (fill_na 0) xs) in
  if Nat.ltb 0 count then the_sum / float_of_int (Z.of_nat count) else nan.

(** A Series together with its row labels: what [idxmax] needs on a
    slice such as [growth_rate[1:]], whose labels start at 1. *)
Definition labelled : Type := list (nat * float).

Definition with_labels (xs : list float) : labelled :=
  combine (seq 0 (length xs)) xs.

(** The position of the extreme value among the values that are not NaN:
    [arg] runs over those values only, and its answer is mapped back to
    the position in [xs]. *)
Definition arg_skipping_nan (arg : list float -> result nat) (xs : list float)
    : result nat :=
  let valid := filter (fun p => negb (is_nan (snd p))) (with_labels xs) in
  match xs with
  | [] => Raise EmptyArg
  | _ :: _ =>
      if all_na xs then Raise AllNA
      else let? p := arg (map snd valid) in Ok (nth p (map fst valid) 0%nat)
  end.

(** [Series.argmax()] with [skipna=True].  Before pandas 3.0 NaN is
    replaced by -inf and NumPy's [argmax] runs on the result, so that a
    NaN standing before the first -inf is taken for the maximum when
    nothing is larger; from pandas 3.0 on ([skips] is true) the NaN
    entries are left out.  Either way an empty Series and a Series of
    NaN only are errors. *)
Definition nanargmax (skips : bool) (xs : list float) : result nat :=
  if skips then arg_skipping_nan np_argmax xs
  else let? p := np_argmax (map (fill_na neg_infinity) xs) in
       if all_na xs then Raise AllNA else Ok p.

Definition nanargmin (skips : bool) (xs : list float) : result nat :=
  if skips then arg_skipping_nan np_argmin xs
  else let? p := np_argmin (map (fill_na infinity) xs) in
       if all_na xs then Raise AllNA else Ok p.

(** [s[k:]]: a positional slice, labels kept. *)
Definition slice_from (k : nat) (s : labelled) : labelled := skipn k s.

Definition label_at (s : labelled) (p : nat) : result nat :=
  match nth_error s p with
  | Some (l, _) => Ok l
  | None => Raise EmptyArg
  end.

Definition idxmax (skips : bool) (s : labelled) : result nat :=
  let? p := nanargmax skips (map snd s) in label_at s p.

Definition idxmin (skips : bool) (s : labelled) : result nat :=
  let? p := nanargmin skips (map snd s) in label_at s p.

(** [min()] and [max()] of the integer column [Year]; NaN ([None]) when
    the column is empty. *)
Definition int_min (ys : list Z) : option Z :=
  match ys with
  | [] => None
  | y :: rest => Some (fold_left Z.min rest y)
  end.

Definition int_max (ys : list Z) : option Z :=
  match ys with
  | [] => None
  | y :: rest => Some (fold_left Z.max rest y)
  end.

(** ** [Series.pct_change()]

    [data / data.shift(1) - 1], where [data] is the Series itself or, with
    the default [fill_method='pad'] of pandas before 3.0, its forward
    fill. *)

Fixpoint ffill_from (last : float) (xs : list float) : list float :=
  match xs with
  | [] => []
  | x :: rest =>
      let v := if is_nan x then last else x in
      v :: ffill_from v rest
  end.

Definition ffill (xs : list float) : list float := ffill_from nan xs.

Definition shift1 (xs : list float) : list float :=
  match xs with
  | [] => []
  | _ :: _ => nan :: removelast xs
  end.

Definition pct_change (pad : bool) (xs : list float) : list float :=
  let data := if pad then ffill xs else xs in
  zip_with (fun x prev => x / prev - 1) data (shift1 data).

(** [self.data['GDP'].pct_change() * 100] (lines 175 and 252). *)
Definition growth_rate (pad : bool) (gdp : list float) : list float :=
  map (fun r => r * 100) (pct_change pad gdp).

(** ** The table: a pandas DataFrame with the script's columns *)

Record DataFrame : Type := {
  Year : list Z;
  Consumption : list float;
  Investment : list float;
  Government_Spending : list float;
  Exports : list float;
  Imports : list float;
  GDP : option (list float);          (* absent until attached *)
  Net_Exports : option (list float)   (* absent until attached *)
}.

Definition nrows (df : DataFrame) : nat := length (Year df).

(** The constructor of pandas refuses columns of different lengths. *)
Definition well_formed (df : DataFrame) : Prop :=
  length (Consumption df) = nrows df /\
  length (Investment df) = nrows df /\
  length (Government_Spending df) = nrows df /\
  length (Exports df) = nrows df /\
  length (Imports df) = nrows df /\
  (forall g, GDP df = Some g -> length g = nrows df) /\
  (forall nx, Net_Exports df = Some nx -> length nx = nrows df).

Definition col_GDP (df : DataFrame) : result (list float) :=
  match GDP df with
  | Some g => Ok g
  | None => Raise (KeyError "GDP")
  end.

Definition col_Net_Exports (df : DataFrame) : result (list float) :=
  match Net_Exports df with
  | Some g => Ok g
  | None => Raise (KeyError "Net_Exports")
  end.

(** [df[column] = s] makes a frame without rows take the index of a
    Series that has values, and fills its other columns, [Year] among
    them, with NaN: a table that [DataFrame] above, whose years are
    integers, cannot hold. *)
Definition grows_frame (df : DataFrame) (s : Series) : bool :=
  Nat.eqb (nrows df) 0 && negb (Nat.eqb (length (values s)) 0).

(** [df['GDP'] = s]: the Series is aligned on the index of a frame that
    has rows, cut where it is longer and NaN where it is shorter. *)
Definition set_GDP (df : DataFrame) (s : Series) : result DataFrame :=
  if grows_frame df s then Raise OutsideModel
  else Ok {| Year := Year df; Consumption := Consumption df;
             Investment := Investment df;
             Government_Spending := Government_Spending df; Exports := Exports df;
             Imports := Imports df;
             GDP := Some (reindex (nrows df) (values s));
             Net_Exports := Net_Exports df |}.

Definition set_Net_Exports (df : DataFrame) (s : Series) : result DataFrame :=
  if grows_frame df s then Raise OutsideModel
  else Ok {| Year := Year df; Consumption := Consumption df;
             Investment := Investment df;
             Government_Spending := Government_Spending df; Exports := Exports df;
             Imports := Imports df;
             GDP := GDP df;
             Net_Exports := Some (reindex (nrows df) (values s)) |}.

(** [df.loc[label, 'Year']]. *)
Definition loc_Year (df : DataFrame) (label : nat) : result Z :=
  match nth_error (Year df) label with
  | Some y => Ok y
  | None => Raise (LabelError label)
  end.

(** One period of a fully attached table, as [iterrows] yields it. *)
Record period : Type := {
  p_year : Z;
  p_consumption : float;
  p_investment : float;
  p_government_spending : float;
  p_exports : float;
  p_imports : float;
  p_gdp : float;
  p_net_exports : float
}.

Fixpoint zip_periods (ys : list Z) (c i g x m gdp nx : list float) : list period :=
  match ys, c, i, g, x, m, gdp, nx with
  | y :: ys', c0 :: c', i0 :: i', g0 :: g', x0 :: x', m0 :: m', d0 :: d', n0 :: n' =>
      {| p_year := y; p_consumption := c0; p_investment := i0;
         p_government_spending := g0; p_exports := x0; p_imports := m0;
         p_gdp := d0; p_net_exports := n0 |}
      :: zip_periods ys' c' i' g' x' m' d' n'
  | _, _, _, _, _, _, _, _ => []
  end.

Definition records (df : DataFrame) : list period :=
  match GDP df, Net_Exports df with
  | Some gdp, Some nx =>
      zip_periods (Year df) (Consumption df) (Investment df)
                  (Government_Spending df) (Exports df) (Imports df) gdp nx
  | _, _ => []
  end.

(** The data handed to matplotlib for each chart. *)
Inductive figure : Type :=
| TrendFigure (years : list Z) (gdp : list float)
| ComponentsFigure (years : list Z) (c i g nx : list float)
| GrowthFigure (years : list Z) (growth : list float)
| AllTrendsFigure (years : list Z) (c i g x m gdp : list float).

(** ** The library environment

    What the script leaves to its libraries: NumPy's global random
    generator ([np.random.seed], [np.random.normal]); whether
    [pct_change] pads NaN first and whether [idxmax] and [idxmin] leave
    NaN out (pandas before 3.0: it pads and does not leave out); and
    matplotlib, of which two things matter here.  [mpl_tight_layout]
    tells whether [plt.tight_layout()] goes through for the figure, which
    it does not for every table (values near the largest float make it
    raise).  [mpl_savefig] gives the name of the file that
    [plt.savefig(save_path, ...)] writes, which is [save_path] only when
    it already carries an extension, or nothing when the call raises
    (a directory that does not exist, an unknown format, ...). *)

Class Libraries : Type := {
  rng_state : Type;
  np_seed : Z -> rng_state;
  np_normal : float -> float -> rng_state -> float * rng_state;
  pct_change_pads : bool;
  idx_skips_nan : bool;
  mpl_tight_layout : figure -> bool;
  mpl_savefig : string -> figure -> option string
}.

(** ** What the script leaves behind: printed lines and saved figures *)

(** A printed line, with the numbers it formats (texts are abridged to
    their ASCII part). *)
Inductive line : Type :=
| Text (s : string)
| PeriodLine (first last : option Z)
| MeanLine (v : float)
| MaxLine (v : float) (year : Z)
| MinLine (v : float) (year : Z)
| MeanGrowthLine (v : float)
| MaxGrowthLine (v : float) (year : Z)
| TableLines (df : DataFrame)
| SavedLine (path : string).

Section Model.

Context {L : Libraries}.

(** The object [self], the global generator, the console and the image
    files that [savefig] has written, each with the chart it holds. *)
Record world : Type := {
  self_data : option DataFrame;
  self_gdp_values : option Series;
  np_random : rng_state;
  stdout : list line;
  files : list (string * figure)
}.

(** Computations that read and write the world and may raise; an
    exception keeps the effects that happened before it. *)
Definition M (A : Type) : Type := world -> result A * world.

Definition ret {A} (a : A) : M A := fun w => (Ok a, w).

Definition bind {A B} (c : M A) (k : A -> M B) : M B :=
  fun w =>
    match c w with
    | (Ok a, w') => k a w'
    | (Raise e, w') => (Raise e, w')
    end.

Definition raise {A} (e : exn) : M A := fun w => (Raise e, w).

Definition lift {A} (r : result A) : M A := fun w => (r, w).

Declare Scope m_scope.
Delimit Scope m_scope with M.
Notation "x <- c ;; k" := (bind c (fun x => k))
  (at level 61, c at next level, right associativity) : m_scope.
Notation "c ;; k" := (bind c (fun _ => k))
  (at level 61, right associativity) : m_scope.
Local Open Scope m_scope.

Definition get_data : M (option DataFrame) := fun w => (Ok (self_data w), w).

Definition set_data (df : DataFrame) : M unit :=
  fun w => (Ok tt, {| self_data := Some df; self_gdp_values := self_gdp_values w;
                      np_random := np_random w; stdout := stdout w; files := files w |}).

Definition seed (s : Z) : M unit :=
  fun w => (Ok tt, {| self_data := self_data w; self_gdp_values := self_gdp_values w;
                      np_random := np_seed s; stdout := stdout w; files := files w |}).

Definition normal (loc scale : float) : M float :=
  fun w =>
    let (x, g) := np_normal loc scale (np_random w) in
    (Ok x, {| self_data := self_data w; self_gdp_values := self_gdp_values w;
              np_random := g; stdout := stdout w; files := files w |}).

Definition print (l : line) : M unit :=
  fun w => (Ok tt, {| self_data := self_data w; self_gdp_values := self_gdp_values w;
                      np_random := np_random w; stdout := stdout w ++ [l];
                      files := files w |}).

(** [plt.tight_layout()] *)
Definition tight_layout (fig : figure) : M unit :=
  fun w => if mpl_tight_layout fig then (Ok tt, w) else (Raise MatplotlibError, w).

(** [plt.savefig(path, dpi=300, bbox_inches='tight')] *)
Definition savefig (path : string) (fig : figure) : M unit :=
  fun w =>
    match mpl_savefig path fig with
    | Some name =>
        (Ok tt, {| self_data := self_data w; self_gdp_values := self_gdp_values w;
                   np_random := np_random w; stdout := stdout w;
                   files := files w ++ [(name, fig)] |})
    | None => (Raise MatplotlibError, w)
    end.

(** The four statements that close every plotting method: the layout,
    the file, the line that announces it; [plt.show()] leaves no trace
    here.  The plotting calls before them only collect what is to be
    drawn and are taken not to raise. *)
Definition render (save_path : string) (fig : figure) : M unit :=
  tight_layout fig ;;
  savefig save_path fig ;;
  print (SavedLine save_path).

(** [range(a, b)] *)
Definition py_range (a b : Z) : list Z :=
  map (fun k => (a + Z.of_nat k)%Z) (seq 0 (Z.to_nat (b - a))).

(** [[f(i) for i in idx]] with effects, left to right. *)
Fixpoint comprehension {A B} (f : A -> M B) (idx : list A) : M (list B) :=
  match idx with
  | [] => ret []
  | i :: rest =>
      x <- f i ;;
      xs <- comprehension f rest ;;
      ret (x :: xs)
  end.

(** *** [GDPModel.__init__] (lines 28-30) *)
Definition init : M unit :=
  fun w => (Ok tt, {| self_data := None; self_gdp_values := None;
                      np_random := np_random w; stdout := stdout w; files := files w |}).

(** *** [GDPModel.calculate_gdp] (lines 32-56), statement by statement *)
Definition calculate_gdp {A} `{Operand A}
    (consumption investment government_spending exports imports : A) : M A :=
  net_exports <- lift (py_sub exports imports) ;;
  t1 <- lift (py_add consumption investment) ;;
  t2 <- lift (py_add t1 government_spending) ;;
  gdp <- lift (py_add t2 net_exports) ;;
  ret gdp.

(** *** [GDPModel.generate_sample_data] (lines 58-102) *)
Definition generate_sample_data (years start_year : Z) : M DataFrame :=
  seed 42 ;;
  let years_list := py_range start_year (start_year + years) in
  let base_consumption := 5000%Z in
  let base_investment := 1500%Z in
  let base_gov_spending := 2000%Z in
  let base_exports := 1800%Z in
  let base_imports := 1600%Z in
  let column (base step : Z) (sd : float) :=
    comprehension
      (fun i => x <- normal 0 sd ;; ret (float_of_int (base + i * step) + x))
      (py_range 0 years) in
  c <- column base_consumption 200%Z 100 ;;
  i <- column base_investment 80%Z 50 ;;
  g <- column base_gov_spending 100%Z 60 ;;
  x <- column base_exports 90%Z 70 ;;
  m <- column base_imports 85%Z 65 ;;
  let df := {| Year := years_list; Consumption := c; Investment := i;
               Government_Spending := g; Exports := x; Imports := m;
               GDP := None; Net_Exports := None |} in
  set_data df ;;
  gdp <- calculate_gdp (mkSeries (Consumption df)) (mkSeries (Investment df))
                       (mkSeries (Government_Spending df)) (mkSeries (Exports df))
                       (mkSeries (Imports df)) ;;
  df1 <- lift (set_GDP df gdp) ;;
  set_data df1 ;;
  nx <- lift (py_sub (mkSeries (Exports df1)) (mkSeries (Imports df1))) ;;
  df2 <- lift (set_Net_Exports df1 nx) ;;
  set_data df2 ;;
  ret df2.

(** The guard that opens every consumer. *)
Definition require_data : M DataFrame :=
  d <- get_data ;;
  match d with
  | None => raise NoData
  | Some df => ret df
  end.

(** *** [GDPModel.plot_gdp_trend] (lines 104-131) *)
Definition plot_gdp_trend (save_path : string) : M unit :=
  df <- require_data ;;
  gdp <- lift (col_GDP df) ;;
  render save_path (TrendFigure (Year df) gdp).

(** *** [GDPModel.plot_gdp_components] (lines 133-165) *)
Definition plot_gdp_components (save_path : string) : M unit :=
  df <- require_data ;;
  nx <- lift (col_Net_Exports df) ;;
  render save_path
    (ComponentsFigure (Year df) (Consumption df) (Investment df)
                      (Government_Spending df) nx).

(** *** [GDPModel.plot_growth_rate] (lines 167-198) *)
Definition plot_growth_rate (save_path : string) : M unit :=
  df <- require_data ;;
  gdp <- lift (col_GDP df) ;;
  let growth := growth_rate pct_change_pads gdp in
  render save_path (GrowthFigure (skipn 1 (Year df)) (skipn 1 growth)).

(** *** [GDPModel.plot_all_components_trends] (lines 200-235) *)
Definition plot_all_components_trends (save_path : string) : M unit :=
  df <- require_data ;;
  gdp <- lift (col_GDP df) ;;
  render save_path
    (AllTrendsFigure (Year df) (Consumption df) (Investment df)
                     (Government_Spending df) (Exports df) (Imports df) gdp).

(** *** [GDPModel.print_summary] (lines 237-260)

    Each [print] evaluates its whole f-string first, so a line whose
    [idxmax] raises is not printed. *)
Definition print_summary : M unit :=
  df <- require_data ;;
  print (Text "======") ;;
  print (Text "GDP SUMMARY") ;;
  print (Text "======") ;;
  print (PeriodLine (int_min (Year df)) (int_max (Year df))) ;;
  gdp <- lift (col_GDP df) ;;
  print (MeanLine (nanmean gdp)) ;;
  imax <- lift (idxmax idx_skips_nan (with_labels gdp)) ;;
  ymax <- lift (loc_Year df imax) ;;
  print (MaxLine (nanmax gdp) ymax) ;;
  imin <- lift (idxmin idx_skips_nan (with_labels gdp)) ;;
  ymin <- lift (loc_Year df imin) ;;
  print (MinLine (nanmin gdp) ymin) ;;
  let growth := with_labels (growth_rate pct_change_pads gdp) in
  print (MeanGrowthLine (nanmean (map snd (slice_from 1 growth)))) ;;
  igrow <- lift (idxmax idx_skips_nan (slice_from 1 growth)) ;;
  ygrow <- lift (loc_Year df igrow) ;;
  print (MaxGrowthLine (nanmax (map snd (slice_from 1 growth))) ygrow) ;;
  print (Text "------") ;;
  print (Text "yearly data") ;;
  print (Text "------") ;;
  print (TableLines df) ;;
  print (Text "======").

(** *** [main] (lines 263-298): a fresh object, ten years from 2015, the
    summary and the four charts *)
Definition main : M unit :=
  print (Text "GDP Model") ;;
  print (Text "======") ;;
  init ;;
  print (Text "generating sample data") ;;
  generate_sample_data 10 2015 ;;
  print (Text "sample data done") ;;
  print_summary ;;
  print (Text "creating charts") ;;
  print (Text "------") ;;
  plot_gdp_trend "gdp_trend.png" ;;
  plot_gdp_components "gdp_components.png" ;;
  plot_growth_rate "gdp_growth_rate.png" ;;
  plot_all_components_trends "all_components_trends.png" ;;
  print (Text "======") ;;
  print (Text "all charts done") ;;
  print (Text "======") ;;
  print (Text "files created") ;;
  print (Text "1. gdp_trend.png") ;;
  print (Text "2. gdp_components.png") ;;
  print (Text "3. gdp_growth_rate.png") ;;
  print (Text "4. all_components_trends.png") ;;
  print (Text "").

End Model.

(** ** Vocabulary of the properties *)

(** The data-model invariant of one period. *)
Definition gdp_invariant (r : period) : Prop :=
  p_gdp r = p_consumption r + p_investment r + p_government_spending r
            + (p_exports r - p_imports r)
  /\ p_net_exports r = p_exports r - p_imports r.

(** No value of the list is NaN. *)
Definition no_nan (xs : list float) : bool :=
  forallb (fun x => negb (is_nan x)) xs.

(** A finite value other than +0.0 and -0.0. *)
Definition finite_nonzero (x : float) : bool :=
  is_finite x && negb (is_zero x).

(** The position of the first element that satisfies [p]. *)
Fixpoint earliest (p : float -> bool) (xs : list float) : option nat :=
  match xs with
  | [] => None
  | x :: rest => if p x then Some 0%nat else option_map S (earliest p rest)
  end.

(** The growth of each period over the one before it, from the second
    period on, as the script computes it. *)
Definition growth_after_first (gdp : list float) : list float :=
  zip_with (fun cur prev => (cur / prev - 1) * 100) (tl gdp) gdp.

(** The world [w] with [out] on its console. *)
Definition with_stdout {L : Libraries} (w : world) (out : list line) : world :=
  {| self_data := self_data w; self_gdp_values := self_gdp_values w;
     np_random := np_random w; stdout := out; files := files w |}.

(** The world after a chart was written to the file [name] and announced
    under the path [path] that was asked for. *)
Definition with_chart {L : Libraries} (w : world) (name path : string) (fig : figure)
    : world :=
  {| self_data := self_data w; self_gdp_values := self_gdp_values w;
     np_random := np_random w; stdout := stdout w ++ [SavedLine path];
     files := files w ++ [(name, fig)] |}.

(** What the closing statements of a plotting method ([render]) make of
    the world, by the answers of matplotlib: the chart is written and
    announced, or an exception passes and nothing has changed. *)
Definition rendered {L : Libraries} (w : world) (path : string) (fig : figure)
    : result unit * world :=
  if mpl_tight_layout fig then
    match mpl_savefig path fig with
    | Some name => (Ok tt, with_chart w name path fig)
    | None => (Raise MatplotlibError, w)
    end
  else (Raise MatplotlibError, w).

(** ** A concrete library environment for running the model

    A small linear congruential generator stands in for NumPy's
    Mersenne twister; pandas is taken before 3.0; every figure is laid
    out and every file written, under the name it was asked for when
    that ends in [.png] and with [.png] added to it otherwise. *)

Definition ends_with_png (path : string) : bool :=
  let n := String.length path in
  String.eqb (String.substring (n - 4) 4 path) ".png".

#[export] Instance lcg_libraries : Libraries := {
  rng_state := Z;
  np_seed s := s;
  np_normal loc scale s :=
    (loc + scale * (float_of_int (s mod 201 - 100) / 50),
     ((s * 1103515245 + 12345) mod 2147483648)%Z);
  pct_change_pads := true;
  idx_skips_nan := false;
  mpl_tight_layout _ := true;
  mpl_savefig path _ := Some (if ends_with_png path then path else (path ++ ".png")%string)
}.

(** The same with pandas from 3.0 on: [pct_change] does not pad, [idxmax]
    and [idxmin] leave NaN out. *)
Definition pandas3_libraries : Libraries := {|
  rng_state := Z;
  np_seed := @np_seed lcg_libraries;
  np_normal := @np_normal lcg_libraries;
  pct_change_pads := false;
  idx_skips_nan := true;
  mpl_tight_layout := @mpl_tight_layout lcg_libraries;
  mpl_savefig := @mpl_savefig lcg_libraries
|}.

(** The world of a fresh interpreter holding a fresh [GDPModel()]. *)
Definition fresh_world : world :=
  {| self_data := None; self_gdp_values := None;
     np_random := (0%Z : @rng_state lcg_libraries); stdout := []; files := [] |}.

(** A table given by its years and its GDP column; consumption carries
    the whole GDP and the other components are zero. *)
Definition table_of (years : list Z) (gdp : list float) : DataFrame :=
  {| Year := years;
     Consumption := gdp;
     Investment := map (fun _ => 0) gdp;
     Government_Spending := map (fun _ => 0) gdp;
     Exports := map (fun _ => 0) gdp;
     Imports := map (fun _ => 0) gdp;
     GDP := Some gdp;
     Net_Exports := Some (map (fun _ => 0) gdp) |}.

(** A model whose table is [df]. *)
Definition world_of (df : DataFrame) : world :=
  {| self_data := Some df; self_gdp_values := None;
     np_random := (0%Z : @rng_state lcg_libraries); stdout := []; files := [] |}.

(** ** The sample generator as a function of the generator state

    [draw_column] is the list comprehension of one column, threading the
    state of NumPy's generator; [sample_table] is the frame that
    [generate_sample_data] stores. *)

Fixpoint draw_column {L : Libraries} (base step : Z) (sd : float) (idx : list Z)
    (g : rng_state) : list float * rng_state :=
  match idx with
  | [] => ([], g)
  | i :: rest =>
      let (x, g1) := np_normal 0 sd g in
      let (xs, g2) := draw_column base step sd rest g1 in
      (float_of_int (base + i * step) + x :: xs, g2)
  end.

Definition sample_draws {L : Libraries} (years : Z)
    : list float * list float * list float * list float * list float * rng_state :=
  let idx := py_range 0 years in
  let (c, g1) := draw_column 5000 200 100 idx (np_seed 42) in
  let (i, g2) := draw_column 1500 80 50 idx g1 in
  let (g, g3) := draw_column 2000 100 60 idx g2 in
  let (x, g4) := draw_column 1800 90 70 idx g3 in
  let (m, g5) := draw_column 1600 85 65 idx g4 in
  (c, i, g, x, m, g5).

Definition sample_table {L : Libraries} (years start_year : Z) : DataFrame :=
  let '(c, i, g, x, m, _) := sample_draws years in
  {| Year := py_range start_year (start_year + years);
     Consumption := c; Investment := i; Government_Spending := g;
     Exports := x; Imports := m;
     GDP := Some (zip_with add (zip_with add (zip_with add c i) g) (zip_with sub x m));
     Net_Exports := Some (zip_with sub x m) |}.

Definition with_rng {L : Libraries} (w : world) (g : rng_state) : world :=
  {| self_data := self_data w; self_gdp_values := self_gdp_values w;
     np_random := g; stdout := stdout w; files := files w |}.

Definition with_data {L : Libraries} (w : world) (df : DataFrame) : world :=
  {| self_data := Some df; self_gdp_values := self_gdp_values w;
     np_random := np_random w; stdout := stdout w; files := files w |}.

(** The lines that open every summary. *)
Definition summary_head (df : DataFrame) (g : list float) : list line :=
  [Text "======"; Text "GDP SUMMARY"; Text "======";
   PeriodLine (int_min (Year df)) (int_max (Year df)); MeanLine (nanmean g)].

Definition summary_foot (df : DataFrame) : list line :=
  [Text "------"; Text "yearly data"; Text "------"; TableLines df; Text "======"].

(** ** Vocabulary of the further properties *)

(** What broadcasting to length [n] makes of a NumPy operand: a scalar
    and a one-element array are repeated, an array of length [n] is taken
    as it is, any other array does not broadcast. *)
Definition stretch (n : nat) (v : npvalue) : option (list float) :=
  match v with
  | NpFloat x => Some (repeat x n)
  | NpArray [x] => Some (repeat x n)
  | NpArray xs => if Nat.eqb (length xs) n then Some xs else None
  end.

(** The value of a Series at label [k], NaN when it has no such label. *)
Definition at_label (xs : list float) (k : nat) : float := nth k xs nan.

(** [w'] differs from [w] by lines added to the console, if at all. *)
Definition console_grew {L : Libraries} (w w' : world) : Prop :=
  self_data w' = self_data w
  /\ self_gdp_values w' = self_gdp_values w
  /\ np_random w' = np_random w
  /\ files w' = files w
  /\ exists out, stdout w' = stdout w ++ out.

(** A frame that has the six base columns of [df] and no derived one:
    real data assigned to [self.data] before anything is attached. *)
Definition without_derived (df : DataFrame) : DataFrame :=
  {| Year := Year df; Consumption := Consumption df; Investment := Investment df;
     Government_Spending := Government_Spending df; Exports := Exports df;
     Imports := Imports df; GDP := None; Net_Exports := None |}.



(** * Properties *)

Unset Implicit Arguments.

(** ** Facts about binary64 arithmetic *)

Module FloatFacts.

Ltac cmp_cases :=
  repeat match goal with
  | |- context [Z.compare ?a ?b] => destruct (Z.compare_spec a b)
  | H : context [Z.compare ?a ?b] |- _ => destruct (Z.compare_spec a b)
  | |- context [Pos.compare_cont Eq ?a ?b] =>
      change (Pos.compare_cont Eq a b) with (Pos.compare a b);
      destruct (Pos.compare_spec a b)
  | H : context [Pos.compare_cont Eq ?a ?b] |- _ =>
      change (Pos.compare_cont Eq a b) with (Pos.compare a b) in H;
      destruct (Pos.compare_spec a b)
  end.

Ltac sf_crush :=
  intros; unfold SFleb, SFltb, SFeqb in *;
  repeat match goal with
  | x : spec_float |- _ => destruct x
  end;
  repeat match goal with
  | s : bool |- _ => destruct s
  end;
  simpl in *; try congruence; try reflexivity;
  cmp_cases; simpl in *; subst; try congruence; try lia.

(** *** The order of the specification *)

Lemma SFcompare_refl (x : spec_float) : x <> S754_nan -> SFcompare x x = Some Eq.
Proof.
  destruct x as [s|s| |s m e]; simpl; intros Hx; try congruence.
  - destruct s; reflexivity.
  - rewrite Z.compare_refl, Pos.compare_cont_refl. destruct s; reflexivity.
Qed.

Lemma SFleb_ltb_trans x y z :
  SFleb x y = true -> SFltb y z = true -> SFltb x z = true.
Proof. sf_crush. Qed.

Lemma SFltb_leb_trans x y z :
  SFltb x y = true -> SFleb y z = true -> SFltb x z = true.
Proof. sf_crush. Qed.

Lemma SFleb_total x y :
  x <> S754_nan -> y <> S754_nan -> SFleb x y = false -> SFltb y x = true.
Proof. sf_crush. Qed.

Lemma SFltb_leb x y : SFltb x y = true -> SFleb x y = true.
Proof. sf_crush. Qed.

Lemma SFltb_not_eqb x y :
  SFltb x y = true -> SFeqb x y = false /\ SFeqb y x = false.
Proof. sf_crush; split; try congruence; cmp_cases; subst; simpl; try congruence; try lia. Qed.

(** *** NaN *)

Lemma is_nan_spec (x : float) : is_nan x = true <-> Prim2SF x = S754_nan.
Proof.
  unfold is_nan. rewrite eqb_spec. unfold SFeqb. split.
  - destruct (Prim2SF x) eqn:E; auto; rewrite SFcompare_refl; simpl; congruence.
  - intros ->. reflexivity.
Qed.

Lemma is_nan_false (x : float) : is_nan x = false <-> Prim2SF x <> S754_nan.
Proof.
  rewrite <- is_nan_spec. destruct (is_nan x); split; congruence.
Qed.

(** *** The order of the primitive comparisons *)

Lemma eqb_refl (x : float) : is_nan x = false -> (x =? x) = true.
Proof. unfold is_nan. destruct (x =? x); simpl; congruence. Qed.

Lemma leb_total (x y : float) :
  is_nan x = false -> is_nan y = false -> (x <=? y) = false -> (y <? x) = true.
Proof.
  rewrite !is_nan_false, leb_spec, ltb_spec. apply SFleb_total.
Qed.

Lemma ltb_leb (x y : float) : (x <? y) = true -> (x <=? y) = true.
Proof. rewrite leb_spec, ltb_spec. apply SFltb_leb. Qed.

Lemma leb_ltb_trans (x y z : float) :
  (x <=? y) = true -> (y <? z) = true -> (x <? z) = true.
Proof. rewrite leb_spec, !ltb_spec. apply SFleb_ltb_trans. Qed.

Lemma ltb_leb_trans (x y z : float) :
  (x <? y) = true -> (y <=? z) = true -> (x <? z) = true.
Proof. rewrite leb_spec, !ltb_spec. apply SFltb_leb_trans. Qed.

Lemma ltb_not_eqb (x y : float) :
  (x <? y) = true -> (x =? y) = false /\ (y =? x) = false.
Proof. rewrite ltb_spec, !eqb_spec. apply SFltb_not_eqb. Qed.

(** *** Division *)

Lemma div_eucl_mul (q : Z) (p : positive) :
  Z.div_eucl (q * Zpos p) (Zpos p) = (q, 0%Z).
Proof.
  pose proof (Z.div_eucl_eq (q * Zpos p) (Zpos p) ltac:(lia)) as Hq.
  pose proof (Z.mod_pos_bound (q * Zpos p) (Zpos p) ltac:(lia)) as Hb.
  unfold Z.modulo in Hb.
  destruct (Z.div_eucl (q * Zpos p) (Zpos p)) as [q' r].
  assert (q' = q) by nia. subst q'. f_equal. lia.
Qed.

Lemma new_location_zero (n : Z) : new_location n 0 = loc_Exact.
Proof. unfold new_location. destruct (Z.even n); reflexivity. Qed.

Lemma fexp_eq (x : Z) : fexp prec emax x = Z.max (x - 53) (-1074).
Proof. reflexivity. Qed.

Lemma bounded_inv m e :
  bounded prec emax m e = true ->
  (e <= 971)%Z /\ fexp prec emax (Zpos (digits2_pos m) + e) = e.
Proof.
  unfold bounded, canonical_mantissa.
  intros H. apply andb_true_iff in H as [H1 H2].
  apply Z.eqb_eq in H1. apply Z.leb_le in H2. split; [exact H2 | exact H1].
Qed.

Lemma shr_fexp_canonical m e :
  fexp prec emax (Zpos (digits2_pos m) + e) = e ->
  shr_fexp prec emax (Zpos m) e loc_Exact
  = ({| shr_m := Zpos m; shr_r := false; shr_s := false |}, e).
Proof.
  intros H. unfold shr_fexp. unfold Zdigits2. rewrite H, Z.sub_diag. reflexivity.
Qed.

(** Rounding a canonical mantissa leaves it alone. *)
Lemma binary_round_aux_canonical s m e :
  (e <= 971)%Z -> fexp prec emax (Zpos (digits2_pos m) + e) = e ->
  binary_round_aux prec emax s (Zpos m) e loc_Exact = S754_finite s m e.
Proof.
  intros He Hc. unfold binary_round_aux.
  rewrite (shr_fexp_canonical _ _ Hc).
  cbn [shr_m loc_of_shr_record round_nearest_even].
  rewrite (shr_fexp_canonical _ _ Hc).
  cbn [shr_m].
  change (emax - prec)%Z with 971%Z.
  apply Z.leb_le in He. rewrite He. reflexivity.
Qed.

(** Rounding the doubled mantissa of a normal number shifts it back. *)
Lemma binary_round_aux_double s m e :
  (e <= 971)%Z -> fexp prec emax (Zpos (digits2_pos m) + e) = e -> (-1074 < e)%Z ->
  binary_round_aux prec emax s (Zpos m~0) (e - 1) loc_Exact = S754_finite s m e.
Proof.
  intros He Hc Hlo. unfold binary_round_aux.
  assert (Hs : shr_fexp prec emax (Zpos m~0) (e - 1) loc_Exact
               = ({| shr_m := Zpos m; shr_r := false; shr_s := false |}, e)).
  { unfold shr_fexp. unfold Zdigits2. cbn [digits2_pos shr_record_of_loc].
    replace (fexp prec emax (Zpos (Pos.succ (digits2_pos m)) + (e - 1)) - (e - 1))%Z with 1%Z
      by (rewrite fexp_eq in *; lia).
    unfold shr. cbn [iter_pos shr_1 orb]. f_equal. lia. }
  rewrite Hs. cbn [shr_m loc_of_shr_record round_nearest_even].
  rewrite (shr_fexp_canonical _ _ Hc). cbn [shr_m].
  change (emax - prec)%Z with 971%Z.
  apply Z.leb_le in He. rewrite He. reflexivity.
Qed.

Lemma SFdiv_one s m e :
  bounded prec emax m e = true ->
  SF64div (S754_finite s m e) (S754_finite false 4503599627370496 (-52))
  = S754_finite s m e.
Proof.
  intros Hb. destruct (bounded_inv _ _ Hb) as [Hemax Hc].
  unfold SF64div, SFdiv, SFdiv_core_binary. unfold Zdigits2.
  change (Zpos (digits2_pos 4503599627370496)) with 53%Z.
  rewrite xorb_false_r.
  destruct (Z.eq_dec e (-1074)) as [He | He].
  - replace (Z.min _ _) with e by (rewrite fexp_eq in *; lia).
    replace (e - -52 - e)%Z with 52%Z by lia. cbv iota beta.
    rewrite Z.shiftl_mul_pow2 by lia.
    change (2 ^ 52)%Z with (Zpos 4503599627370496).
    rewrite div_eucl_mul, new_location_zero.
    apply binary_round_aux_canonical; assumption.
  - replace (Z.min _ _) with (e - 1)%Z by (rewrite fexp_eq in *; lia).
    replace (e - -52 - (e - 1))%Z with 53%Z by lia. cbv iota beta.
    rewrite Z.shiftl_mul_pow2 by lia.
    replace (Zpos m * 2 ^ 53)%Z with (Zpos m~0 * Zpos 4503599627370496)%Z
      by (change (2 ^ 53)%Z with (2 * 4503599627370496)%Z; lia).
    rewrite div_eucl_mul, new_location_zero.
    apply binary_round_aux_double; try assumption.
    rewrite fexp_eq in *; lia.
Qed.

(** [x / 1.0] is [x], bit for bit. *)
Lemma div_one (x : float) : x / 1 = x.
Proof.
  apply Prim2SF_inj. rewrite div_spec.
  change (Prim2SF 1) with (S754_finite false 4503599627370496 (-52)).
  pose proof (Prim2SF_valid x) as Hv.
  destruct (Prim2SF x) as [s|s| |s m e].
  - unfold SF64div, SFdiv. rewrite xorb_false_r. reflexivity.
  - unfold SF64div, SFdiv. rewrite xorb_false_r. reflexivity.
  - reflexivity.
  - apply SFdiv_one. exact Hv.
Qed.

Lemma SFdiv_self s m e :
  SF64div (S754_finite s m e) (S754_finite s m e)
  = S754_finite false 4503599627370496 (-52).
Proof.
  unfold SF64div, SFdiv, SFdiv_core_binary.
  replace (Zdigits2 (Zpos m) + e - (Zdigits2 (Zpos m) + e))%Z with 0%Z by lia.
  rewrite Z.sub_diag.
  change (Z.min (fexp prec emax 0) 0) with (-53)%Z.
  change (0 - -53)%Z with 53%Z. cbv iota beta.
  rewrite Z.shiftl_mul_pow2 by lia.
  replace (Zpos m * 2 ^ 53)%Z with (9007199254740992 * Zpos m)%Z
    by (change (2 ^ 53)%Z with 9007199254740992%Z; lia).
  rewrite div_eucl_mul, new_location_zero.
  rewrite xorb_nilpotent. vm_compute. reflexivity.
Qed.

Lemma finite_nonzero_inv (x : float) :
  finite_nonzero x = true -> exists s m e, Prim2SF x = S754_finite s m e.
Proof.
  unfold finite_nonzero, is_finite, is_zero, is_infinity, is_nan.
  rewrite !eqb_spec, abs_spec.
  change (Prim2SF zero) with (S754_zero false).
  change (Prim2SF infinity) with (S754_infinity false).
  destruct (Prim2SF x) as [s|s| |s m e]; simpl; try discriminate.
  - destruct s; discriminate.
  - intros _. eauto.
Qed.

(** [x / x] is 1.0 for every finite nonzero [x]. *)
Lemma div_self (x : float) : finite_nonzero x = true -> x / x = 1.
Proof.
  intros H. destruct (finite_nonzero_inv _ H) as (s & m & e & E).
  apply Prim2SF_inj. rewrite div_spec, E, SFdiv_self. reflexivity.
Qed.

Lemma finite_nonzero_not_nan (x : float) :
  finite_nonzero x = true -> is_nan x = false.
Proof.
  intros H. destruct (finite_nonzero_inv _ H) as (s & m & e & E).
  apply is_nan_false. rewrite E. discriminate.
Qed.

(** *** Addition *)

(** [0.0 + x] compares equal to [x] (it is [+0.0] when [x] is [-0.0]). *)
Lemma add_zero_l (x : float) : is_nan x = false -> (0 + x =? x) = true.
Proof.
  unfold is_nan. rewrite !eqb_spec, add_spec.
  change (Prim2SF 0) with (S754_zero false).
  destruct (Prim2SF x) as [s|s| |s m e]; unfold SF64add, SFadd, SFeqb; simpl.
  - destruct s; reflexivity.
  - destruct s; reflexivity.
  - discriminate.
  - intros _. rewrite Z.compare_refl, Pos.compare_cont_refl. destruct s; reflexivity.
Qed.

(** So [0.0 + (0.0 + x)] is [0.0 + x]: the first addition already turned
    a [-0.0] into [+0.0]. *)
Lemma add_zero_l_twice (x : float) : 0 + (0 + x) = 0 + x.
Proof.
  apply Prim2SF_inj. rewrite !add_spec.
  change (Prim2SF 0) with (S754_zero false).
  destruct (Prim2SF x) as [s|s| |s m e]; try reflexivity; destruct s; reflexivity.
Qed.

(** *** NaN and the infinities in comparisons *)

Lemma eqb_nan_l (x y : float) : is_nan x = true -> (x =? y) = false.
Proof.
  rewrite is_nan_spec, eqb_spec. intros ->. reflexivity.
Qed.

Lemma leb_neg_infinity_l (x : float) :
  is_nan x = false -> (neg_infinity <=? x) = true.
Proof.
  rewrite is_nan_false, leb_spec. change (Prim2SF neg_infinity) with (S754_infinity true).
  destruct (Prim2SF x) as [s|s| |s m e]; try congruence; destruct s; reflexivity.
Qed.

Lemma leb_infinity_r (x : float) :
  is_nan x = false -> (x <=? infinity) = true.
Proof.
  rewrite is_nan_false, leb_spec. change (Prim2SF infinity) with (S754_infinity false).
  destruct (Prim2SF x) as [s|s| |s m e]; try congruence; destruct s; reflexivity.
Qed.

Lemma leb_neg_infinity_inv (x : float) :
  (x <=? neg_infinity) = true -> x = neg_infinity.
Proof.
  rewrite leb_spec. change (Prim2SF neg_infinity) with (S754_infinity true).
  intros H. apply Prim2SF_inj. change (Prim2SF neg_infinity) with (S754_infinity true).
  destruct (Prim2SF x) as [s|s| |s m e]; try discriminate H; destruct s;
    try discriminate H; reflexivity.
Qed.

Lemma leb_infinity_inv (x : float) :
  (infinity <=? x) = true -> x = infinity.
Proof.
  rewrite leb_spec. change (Prim2SF infinity) with (S754_infinity false).
  intros H. apply Prim2SF_inj. change (Prim2SF infinity) with (S754_infinity false).
  destruct (Prim2SF x) as [s|s| |s m e]; try discriminate H; destruct s;
    try discriminate H; reflexivity.
Qed.

Lemma leb_refl (x : float) : is_nan x = false -> (x <=? x) = true.
Proof.
  intros Hx. rewrite leb_spec. apply is_nan_false in Hx.
  unfold SFleb. rewrite SFcompare_refl by assumption. reflexivity.
Qed.

(** An infinity over itself is NaN, and so is what is computed from it. *)
Lemma growth_of_infinity (x : float) :
  is_infinity x = true -> (x / x - 1) * 100 = nan.
Proof.
  intros H.
  assert (Hdiv : x / x = nan).
  { apply Prim2SF_inj. rewrite div_spec. change (Prim2SF nan) with S754_nan.
    unfold is_infinity in H. rewrite eqb_spec, abs_spec in H.
    change (Prim2SF infinity) with (S754_infinity false) in H.
    destruct (Prim2SF x) as [s|s| |s m e]; try discriminate H; reflexivity. }
  rewrite Hdiv. reflexivity.
Qed.

End FloatFacts.

(** ** Sample runs *)

Example gdp_formula_scalars :
  gdp_formula 5000 1500 2000 1800 1600 = Ok 8700.
Proof. reflexivity. Qed.

Example gdp_formula_broadcast_scalar :
  gdp_formula (NpArray [5000; 5200]) (NpArray [1500; 1580]) (NpFloat 2000)
              (NpArray [1800; 1890]) (NpArray [1600; 1685])
  = Ok (NpArray [8700; 8985]).
Proof. vm_compute. reflexivity. Qed.

Example gdp_formula_ints :
  gdp_formula 5000%Z 1500%Z 2000%Z 1800%Z 1600%Z = Ok 8700%Z.
Proof. reflexivity. Qed.

Example main_run :
  fst (main fresh_world) = Ok tt
  /\ map fst (files (snd (main fresh_world)))
     = ["gdp_trend.png"; "gdp_components.png"; "gdp_growth_rate.png";
        "all_components_trends.png"]%string.
Proof. vm_compute. split; reflexivity. Qed.

(** Sums of ten and of three hundred values go through the unrolled and
    the recursive branch of the pairwise sum. *)
Example np_sum_ten : np_sum [1; 2; 3; 4; 5; 6; 7; 8; 9; 10] = 55.
Proof. vm_compute. reflexivity. Qed.

Example np_sum_three_hundred : np_sum (repeat 0.5 300) = 150.
Proof. vm_compute. reflexivity. Qed.

Example sample_years :
  option_map Year (self_data (snd (generate_sample_data 3 2015 fresh_world)))
  = Some [2015%Z; 2016%Z; 2017%Z].
Proof. vm_compute. reflexivity. Qed.

(** ** Lists *)

Lemma zip_with_length {A B C} (f : A -> B -> C) xs ys :
  length (zip_with f xs ys) = Nat.min (length xs) (length ys).
Proof.
  revert ys. induction xs as [|x xs IH]; intros [|y ys]; simpl; auto.
Qed.

Lemma nth_error_zip_with {A B C} (f : A -> B -> C) xs ys k :
  nth_error (zip_with f xs ys) k =
  match nth_error xs k, nth_error ys k with
  | Some x, Some y => Some (f x y)
  | _, _ => None
  end.
Proof.
  revert ys k. induction xs as [|x xs IH]; intros [|y ys] [|k]; simpl; auto.
  - destruct (nth_error xs k); reflexivity.
Qed.

Lemma reindex_same n xs : length xs = n -> reindex n xs = xs.
Proof.
  intros <-. unfold reindex. rewrite Nat.sub_diag. simpl.
  rewrite app_nil_r. apply firstn_all.
Qed.

Lemma series_binop_same op a b :
  length a = length b ->
  series_binop op (mkSeries a) (mkSeries b) = Ok (mkSeries (zip_with op a b)).
Proof.
  intros H. unfold series_binop. simpl. rewrite <- H, Nat.max_id.
  rewrite !reindex_same by congruence. reflexivity.
Qed.

Lemma np_binop_same op xs ys :
  length xs = length ys ->
  np_binop op (NpArray xs) (NpArray ys) = Ok (NpArray (zip_with op xs ys)).
Proof.
  intros H. simpl. rewrite H, Nat.eqb_refl. reflexivity.
Qed.

(** The columns of the formula, position by position. *)
Lemma nth_error_formula cs vs gs xs ms k c i g x m :
  nth_error cs k = Some c -> nth_error vs k = Some i -> nth_error gs k = Some g ->
  nth_error xs k = Some x -> nth_error ms k = Some m ->
  nth_error (zip_with add (zip_with add (zip_with add cs vs) gs) (zip_with sub xs ms)) k
  = Some (c + i + g + (x - m)).
Proof.
  intros Hc Hi Hg Hx Hm.
  rewrite !nth_error_zip_with, Hc, Hi, Hg, Hx, Hm. reflexivity.
Qed.

Lemma length_formula cs vs gs xs ms n :
  length cs = n -> length vs = n -> length gs = n -> length xs = n -> length ms = n ->
  length (zip_with add (zip_with add (zip_with add cs vs) gs) (zip_with sub xs ms)) = n.
Proof.
  intros. rewrite !zip_with_length. lia.
Qed.

Lemma gdp_formula_arrays cs vs gs xs ms n :
  length cs = n -> length vs = n -> length gs = n -> length xs = n -> length ms = n ->
  gdp_formula (NpArray cs) (NpArray vs) (NpArray gs) (NpArray xs) (NpArray ms)
  = Ok (NpArray (zip_with add (zip_with add (zip_with add cs vs) gs) (zip_with sub xs ms))).
Proof.
  intros Hc Hi Hg Hx Hm. unfold gdp_formula. cbn [py_add py_sub np_operand].
  rewrite (np_binop_same sub xs ms) by congruence. cbn [rbind].
  rewrite (np_binop_same add cs vs) by congruence. cbn [rbind].
  rewrite np_binop_same by (rewrite zip_with_length; lia). cbn [rbind].
  rewrite np_binop_same by (rewrite !zip_with_length; lia). reflexivity.
Qed.

Lemma gdp_formula_series cs vs gs xs ms n :
  length cs = n -> length vs = n -> length gs = n -> length xs = n -> length ms = n ->
  gdp_formula (mkSeries cs) (mkSeries vs) (mkSeries gs) (mkSeries xs) (mkSeries ms)
  = Ok (mkSeries (zip_with add (zip_with add (zip_with add cs vs) gs) (zip_with sub xs ms))).
Proof.
  intros Hc Hi Hg Hx Hm. unfold gdp_formula. cbn [py_add py_sub series_operand].
  rewrite (series_binop_same sub xs ms) by congruence. cbn [rbind].
  rewrite (series_binop_same add cs vs) by congruence. cbn [rbind].
  rewrite series_binop_same by (rewrite zip_with_length; lia). cbn [rbind].
  rewrite series_binop_same by (rewrite !zip_with_length; lia). reflexivity.
Qed.

(** ** [calculate_gdp] *)

(** The method returns the value of its body and hands the world back,
    whether an operation raises or not. *)
Lemma calculate_gdp_run {L : Libraries} {A : Type} {O : Operand A}
    (c i g x m : A) (w : world) :
  calculate_gdp c i g x m w = (gdp_formula c i g x m, w).
Proof.
  unfold calculate_gdp, gdp_formula, bind, lift, ret, rbind.
  destruct (py_sub x m) as [nx|e]; [|reflexivity].
  destruct (py_add c i) as [t1|e]; [|reflexivity].
  destruct (py_add t1 g) as [t2|e]; [|reflexivity].
  destruct (py_add t2 nx) as [gdp|e]; reflexivity.
Qed.

(** C1: on floats and on ints [calculate_gdp] returns
    [c + i + g + (x - m)]; on NumPy arrays and on pandas Series of one
    common length it returns the sequence of that length whose element at
    each position is the formula over the inputs at that position; and
    [calculate_gdp(5000, 1500, 2000, 1800, 1600)] is 8700. *)
Theorem calculate_gdp_returns_formula {L : Libraries} (w : world) :
  (forall c i g x m : float,
      calculate_gdp c i g x m w = (Ok (c + i + g + (x - m)), w))
  /\ (forall c i g x m : Z,
      calculate_gdp c i g x m w = (Ok (c + i + g + (x - m))%Z, w))
  /\ (forall (cs vs gs xs ms : list float) (n : nat),
      length cs = n -> length vs = n -> length gs = n ->
      length xs = n -> length ms = n ->
      exists out,
        calculate_gdp (NpArray cs) (NpArray vs) (NpArray gs) (NpArray xs) (NpArray ms) w
        = (Ok (NpArray out), w)
        /\ length out = n
        /\ forall k c i g x m,
            nth_error cs k = Some c -> nth_error vs k = Some i ->
            nth_error gs k = Some g -> nth_error xs k = Some x ->
            nth_error ms k = Some m ->
            nth_error out k = Some (c + i + g + (x - m)))
  /\ (forall (cs vs gs xs ms : list float) (n : nat),
      length cs = n -> length vs = n -> length gs = n ->
      length xs = n -> length ms = n ->
      exists out,
        calculate_gdp (mkSeries cs) (mkSeries vs) (mkSeries gs) (mkSeries xs) (mkSeries ms) w
        = (Ok (mkSeries out), w)
        /\ length out = n
        /\ forall k c i g x m,
            nth_error cs k = Some c -> nth_error vs k = Some i ->
            nth_error gs k = Some g -> nth_error xs k = Some x ->
            nth_error ms k = Some m ->
            nth_error out k = Some (c + i + g + (x - m)))
  /\ calculate_gdp 5000 1500 2000 1800 1600 w = (Ok 8700, w)
  /\ calculate_gdp 5000%Z 1500%Z 2000%Z 1800%Z 1600%Z w = (Ok 8700%Z, w).
Proof.
  split; [|split; [|split; [|split; [|split]]]].
  - reflexivity.
  - reflexivity.
  - intros cs vs gs xs ms n Hc Hi Hg Hx Hm.
    eexists. split; [|split].
    + rewrite calculate_gdp_run.
      rewrite (gdp_formula_arrays cs vs gs xs ms n) by assumption. reflexivity.
    + apply length_formula; assumption.
    + intros. apply nth_error_formula; assumption.
  - intros cs vs gs xs ms n Hc Hi Hg Hx Hm.
    eexists. split; [|split].
    + rewrite calculate_gdp_run.
      rewrite (gdp_formula_series cs vs gs xs ms n) by assumption. reflexivity.
    + apply length_formula; assumption.
    + intros. apply nth_error_formula; assumption.
  - reflexivity.
  - reflexivity.
Qed.

Lemma calculate_gdp_returns_formula_witness :
  exists out,
    calculate_gdp (NpArray [5000; 5200]) (NpArray [1500; 1580]) (NpArray [2000; 2100])
                  (NpArray [1800; 1890]) (NpArray [1600; 1685]) fresh_world
    = (Ok (NpArray out), fresh_world)
    /\ length out = 2%nat
    /\ nth_error out 1 = Some (5200 + 1580 + 2100 + (1890 - 1685)).
Proof.
  destruct (proj1 (proj2 (proj2 (calculate_gdp_returns_formula fresh_world)))
              [5000; 5200] [1500; 1580] [2000; 2100] [1800; 1890] [1600; 1685] 2%nat
              eq_refl eq_refl eq_refl eq_refl eq_refl) as (out & Hrun & Hlen & Hnth).
  exists out. split; [exact Hrun | split; [exact Hlen |]].
  apply Hnth; reflexivity.
Defined.

(** C7: for every kind of operand, every input and every prior world,
    [calculate_gdp] leaves the world as it found it (the stored table,
    [gdp_values], the generator, the console and the files), whether it
    returns or raises; its outcome is a function of its arguments. *)
Theorem calculate_gdp_pure {L : Libraries} {A : Type} {O : Operand A}
    (c i g x m : A) (w : world) :
  snd (calculate_gdp c i g x m w) = w
  /\ self_data (snd (calculate_gdp c i g x m w)) = self_data w
  /\ self_gdp_values (snd (calculate_gdp c i g x m w)) = self_gdp_values w
  /\ stdout (snd (calculate_gdp c i g x m w)) = stdout w
  /\ files (snd (calculate_gdp c i g x m w)) = files w
  /\ fst (calculate_gdp c i g x m w) = gdp_formula c i g x m.
Proof.
  rewrite calculate_gdp_run. cbn [fst snd]. repeat split.
Qed.

(** C10: before the table is populated every consumer raises the
    ValueError of its guard and changes nothing: no state, no console
    output, no file. *)
Theorem consumers_require_data {L : Libraries} (w : world) (save_path : string) :
  self_data w = None ->
  plot_gdp_trend save_path w = (Raise NoData, w)
  /\ plot_gdp_components save_path w = (Raise NoData, w)
  /\ plot_growth_rate save_path w = (Raise NoData, w)
  /\ plot_all_components_trends save_path w = (Raise NoData, w)
  /\ print_summary w = (Raise NoData, w).
Proof.
  intros H.
  unfold plot_gdp_trend, plot_gdp_components, plot_growth_rate,
    plot_all_components_trends, print_summary, require_data, bind, get_data, raise.
  rewrite H. repeat split.
Qed.

Lemma consumers_require_data_witness :
  plot_gdp_trend "gdp_trend.png" fresh_world = (Raise NoData, fresh_world)
  /\ plot_gdp_components "gdp_trend.png" fresh_world = (Raise NoData, fresh_world)
  /\ plot_growth_rate "gdp_trend.png" fresh_world = (Raise NoData, fresh_world)
  /\ plot_all_components_trends "gdp_trend.png" fresh_world = (Raise NoData, fresh_world)
  /\ print_summary fresh_world = (Raise NoData, fresh_world).
Proof.
  apply (consumers_require_data fresh_world "gdp_trend.png"). reflexivity.
Defined.

(** ** [generate_sample_data] *)

Lemma py_range_length a b : length (py_range a b) = Z.to_nat (b - a).
Proof. unfold py_range. rewrite length_map, length_seq. reflexivity. Qed.

Lemma draw_column_length {L : Libraries} base step sd idx g :
  length (fst (draw_column base step sd idx g)) = length idx.
Proof.
  revert g. induction idx as [|i idx IH]; intros g; simpl; auto.
  destruct (np_normal 0 sd g) as [x g1].
  specialize (IH g1). destruct (draw_column base step sd idx g1) as [xs g2].
  simpl in *. congruence.
Qed.

(** The comprehension of a column only moves the generator. *)
Lemma comprehension_draw {L : Libraries} base step sd idx w :
  comprehension
    (fun i => bind (normal 0 sd) (fun x => ret (float_of_int (base + i * step) + x)))
    idx w
  = (Ok (fst (draw_column base step sd idx (np_random w))),
     with_rng w (snd (draw_column base step sd idx (np_random w)))).
Proof.
  revert w. induction idx as [|i idx IH]; intros w.
  - destruct w; reflexivity.
  - simpl. unfold bind at 1. unfold bind at 1. unfold normal.
    destruct (np_normal 0 sd (np_random w)) as [x g1] eqn:E.
    unfold ret at 1. unfold bind at 1. rewrite IH. simpl.
    destruct (draw_column base step sd idx g1) as [xs g2]. reflexivity.
Qed.

(** A Series that has the frame's index is attached as it is. *)
Lemma set_GDP_same_index df s :
  length (values s) = nrows df ->
  set_GDP df s
  = Ok {| Year := Year df; Consumption := Consumption df; Investment := Investment df;
          Government_Spending := Government_Spending df; Exports := Exports df;
          Imports := Imports df; GDP := Some (values s);
          Net_Exports := Net_Exports df |}.
Proof.
  intros H. unfold set_GDP, grows_frame. rewrite reindex_same by assumption. rewrite H.
  destruct (Nat.eqb (nrows df) 0); reflexivity.
Qed.

Lemma set_Net_Exports_same_index df s :
  length (values s) = nrows df ->
  set_Net_Exports df s
  = Ok {| Year := Year df; Consumption := Consumption df; Investment := Investment df;
          Government_Spending := Government_Spending df; Exports := Exports df;
          Imports := Imports df; GDP := GDP df;
          Net_Exports := Some (values s) |}.
Proof.
  intros H. unfold set_Net_Exports, grows_frame. rewrite reindex_same by assumption. rewrite H.
  destruct (Nat.eqb (nrows df) 0); reflexivity.
Qed.

(** What a call does, whatever the world it starts from. *)
Lemma generate_sample_data_run {L : Libraries} years start_year w :
  generate_sample_data years start_year w
  = (Ok (sample_table years start_year),
     with_data (with_rng w (snd (sample_draws years))) (sample_table years start_year)).
Proof.
  unfold generate_sample_data, sample_table, sample_draws.
  unfold bind at 1. unfold seed at 1.
  unfold bind at 1. rewrite comprehension_draw. cbn [np_random with_rng].
  pose proof (draw_column_length 5000 200 100 (py_range 0 years) (np_seed 42)) as Hc.
  destruct (draw_column 5000 200 100 (py_range 0 years) (np_seed 42)) as [c g1].
  cbn [fst snd] in *.
  unfold bind at 1. rewrite comprehension_draw. cbn [np_random with_rng].
  pose proof (draw_column_length 1500 80 50 (py_range 0 years) g1) as Hi.
  destruct (draw_column 1500 80 50 (py_range 0 years) g1) as [i g2].
  cbn [fst snd] in *.
  unfold bind at 1. rewrite comprehension_draw. cbn [np_random with_rng].
  pose proof (draw_column_length 2000 100 60 (py_range 0 years) g2) as Hg.
  destruct (draw_column 2000 100 60 (py_range 0 years) g2) as [g g3].
  cbn [fst snd] in *.
  unfold bind at 1. rewrite comprehension_draw. cbn [np_random with_rng].
  pose proof (draw_column_length 1800 90 70 (py_range 0 years) g3) as Hx.
  destruct (draw_column 1800 90 70 (py_range 0 years) g3) as [x g4].
  cbn [fst snd] in *.
  unfold bind at 1. rewrite comprehension_draw. cbn [np_random with_rng].
  pose proof (draw_column_length 1600 85 65 (py_range 0 years) g4) as Hm.
  destruct (draw_column 1600 85 65 (py_range 0 years) g4) as [m g5].
  cbn [fst snd] in *.
  rewrite py_range_length in *.
  assert (Hy : length (py_range start_year (start_year + years)) = Z.to_nat (years - 0)).
  { rewrite py_range_length. f_equal. lia. }
  unfold bind at 1. unfold set_data at 1. unfold bind at 1.
  rewrite calculate_gdp_run. cbn [Year Consumption Investment
    Government_Spending Exports Imports].
  rewrite (gdp_formula_series c i g x m (Z.to_nat (years - 0))) by assumption.
  rewrite set_GDP_same_index
    by (unfold nrows; cbn [values Year]; rewrite Hy; apply length_formula; assumption).
  unfold bind at 1. unfold lift at 1. unfold bind at 1. unfold set_data at 1.
  cbn [Year Consumption Investment Government_Spending Exports Imports GDP Net_Exports
       values].
  cbn [py_sub series_operand].
  rewrite series_binop_same by congruence.
  unfold bind at 1. unfold lift at 1.
  rewrite set_Net_Exports_same_index
    by (unfold nrows; cbn [values Year]; rewrite zip_with_length; lia).
  unfold bind, set_data, lift, ret, with_data, with_rng.
  cbn [Year Consumption Investment Government_Spending Exports Imports GDP Net_Exports
       values self_data self_gdp_values np_random stdout files].
  reflexivity.
Qed.

Lemma sample_draws_lengths {L : Libraries} years :
  let '(c, i, g, x, m, _) := sample_draws years in
  length c = Z.to_nat years /\ length i = Z.to_nat years /\ length g = Z.to_nat years
  /\ length x = Z.to_nat years /\ length m = Z.to_nat years.
Proof.
  unfold sample_draws.
  pose proof (draw_column_length 5000 200 100 (py_range 0 years) (np_seed 42)) as Hc.
  destruct (draw_column 5000 200 100 (py_range 0 years) (np_seed 42)) as [c g1].
  pose proof (draw_column_length 1500 80 50 (py_range 0 years) g1) as Hi.
  destruct (draw_column 1500 80 50 (py_range 0 years) g1) as [i g2].
  pose proof (draw_column_length 2000 100 60 (py_range 0 years) g2) as Hg.
  destruct (draw_column 2000 100 60 (py_range 0 years) g2) as [g g3].
  pose proof (draw_column_length 1800 90 70 (py_range 0 years) g3) as Hx.
  destruct (draw_column 1800 90 70 (py_range 0 years) g3) as [x g4].
  pose proof (draw_column_length 1600 85 65 (py_range 0 years) g4) as Hm.
  destruct (draw_column 1600 85 65 (py_range 0 years) g4) as [m g5].
  cbn [fst] in *. rewrite py_range_length in *.
  replace (years - 0)%Z with years in * by lia. auto.
Qed.

(** Attaching the formula columns establishes the invariant on every row. *)
Lemma zip_periods_invariant ys c i g x m n :
  length ys = n -> length c = n -> length i = n -> length g = n ->
  length x = n -> length m = n ->
  let rows := zip_periods ys c i g x m
                (zip_with add (zip_with add (zip_with add c i) g) (zip_with sub x m))
                (zip_with sub x m) in
  length rows = n /\ Forall gdp_invariant rows.
Proof.
  revert ys c i g x m. induction n as [|n IH];
    intros [|y ys] [|c0 c] [|i0 i] [|g0 g] [|x0 x] [|m0 m]; simpl;
    try discriminate; intros Hy Hc Hi Hg Hx Hm.
  - split; [reflexivity | constructor].
  - destruct (IH ys c i g x m) as [Hlen Hall]; try congruence.
    split; [simpl; congruence |].
    constructor; [split; reflexivity | exact Hall].
Qed.

Lemma sample_table_spec {L : Libraries} years start_year :
  well_formed (sample_table years start_year)
  /\ length (records (sample_table years start_year)) = Z.to_nat years
  /\ Forall gdp_invariant (records (sample_table years start_year))
  /\ Year (sample_table years start_year) = py_range start_year (start_year + years).
Proof.
  unfold sample_table. pose proof (sample_draws_lengths years) as H.
  destruct (sample_draws years) as [[[[[c i] g] x] m] g5].
  destruct H as (Hc & Hi & Hg & Hx & Hm).
  assert (Hy : length (py_range start_year (start_year + years)) = Z.to_nat years).
  { rewrite py_range_length. f_equal. lia. }
  unfold well_formed, records, nrows. cbn [Year Consumption Investment
    Government_Spending Exports Imports GDP Net_Exports].
  destruct (zip_periods_invariant (py_range start_year (start_year + years))
              c i g x m (Z.to_nat years)) as [Hlen Hall]; try assumption.
  rewrite Hy. repeat split; try assumption.
  - intros gdp [= <-]. apply length_formula; assumption.
  - intros nx [= <-]. rewrite zip_with_length. lia.
Qed.

(** C2: the table that [generate_sample_data] stores and returns, for any
    [years] and [start_year] and from any world, has [years] records (none
    when [years] is not positive), and in every record GDP is exactly
    Consumption + Investment + GovernmentSpending + (Exports - Imports) and
    NetExports is exactly Exports - Imports. *)
Theorem generated_table_invariant {L : Libraries} (years start_year : Z) (w : world) :
  exists df,
    fst (generate_sample_data years start_year w) = Ok df
    /\ self_data (snd (generate_sample_data years start_year w)) = Some df
    /\ well_formed df
    /\ length (records df) = Z.to_nat years
    /\ Forall gdp_invariant (records df).
Proof.
  exists (sample_table years start_year).
  rewrite generate_sample_data_run. cbn [fst snd with_data self_data].
  destruct (sample_table_spec years start_year) as (Hwf & Hlen & Hall & _).
  auto.
Qed.

(** C9: a call reseeds the generator with 42 and draws, in this order, the
    columns Consumption, Investment, Government_Spending, Exports and
    Imports, each with one draw per year: column [c] is what
    [draw_column] makes of the state [np_seed 42], column [i] of the state
    that [c] leaves, and so on.  The table made of the years
    [start_year], [start_year + 1], ..., [start_year + years - 1], of these
    columns and of the two derived columns is what the call returns and
    stores, and the generator is left in the state after the last draw.
    None of this depends on the world the call starts from: two calls with
    the same [years] and [start_year] return and store the same table and
    leave the generator in the same state. *)
Theorem generate_sample_data_deterministic {L : Libraries}
    (years start_year : Z) (w1 w2 : world) :
  (exists c i g x m s1 s2 s3 s4 s5,
     draw_column 5000 200 100 (py_range 0 years) (np_seed 42) = (c, s1)
     /\ draw_column 1500 80 50 (py_range 0 years) s1 = (i, s2)
     /\ draw_column 2000 100 60 (py_range 0 years) s2 = (g, s3)
     /\ draw_column 1800 90 70 (py_range 0 years) s3 = (x, s4)
     /\ draw_column 1600 85 65 (py_range 0 years) s4 = (m, s5)
     /\ generate_sample_data years start_year w1
        = (Ok {| Year := map (fun k => (start_year + Z.of_nat k)%Z)
                             (seq 0 (Z.to_nat years));
                 Consumption := c; Investment := i; Government_Spending := g;
                 Exports := x; Imports := m;
                 GDP := Some (zip_with add (zip_with add (zip_with add c i) g)
                                       (zip_with sub x m));
                 Net_Exports := Some (zip_with sub x m) |},
           {| self_data :=
                Some {| Year := map (fun k => (start_year + Z.of_nat k)%Z)
                                    (seq 0 (Z.to_nat years));
                        Consumption := c; Investment := i; Government_Spending := g;
                        Exports := x; Imports := m;
                        GDP := Some (zip_with add (zip_with add (zip_with add c i) g)
                                              (zip_with sub x m));
                        Net_Exports := Some (zip_with sub x m) |};
              self_gdp_values := self_gdp_values w1;
              np_random := s5;
              stdout := stdout w1;
              files := files w1 |}))
  /\ fst (generate_sample_data years start_year w1)
     = fst (generate_sample_data years start_year w2)
  /\ self_data (snd (generate_sample_data years start_year w1))
     = self_data (snd (generate_sample_data years start_year w2))
  /\ np_random (snd (generate_sample_data years start_year w1))
     = np_random (snd (generate_sample_data years start_year w2))
  /\ exists df,
       fst (generate_sample_data years start_year w1) = Ok df
       /\ Year df = map (fun k => (start_year + Z.of_nat k)%Z) (seq 0 (Z.to_nat years)).
Proof.
  assert (Hy : py_range start_year (start_year + years)
               = map (fun k => (start_year + Z.of_nat k)%Z) (seq 0 (Z.to_nat years))).
  { unfold py_range. do 3 f_equal. lia. }
  rewrite !generate_sample_data_run. cbn [fst snd with_data with_rng self_data np_random].
  split; [|repeat split].
  - unfold sample_table, sample_draws.
    destruct (draw_column 5000 200 100 (py_range 0 years) (np_seed 42)) as [c s1].
    destruct (draw_column 1500 80 50 (py_range 0 years) s1) as [i s2] eqn:Ei.
    destruct (draw_column 2000 100 60 (py_range 0 years) s2) as [g s3] eqn:Eg.
    destruct (draw_column 1800 90 70 (py_range 0 years) s3) as [x s4] eqn:Ex.
    destruct (draw_column 1600 85 65 (py_range 0 years) s4) as [m s5] eqn:Em.
    exists c, i, g, x, m, s1, s2, s3, s4, s5.
    cbn [snd self_gdp_values stdout files]. rewrite Hy.
    repeat split; assumption.
  - exists (sample_table years start_year). split; [reflexivity |].
    destruct (sample_table_spec years start_year) as (_ & _ & _ & Hyear).
    rewrite Hyear. exact Hy.
Qed.

(** ** Reductions *)

Lemma no_nan_cons x xs : no_nan (x :: xs) = true <-> is_nan x = false /\ no_nan xs = true.
Proof.
  unfold no_nan. simpl. rewrite andb_true_iff, negb_true_iff. reflexivity.
Qed.

Lemma no_nan_In xs x : no_nan xs = true -> In x xs -> is_nan x = false.
Proof.
  unfold no_nan. rewrite forallb_forall. intros H Hin.
  apply negb_true_iff. apply H. exact Hin.
Qed.

Lemma fill_na_no_nan d xs : no_nan xs = true -> map (fill_na d) xs = xs.
Proof.
  induction xs as [|x xs IH]; simpl; auto.
  intros H. apply no_nan_cons in H as [Hx Hxs].
  unfold fill_na at 1. rewrite Hx, IH by assumption. reflexivity.
Qed.

Lemma no_nan_not_all_na x xs : no_nan (x :: xs) = true -> all_na (x :: xs) = false.
Proof.
  intros H. apply no_nan_cons in H as [Hx _]. unfold all_na. simpl. rewrite Hx. reflexivity.
Qed.

(** Filling NaN leaves none. *)
Lemma no_nan_filled d xs : is_nan d = false -> no_nan (map (fill_na d) xs) = true.
Proof.
  intros Hd. induction xs as [|x xs IH]; [reflexivity |].
  cbn [map]. apply no_nan_cons. split; [|exact IH].
  unfold fill_na. destruct (is_nan x) eqn:E; assumption.
Qed.

(** The values that are not NaN. *)
Lemma no_nan_filter xs : no_nan (filter (fun x => negb (is_nan x)) xs) = true.
Proof.
  induction xs as [|x xs IH]; [reflexivity |].
  cbn [filter]. destruct (is_nan x) eqn:E; cbn [negb]; [exact IH |].
  apply no_nan_cons. auto.
Qed.

Lemma filter_no_nan xs : no_nan xs = true -> filter (fun x => negb (is_nan x)) xs = xs.
Proof.
  induction xs as [|x xs IH]; [reflexivity |].
  intros H. apply no_nan_cons in H as [Hx Hxs].
  cbn [filter]. rewrite Hx, IH by assumption. reflexivity.
Qed.

Lemma filter_all_na xs :
  all_na xs = false -> filter (fun x => negb (is_nan x)) xs <> [].
Proof.
  induction xs as [|x xs IH]; [discriminate |].
  unfold all_na. cbn [forallb filter]. destruct (is_nan x); cbn [negb andb].
  - exact IH.
  - intros _. discriminate.
Qed.

Lemma arg_scan_bound keep xs mp best i :
  (best < i)%nat -> (arg_scan keep mp best i xs < i + length xs)%nat.
Proof.
  revert mp best i. induction xs as [|x xs IH]; intros mp best i Hb; simpl.
  - lia.
  - destruct (is_nan mp); [lia |].
    destruct (negb (keep mp x)).
    + specialize (IH x i (S i) ltac:(lia)). lia.
    + specialize (IH mp best (S i) ltac:(lia)). lia.
Qed.

Lemma np_argmax_bound xs p : np_argmax xs = Ok p -> (p < length xs)%nat.
Proof.
  destruct xs as [|x xs]; simpl; [discriminate |].
  intros [= <-]. pose proof (arg_scan_bound (fun mp x => x <=? mp) xs x 0 1 ltac:(lia)). lia.
Qed.

Lemma np_argmin_bound xs p : np_argmin xs = Ok p -> (p < length xs)%nat.
Proof.
  destruct xs as [|x xs]; simpl; [discriminate |].
  intros [= <-]. pose proof (arg_scan_bound (fun mp x => mp <=? x) xs x 0 1 ltac:(lia)). lia.
Qed.

(** *** Labels *)

Lemma with_labels_from_values a (xs : list float) :
  map snd (combine (seq a (length xs)) xs) = xs.
Proof.
  revert a. induction xs as [|x xs IH]; intros a; simpl; [reflexivity |].
  rewrite IH. reflexivity.
Qed.

Lemma with_labels_values xs : map snd (with_labels xs) = xs.
Proof. apply with_labels_from_values. Qed.

Lemma nth_error_labels a (xs : list float) p :
  (p < length xs)%nat ->
  exists v, nth_error (combine (seq a (length xs)) xs) p = Some ((a + p)%nat, v).
Proof.
  revert a p. induction xs as [|x xs IH]; intros a p Hp; simpl in *; [lia |].
  destruct p as [|p].
  - exists x. simpl. rewrite Nat.add_0_r. reflexivity.
  - destruct (IH (S a) p ltac:(lia)) as [v Hv]. exists v. simpl. rewrite Hv.
    replace (a + S p)%nat with (S a + p)%nat by lia. reflexivity.
Qed.

Lemma label_at_with_labels xs p :
  (p < length xs)%nat -> label_at (with_labels xs) p = Ok p.
Proof.
  intros Hp. unfold label_at, with_labels.
  destruct (nth_error_labels 0 xs p Hp) as [v Hv]. rewrite Hv. reflexivity.
Qed.

Lemma slice_values xs : map snd (slice_from 1 (with_labels xs)) = skipn 1 xs.
Proof.
  unfold slice_from, with_labels. destruct xs as [|x xs]; [reflexivity |].
  simpl. apply with_labels_from_values.
Qed.

Lemma label_at_slice xs p :
  (p < length (skipn 1 xs))%nat -> label_at (slice_from 1 (with_labels xs)) p = Ok (S p).
Proof.
  intros Hp. unfold label_at, slice_from, with_labels.
  destruct xs as [|x xs]; simpl in *; [lia |].
  destruct (nth_error_labels 1 xs p Hp) as [v Hv]. rewrite Hv. reflexivity.
Qed.

(** *** The positions of the values that are not NaN *)

Lemma valid_values a xs :
  map snd (filter (fun p : nat * float => negb (is_nan (snd p)))
                  (combine (seq a (length xs)) xs))
  = filter (fun x => negb (is_nan x)) xs.
Proof.
  revert a. induction xs as [|x xs IH]; intros a; [reflexivity |].
  cbn [length seq combine filter snd]. destruct (is_nan x); cbn [negb map snd].
  - apply IH.
  - rewrite IH. reflexivity.
Qed.

Lemma valid_labels_bound a xs l :
  In l (map fst (filter (fun p : nat * float => negb (is_nan (snd p)))
                        (combine (seq a (length xs)) xs))) ->
  (a <= l < a + length xs)%nat.
Proof.
  revert a. induction xs as [|x xs IH]; intros a; cbn [length seq combine filter snd].
  - intros [].
  - destruct (is_nan x); cbn [negb map fst In].
    + intros H. apply IH in H. lia.
    + intros [<- | H]; [lia |]. apply IH in H. lia.
Qed.

(** Leaving NaN out finds a position exactly where filling does: on a
    Series that has a value other than NaN. *)
Lemma arg_skipping_nan_ok arg xs :
  (forall vs, vs <> [] -> exists p, arg vs = Ok p /\ (p < length vs)%nat) ->
  all_na xs = false ->
  exists p, arg_skipping_nan arg xs = Ok p /\ (p < length xs)%nat.
Proof.
  intros Harg H. unfold arg_skipping_nan. rewrite H.
  destruct xs as [|x xs]; [discriminate H |].
  unfold with_labels.
  set (valid := filter (fun p : nat * float => negb (is_nan (snd p)))
                       (combine (seq 0 (length (x :: xs))) (x :: xs))).
  assert (Hv : map snd valid = filter (fun y => negb (is_nan y)) (x :: xs))
    by apply valid_values.
  destruct (Harg (map snd valid)) as (p & Hp & Hlt).
  { rewrite Hv. apply filter_all_na. exact H. }
  rewrite Hp. cbn [rbind]. eexists. split; [reflexivity |].
  assert (Hin : In (nth p (map fst valid) 0%nat) (map fst valid)).
  { apply nth_In. rewrite length_map in *. exact Hlt. }
  apply valid_labels_bound in Hin. lia.
Qed.

Lemma arg_skipping_nan_all_na arg xs :
  all_na xs = true ->
  arg_skipping_nan arg xs = Raise (if Nat.eqb (length xs) 0 then EmptyArg else AllNA).
Proof.
  intros H. unfold arg_skipping_nan. destruct xs as [|x xs]; [reflexivity |].
  rewrite H. reflexivity.
Qed.

Lemma np_argmax_ok vs :
  vs <> [] -> exists p, np_argmax vs = Ok p /\ (p < length vs)%nat.
Proof.
  destruct vs as [|v vs]; [congruence |]. intros _.
  eexists. split; [reflexivity |]. apply np_argmax_bound. reflexivity.
Qed.

Lemma np_argmin_ok vs :
  vs <> [] -> exists p, np_argmin vs = Ok p /\ (p < length vs)%nat.
Proof.
  destruct vs as [|v vs]; [congruence |]. intros _.
  eexists. split; [reflexivity |]. apply np_argmin_bound. reflexivity.
Qed.

(** [idxmax] succeeds exactly on a Series that has a value other than NaN. *)
Lemma nanargmax_ok skips xs :
  all_na xs = false -> exists p, nanargmax skips xs = Ok p /\ (p < length xs)%nat.
Proof.
  intros H. unfold nanargmax. destruct skips.
  - apply arg_skipping_nan_ok; [apply np_argmax_ok | exact H].
  - destruct (np_argmax (map (fill_na neg_infinity) xs)) as [p|e] eqn:E.
    + exists p. simpl. rewrite H. split; [reflexivity |].
      apply np_argmax_bound in E. rewrite length_map in E. exact E.
    + destruct xs; [discriminate H | discriminate E].
Qed.

Lemma nanargmin_ok skips xs :
  all_na xs = false -> exists p, nanargmin skips xs = Ok p /\ (p < length xs)%nat.
Proof.
  intros H. unfold nanargmin. destruct skips.
  - apply arg_skipping_nan_ok; [apply np_argmin_ok | exact H].
  - destruct (np_argmin (map (fill_na infinity) xs)) as [p|e] eqn:E.
    + exists p. simpl. rewrite H. split; [reflexivity |].
      apply np_argmin_bound in E. rewrite length_map in E. exact E.
    + destruct xs; [discriminate H | discriminate E].
Qed.

Lemma nanargmax_all_na skips xs :
  all_na xs = true ->
  nanargmax skips xs = Raise (if Nat.eqb (length xs) 0 then EmptyArg else AllNA).
Proof.
  intros H. unfold nanargmax. destruct skips.
  - apply arg_skipping_nan_all_na. exact H.
  - destruct xs as [|x xs]; [reflexivity |].
    cbn [map np_argmax rbind length Nat.eqb]. rewrite H. reflexivity.
Qed.

Lemma nanargmin_all_na skips xs :
  all_na xs = true ->
  nanargmin skips xs = Raise (if Nat.eqb (length xs) 0 then EmptyArg else AllNA).
Proof.
  intros H. unfold nanargmin. destruct skips.
  - apply arg_skipping_nan_all_na. exact H.
  - destruct xs as [|x xs]; [reflexivity |].
    cbn [map np_argmin rbind length Nat.eqb]. rewrite H. reflexivity.
Qed.

Lemma idxmax_with_labels skips xs :
  idxmax skips (with_labels xs) = nanargmax skips xs.
Proof.
  unfold idxmax. rewrite with_labels_values.
  destruct (all_na xs) eqn:E.
  - rewrite nanargmax_all_na by assumption. reflexivity.
  - destruct (nanargmax_ok skips xs E) as (p & Hp & Hlt). rewrite Hp. simpl.
    apply label_at_with_labels. exact Hlt.
Qed.

Lemma idxmin_with_labels skips xs :
  idxmin skips (with_labels xs) = nanargmin skips xs.
Proof.
  unfold idxmin. rewrite with_labels_values.
  destruct (all_na xs) eqn:E.
  - rewrite nanargmin_all_na by assumption. reflexivity.
  - destruct (nanargmin_ok skips xs E) as (p & Hp & Hlt). rewrite Hp. simpl.
    apply label_at_with_labels. exact Hlt.
Qed.

(** On [s[1:]] the label is one more than the position. *)
Lemma idxmax_slice skips xs :
  idxmax skips (slice_from 1 (with_labels xs))
  = match nanargmax skips (skipn 1 xs) with Ok p => Ok (S p) | Raise e => Raise e end.
Proof.
  unfold idxmax. rewrite slice_values.
  destruct (all_na (skipn 1 xs)) eqn:E.
  - rewrite nanargmax_all_na by assumption. reflexivity.
  - destruct (nanargmax_ok skips _ E) as (p & Hp & Hlt). rewrite Hp. simpl.
    apply label_at_slice. exact Hlt.
Qed.

(** *** The earliest position of a value

    A test that NaN never passes finds the same first position whether
    NaN is filled with a value that fails it, or left out. *)

Lemma earliest_filled (q : float -> bool) d xs :
  (forall x, is_nan x = true -> q x = false) -> q d = false ->
  earliest q (map (fill_na d) xs) = earliest q xs.
Proof.
  intros Hq Hd. induction xs as [|x xs IH]; [reflexivity |].
  cbn [map earliest]. rewrite IH. unfold fill_na.
  destruct (is_nan x) eqn:E; [|reflexivity].
  rewrite Hd, (Hq x E). reflexivity.
Qed.

Lemma earliest_skipping (q : float -> bool) xs :
  (forall x, is_nan x = true -> q x = false) ->
  forall a p,
  earliest q (filter (fun x => negb (is_nan x)) xs) = Some p ->
  exists k,
    earliest q xs = Some k
    /\ nth p (map fst (filter (fun l : nat * float => negb (is_nan (snd l)))
                              (combine (seq a (length xs)) xs))) 0%nat
       = (a + k)%nat.
Proof.
  intros Hq. induction xs as [|x xs IH]; intros a p; [discriminate |].
  cbn [length seq combine filter snd earliest].
  destruct (is_nan x) eqn:E; cbn [negb].
  - rewrite (Hq x E). intros H. destruct (IH (S a) p H) as (k & Hk & Hl).
    exists (S k). rewrite Hk. split; [reflexivity |]. rewrite Hl. lia.
  - cbn [earliest map fst]. destruct (q x).
    + intros [= <-]. exists 0%nat. split; [reflexivity |]. cbn [nth]. lia.
    + destruct (earliest q (filter (fun x => negb (is_nan x)) xs)) as [p'|] eqn:Ep;
        [|discriminate].
      intros [= <-]. destruct (IH (S a) p' eq_refl) as (k & Hk & Hl).
      exists (S k). rewrite Hk. split; [reflexivity |]. cbn [nth]. rewrite Hl. lia.
Qed.

(** *** The scan and the reduction move together

    [le x y] reads "[y] is at least as extreme as [x]", [lt] is its
    strict part; for the maximum they are [<=?] and [<?], for the
    minimum their converses.  [bottom] is the least extreme value, by
    which pandas replaces NaN: -inf for the maximum, +inf for the
    minimum. *)

Section Scan.

Variables le lt : float -> float -> bool.

Hypothesis le_total :
  forall x y, is_nan x = false -> is_nan y = false -> le x y = false -> lt y x = true.
Hypothesis lt_le : forall x y, lt x y = true -> le x y = true.
Hypothesis le_lt_trans :
  forall x y z, le x y = true -> lt y z = true -> lt x z = true.
Hypothesis lt_le_trans :
  forall x y z, lt x y = true -> le y z = true -> lt x z = true.
Hypothesis le_refl : forall x, is_nan x = false -> le x x = true.
Hypothesis lt_not_eqb : forall x y, lt x y = true -> (x =? y) = false.

Lemma scan_lockstep rest : forall mp best i,
  is_nan mp = false -> no_nan rest = true ->
  let v := fold_left (np_pick (fun mp x => le x mp)) rest mp in
  let p := arg_scan (fun mp x => le x mp) mp best i rest in
  le mp v = true
  /\ ((p = best /\ v = mp)
      \/ exists k, p = (i + k)%nat /\ nth_error rest k = Some v /\ lt mp v = true
                   /\ forall j x, (j < k)%nat -> nth_error rest j = Some x -> lt x v = true).
Proof.
  induction rest as [|x rest IH]; intros mp best i Hmp Hrest; cbn zeta.
  - simpl. split; [apply le_refl; assumption | left; auto].
  - apply no_nan_cons in Hrest as [Hx Hrest].
    assert (Hpick : np_pick (fun mp x => le x mp) mp x = if le x mp then mp else x)
      by (unfold np_pick; rewrite Hmp, orb_false_r; reflexivity).
    cbn [fold_left arg_scan]. rewrite Hpick, Hmp.
    destruct (le x mp) eqn:E; cbn [negb].
    + (* [x] does not beat [mp] *)
      destruct (IH mp best (S i) Hmp Hrest) as [Hle Hcase]. split; [exact Hle |].
      destruct Hcase as [[Hp Hv] | (k & Hp & Hk & Hlt & Hbefore)].
      * left. split; [exact Hp | exact Hv].
      * right. exists (S k). repeat split.
        -- rewrite Hp. lia.
        -- exact Hk.
        -- exact Hlt.
        -- intros [|j] y Hj Hy; simpl in Hy.
           ++ injection Hy as <-. eapply le_lt_trans; eassumption.
           ++ eapply Hbefore; [|eassumption]. lia.
    + (* [x] beats [mp]: the scan moves to position [i] *)
      pose proof (le_total x mp Hx Hmp E) as Hmx.
      destruct (IH x i (S i) Hx Hrest) as [Hle Hcase].
      assert (Hmv : lt mp (fold_left (np_pick (fun mp x => le x mp)) rest x) = true)
        by (eapply lt_le_trans; eassumption).
      split; [apply lt_le; exact Hmv |].
      right. destruct Hcase as [[Hp Hv] | (k & Hp & Hk & Hlt & Hbefore)].
      * exists 0%nat. repeat split.
        -- rewrite Hp. lia.
        -- simpl. f_equal. symmetry. exact Hv.
        -- exact Hmv.
        -- intros j y Hj. lia.
      * exists (S k). repeat split.
        -- rewrite Hp. lia.
        -- exact Hk.
        -- exact Hmv.
        -- intros [|j] y Hj Hy; simpl in Hy.
           ++ injection Hy as <-. exact Hlt.
           ++ eapply Hbefore; [|eassumption]. lia.
Qed.

(** The scan stops at the earliest element that compares equal to the
    reduced value. *)
Lemma scan_earliest x rest :
  no_nan (x :: rest) = true ->
  earliest (fun y => y =? fold_left (np_pick (fun mp x => le x mp)) rest x) (x :: rest)
  = Some (arg_scan (fun mp x => le x mp) x 0 1 rest).
Proof.
  intros H. apply no_nan_cons in H as [Hx Hrest].
  destruct (scan_lockstep rest x 0%nat 1%nat Hx Hrest) as [_ Hcase].
  cbn zeta in Hcase. cbn [earliest].
  destruct Hcase as [[Hp Hv] | (k & Hp & Hk & Hlt & Hbefore)].
  - rewrite Hp, Hv, FloatFacts.eqb_refl by assumption. reflexivity.
  - rewrite Hp. rewrite (lt_not_eqb _ _ Hlt).
    set (v := fold_left (np_pick (fun mp x => le x mp)) rest x) in *.
    assert (Hv : is_nan v = false).
    { eapply no_nan_In; [exact Hrest |]. eapply nth_error_In; exact Hk. }
    clearbody v. clear Hp Hlt Hx.
    assert (Hgoal : earliest (fun y => y =? v) rest = Some k).
    { revert k Hk Hbefore. clear Hrest. induction rest as [|y rest IH]; intros k Hk Hbefore.
      - destruct k; discriminate.
      - destruct k as [|k]; simpl in *.
        + injection Hk as ->. rewrite FloatFacts.eqb_refl by assumption. reflexivity.
        + rewrite (lt_not_eqb y v) by (apply (Hbefore 0%nat); [lia | reflexivity]).
          rewrite (IH k Hk); [reflexivity |].
          intros j z Hj Hz. apply (Hbefore (S j)); [lia | exact Hz]. }
    rewrite Hgoal. reflexivity.
Qed.

(** **** With NaN in the Series *)

Variable bottom : float.

Hypothesis bottom_number : is_nan bottom = false.
Hypothesis le_bottom : forall x, is_nan x = false -> le bottom x = true.
Hypothesis le_bottom_inv : forall x, le x bottom = true -> x = bottom.

Lemma pick_number acc x :
  is_nan acc = false -> is_nan x = false ->
  is_nan (np_pick (fun mp x => le x mp) acc x) = false.
Proof.
  intros Ha Hx. unfold np_pick. destruct (le x acc || is_nan acc); assumption.
Qed.

(** The reduction passes over a filled NaN. *)
Lemma fold_filled xs : forall acc,
  is_nan acc = false ->
  fold_left (np_pick (fun mp x => le x mp)) (map (fill_na bottom) xs) acc
  = fold_left (np_pick (fun mp x => le x mp)) (filter (fun x => negb (is_nan x)) xs) acc.
Proof.
  induction xs as [|x xs IH]; intros acc Hacc; [reflexivity |].
  cbn [map fold_left filter].
  change (fill_na bottom x) with (if is_nan x then bottom else x).
  destruct (is_nan x) eqn:E; cbn [negb].
  - assert (Hpick : np_pick (fun mp x => le x mp) acc bottom = acc)
      by (unfold np_pick; rewrite (le_bottom acc Hacc); reflexivity).
    rewrite Hpick. apply IH. exact Hacc.
  - cbn [fold_left]. apply IH. apply pick_number; assumption.
Qed.

Lemma fold_from_bottom v rest :
  fold_left (np_pick (fun mp x => le x mp)) (v :: rest) bottom
  = fold_left (np_pick (fun mp x => le x mp)) rest v.
Proof.
  cbn [fold_left]. f_equal. unfold np_pick. rewrite bottom_number, orb_false_r.
  destruct (le v bottom) eqn:E; [|reflexivity].
  symmetry. apply le_bottom_inv. exact E.
Qed.

(** So the reduction of the filled Series is the reduction of its values
    that are not NaN. *)
Lemma reduce_filled xs :
  all_na xs = false ->
  np_reduce (np_pick (fun mp x => le x mp)) (map (fill_na bottom) xs)
  = np_reduce (np_pick (fun mp x => le x mp)) (filter (fun x => negb (is_nan x)) xs).
Proof.
  destruct xs as [|x xs]; [discriminate |].
  unfold all_na. cbn [forallb map np_reduce filter].
  change (fill_na bottom x) with (if is_nan x then bottom else x).
  destruct (is_nan x) eqn:E; cbn [negb andb].
  - intros H. rewrite fold_filled by exact bottom_number.
    pose proof (filter_all_na xs H) as Hne.
    pose proof (no_nan_filter xs) as Hnn.
    destruct (filter (fun x => negb (is_nan x)) xs) as [|v rest]; [congruence |].
    cbn [np_reduce]. f_equal. apply fold_from_bottom.
  - intros _. cbn [np_reduce]. f_equal. apply fold_filled. exact E.
Qed.

(** Filling: the scan of the filled Series stops at the earliest
    position of the reduced value, when that value is not [bottom]. *)
Lemma scan_earliest_filled x rest :
  let v := fold_left (np_pick (fun mp x => le x mp))
                     (map (fill_na bottom) rest) (fill_na bottom x) in
  lt bottom v = true ->
  earliest (fun y => y =? v) (x :: rest)
  = Some (arg_scan (fun mp x => le x mp) (fill_na bottom x) 0 1
                   (map (fill_na bottom) rest)).
Proof.
  intros v Hlt.
  rewrite <- (scan_earliest (fill_na bottom x) (map (fill_na bottom) rest))
    by (apply (no_nan_filled bottom (x :: rest)); exact bottom_number).
  fold v. symmetry.
  apply (earliest_filled (fun y => y =? v) bottom (x :: rest)).
  - intros y Hy. apply FloatFacts.eqb_nan_l. exact Hy.
  - apply lt_not_eqb. exact Hlt.
Qed.

(** Skipping: the scan of the values that are not NaN stops at the
    earliest position of the reduced value. *)
Lemma scan_earliest_skipping xs :
  all_na xs = false ->
  exists v rest k,
    filter (fun x => negb (is_nan x)) xs = v :: rest
    /\ np_reduce (np_pick (fun mp x => le x mp)) (map (fill_na bottom) xs)
       = Some (fold_left (np_pick (fun mp x => le x mp)) rest v)
    /\ earliest (fun y => y =? fold_left (np_pick (fun mp x => le x mp)) rest v) xs
       = Some k
    /\ nth (arg_scan (fun mp x => le x mp) v 0 1 rest)
           (map fst (filter (fun l : nat * float => negb (is_nan (snd l)))
                            (with_labels xs))) 0%nat = k.
Proof.
  intros H. rewrite (reduce_filled xs H).
  pose proof (filter_all_na xs H) as Hne.
  pose proof (no_nan_filter xs) as Hnn.
  destruct (filter (fun x => negb (is_nan x)) xs) as [|v rest] eqn:Ef; [congruence |].
  pose proof (scan_earliest v rest Hnn) as Hscan. rewrite <- Ef in Hscan.
  destruct (earliest_skipping
              (fun y => y =? fold_left (np_pick (fun mp x => le x mp)) rest v) xs
              (fun y Hy => FloatFacts.eqb_nan_l y _ Hy) 0%nat _ Hscan) as (k & Hk & Hl).
  exists v, rest, k. repeat split; [exact Hk | exact Hl].
Qed.

End Scan.

(** [idxmax] gives the earliest position whose value compares equal to
    [max()], provided NaN cannot be taken for the maximum: NaN is left
    out ([skips]), or there is none, or the maximum is not -inf. *)
Lemma nanargmax_earliest skips xs :
  all_na xs = false ->
  skips = true \/ no_nan xs = true \/ (neg_infinity <? nanmax xs) = true ->
  exists p, nanargmax skips xs = Ok p /\ earliest (fun y => y =? nanmax xs) xs = Some p.
Proof.
  intros Hna Hcase.
  assert (Htot : forall a b, is_nan a = false -> is_nan b = false ->
                             (a <=? b) = false -> (b <? a) = true)
    by (intros a b; apply FloatFacts.leb_total).
  assert (Hne : forall a b, (a <? b) = true -> (a =? b) = false)
    by (intros a b Hab; apply (FloatFacts.ltb_not_eqb _ _ Hab)).
  destruct skips.
  - destruct (scan_earliest_skipping (fun a b => a <=? b) (fun a b => a <? b)
                Htot FloatFacts.ltb_leb FloatFacts.leb_ltb_trans FloatFacts.ltb_leb_trans
                FloatFacts.leb_refl Hne neg_infinity eq_refl
                FloatFacts.leb_neg_infinity_l FloatFacts.leb_neg_infinity_inv xs Hna)
      as (v & rest & k & Hf & Hred & Hk & Hl).
    unfold nanargmax, arg_skipping_nan, nanmax, np_maximum. rewrite Hred, Hna.
    destruct xs as [|x xs']; [discriminate Hna |].
    unfold with_labels in *. rewrite valid_values, Hf. cbn [np_argmax rbind].
    exists k. rewrite Hl. split; [reflexivity | exact Hk].
  - destruct xs as [|x rest]; [discriminate Hna |].
    unfold nanargmax, nanmax, np_maximum in *. rewrite Hna in *.
    cbn [map np_argmax np_reduce rbind] in *.
    eexists. split; [reflexivity |].
    destruct Hcase as [Hs | [Hnn | Hlt]]; [discriminate Hs | |].
    + rewrite fill_na_no_nan by (apply no_nan_cons in Hnn; tauto).
      replace (fill_na neg_infinity x) with x
        by (apply no_nan_cons in Hnn as [Hx _]; unfold fill_na; rewrite Hx; reflexivity).
      apply (scan_earliest (fun a b => a <=? b) (fun a b => a <? b) Htot
               FloatFacts.ltb_leb FloatFacts.leb_ltb_trans FloatFacts.ltb_leb_trans
               FloatFacts.leb_refl Hne). exact Hnn.
    + apply (scan_earliest_filled (fun a b => a <=? b) (fun a b => a <? b) Htot
               FloatFacts.ltb_leb FloatFacts.leb_ltb_trans FloatFacts.ltb_leb_trans
               FloatFacts.leb_refl Hne neg_infinity eq_refl). exact Hlt.
Qed.

Lemma nanargmin_earliest skips xs :
  all_na xs = false ->
  skips = true \/ no_nan xs = true \/ (nanmin xs <? infinity) = true ->
  exists p, nanargmin skips xs = Ok p /\ earliest (fun y => y =? nanmin xs) xs = Some p.
Proof.
  intros Hna Hcase.
  assert (Htot : forall a b, is_nan a = false -> is_nan b = false ->
                             (b <=? a) = false -> (a <? b) = true)
    by (intros a b Ha Hb; apply FloatFacts.leb_total; assumption).
  assert (Hle : forall a b, (b <? a) = true -> (b <=? a) = true)
    by (intros a b; apply FloatFacts.ltb_leb).
  assert (H1 : forall a b c, (b <=? a) = true -> (c <? b) = true -> (c <? a) = true)
    by (intros a b c Hab Hbc; eapply FloatFacts.ltb_leb_trans; eassumption).
  assert (H2 : forall a b c, (b <? a) = true -> (c <=? b) = true -> (c <? a) = true)
    by (intros a b c Hab Hbc; eapply FloatFacts.leb_ltb_trans; eassumption).
  assert (Hne : forall a b, (b <? a) = true -> (a =? b) = false)
    by (intros a b Hab; apply (FloatFacts.ltb_not_eqb _ _ Hab)).
  destruct skips.
  - destruct (scan_earliest_skipping (fun a b => b <=? a) (fun a b => b <? a)
                Htot Hle H1 H2 FloatFacts.leb_refl Hne infinity eq_refl
                FloatFacts.leb_infinity_r FloatFacts.leb_infinity_inv xs Hna)
      as (v & rest & k & Hf & Hred & Hk & Hl).
    unfold nanargmin, arg_skipping_nan, nanmin, np_minimum. rewrite Hred, Hna.
    destruct xs as [|x xs']; [discriminate Hna |].
    unfold with_labels in *. rewrite valid_values, Hf. cbn [np_argmin rbind].
    exists k. rewrite Hl. split; [reflexivity | exact Hk].
  - destruct xs as [|x rest]; [discriminate Hna |].
    unfold nanargmin, nanmin, np_minimum in *. rewrite Hna in *.
    cbn [map np_argmin np_reduce rbind] in *.
    eexists. split; [reflexivity |].
    destruct Hcase as [Hs | [Hnn | Hlt]]; [discriminate Hs | |].
    + rewrite fill_na_no_nan by (apply no_nan_cons in Hnn; tauto).
      replace (fill_na infinity x) with x
        by (apply no_nan_cons in Hnn as [Hx _]; unfold fill_na; rewrite Hx; reflexivity).
      apply (scan_earliest (fun a b => b <=? a) (fun a b => b <? a) Htot Hle H1 H2
               FloatFacts.leb_refl Hne). exact Hnn.
    + apply (scan_earliest_filled (fun a b => b <=? a) (fun a b => b <? a) Htot Hle H1 H2
               FloatFacts.leb_refl Hne infinity eq_refl). exact Hlt.
Qed.

(** ** Growth rates *)

Lemma div_nan_r (x : float) : x / nan = nan.
Proof.
  apply Prim2SF_inj. rewrite div_spec.
  change (Prim2SF nan) with S754_nan.
  destruct (Prim2SF x); reflexivity.
Qed.

Lemma ffill_from_no_nan last xs : no_nan xs = true -> ffill_from last xs = xs.
Proof.
  revert last. induction xs as [|x xs IH]; intros last H; simpl; [reflexivity |].
  apply no_nan_cons in H as [Hx Hxs]. rewrite Hx, IH by assumption. reflexivity.
Qed.

Lemma zip_with_map {A B C D} (h : C -> D) (f : A -> B -> C) xs ys :
  map h (zip_with f xs ys) = zip_with (fun x y => h (f x y)) xs ys.
Proof.
  revert ys. induction xs as [|x xs IH]; intros [|y ys]; simpl; auto.
  rewrite IH. reflexivity.
Qed.

Lemma zip_with_removelast {A C} (f : A -> A -> C) x rest :
  zip_with f rest (removelast (x :: rest)) = zip_with f rest (x :: rest).
Proof.
  revert x. induction rest as [|y rest IH]; intros x; [reflexivity |].
  change (removelast (x :: y :: rest)) with (x :: removelast (y :: rest)).
  cbn [zip_with]. rewrite IH. reflexivity.
Qed.

(** The growth rates are a NaN followed by the growth of each period
    over the one before, in the data that [pct_change] divides: the
    column itself or its forward fill. *)
Lemma growth_rate_of_data pad g :
  growth_rate pad g =
  match (if pad then ffill g else g) with
  | [] => []
  | _ :: _ => nan :: growth_after_first (if pad then ffill g else g)
  end.
Proof.
  unfold growth_rate, pct_change.
  destruct (if pad then ffill g else g) as [|x rest]; [reflexivity |].
  unfold shift1, growth_after_first. cbn [zip_with map tl].
  rewrite div_nan_r. f_equal.
  rewrite zip_with_map, zip_with_removelast. reflexivity.
Qed.

Lemma data_no_nan (pad : bool) g :
  pad = false \/ no_nan g = true -> (if pad then ffill g else g) = g.
Proof.
  intros [-> | Hnn]; [reflexivity |].
  destruct pad; [apply ffill_from_no_nan; assumption | reflexivity].
Qed.

(** Without padding, or on data without NaN, that data is the column. *)
Lemma growth_rate_unfold pad g :
  pad = false \/ no_nan g = true ->
  growth_rate pad g =
  match g with
  | [] => []
  | _ :: _ => nan :: growth_after_first g
  end.
Proof.
  intros Hpad. rewrite growth_rate_of_data, (data_no_nan pad g Hpad). reflexivity.
Qed.

Lemma growth_after_first_length g : length (growth_after_first g) = (length g - 1)%nat.
Proof.
  unfold growth_after_first. rewrite zip_with_length.
  destruct g; simpl; lia.
Qed.

Lemma nth_error_growth_after_first g i prev cur :
  nth_error g i = Some prev -> nth_error g (S i) = Some cur ->
  nth_error (growth_after_first g) i = Some ((cur / prev - 1) * 100).
Proof.
  intros Hp Hc. unfold growth_after_first. rewrite nth_error_zip_with.
  destruct g as [|x rest]; [destruct i; discriminate |].
  simpl in Hc. cbn [tl]. rewrite Hc, Hp. reflexivity.
Qed.

Lemma ffill_from_length last xs : length (ffill_from last xs) = length xs.
Proof.
  revert last. induction xs as [|x xs IH]; intros last; simpl; auto.
Qed.

Lemma shift1_length xs : length (shift1 xs) = length xs.
Proof.
  destruct xs as [|x xs]; [reflexivity |].
  unfold shift1. rewrite removelast_firstn_len. cbn [length Nat.pred].
  rewrite length_firstn. cbn [length]. lia.
Qed.

Lemma growth_rate_length pad g : length (growth_rate pad g) = length g.
Proof.
  unfold growth_rate, pct_change. rewrite length_map, zip_with_length, shift1_length.
  destruct pad; [unfold ffill; rewrite ffill_from_length |]; lia.
Qed.

(** ** [print_summary] *)

Lemma nanargmax_bound skips xs p : nanargmax skips xs = Ok p -> (p < length xs)%nat.
Proof.
  intros H. destruct (all_na xs) eqn:E.
  - rewrite nanargmax_all_na in H by assumption. discriminate.
  - destruct (nanargmax_ok skips xs E) as (q & Hq & Hlt). congruence.
Qed.

Lemma nanargmin_bound skips xs p : nanargmin skips xs = Ok p -> (p < length xs)%nat.
Proof.
  intros H. destruct (all_na xs) eqn:E.
  - rewrite nanargmin_all_na in H by assumption. discriminate.
  - destruct (nanargmin_ok skips xs E) as (q & Hq & Hlt). congruence.
Qed.

Lemma loc_Year_nth df p : (p < nrows df)%nat -> loc_Year df p = Ok (nth p (Year df) 0%Z).
Proof.
  intros Hp. unfold loc_Year. rewrite (nth_error_nth' (Year df) 0%Z Hp). reflexivity.
Qed.

(** *** Running the monad step by step *)

Lemma bind_print {L : Libraries} {B} l (k : unit -> M B) w :
  bind (print l) k w = k tt (with_stdout w (stdout w ++ [l])).
Proof. reflexivity. Qed.

Lemma bind_lift_ok {L : Libraries} {A B} (a : A) (k : A -> M B) w :
  bind (lift (Ok a)) k w = k a w.
Proof. reflexivity. Qed.

Lemma bind_lift_raise {L : Libraries} {A B} e (k : A -> M B) w :
  bind (lift (Raise e)) k w = (Raise e, w).
Proof. reflexivity. Qed.

Lemma bind_require_data {L : Libraries} {B} (k : DataFrame -> M B) w df :
  self_data w = Some df -> bind require_data k w = k df w.
Proof.
  intros H. unfold require_data, get_data. unfold bind at 1 2. rewrite H. reflexivity.
Qed.

Lemma with_stdout_twice {L : Libraries} w o1 o2 :
  with_stdout (with_stdout w o1) o2 = with_stdout w o2.
Proof. reflexivity. Qed.

Lemma stdout_with_stdout {L : Libraries} w o : stdout (with_stdout w o) = o.
Proof. reflexivity. Qed.

Ltac step_print :=
  rewrite bind_print, ?with_stdout_twice, ?stdout_with_stdout.

(** The closing statements of a plotting method, by the answers of
    matplotlib. *)
Lemma render_run {L : Libraries} save_path fig w :
  render save_path fig w = rendered w save_path fig.
Proof.
  unfold render, rendered, bind, tight_layout, savefig, print, with_chart.
  destruct (mpl_tight_layout fig); [|reflexivity].
  destruct (mpl_savefig save_path fig); reflexivity.
Qed.

(** What [print_summary] prints and returns on a populated table. *)
Lemma print_summary_run {L : Libraries} w df g :
  self_data w = Some df -> GDP df = Some g -> well_formed df ->
  let gr := skipn 1 (growth_rate pct_change_pads g) in
  print_summary w =
  match nanargmax idx_skips_nan g, nanargmin idx_skips_nan g with
  | Raise e, _ => (Raise e, with_stdout w (stdout w ++ summary_head df g))
  | Ok imax, Raise e =>
      (Raise e, with_stdout w (stdout w ++ summary_head df g
                               ++ [MaxLine (nanmax g) (nth imax (Year df) 0%Z)]))
  | Ok imax, Ok imin =>
      match nanargmax idx_skips_nan gr with
      | Raise e =>
          (Raise e, with_stdout w (stdout w ++ summary_head df g
                                   ++ [MaxLine (nanmax g) (nth imax (Year df) 0%Z);
                                       MinLine (nanmin g) (nth imin (Year df) 0%Z);
                                       MeanGrowthLine (nanmean gr)]))
      | Ok p =>
          (Ok tt, with_stdout w (stdout w ++ summary_head df g
                                 ++ [MaxLine (nanmax g) (nth imax (Year df) 0%Z);
                                     MinLine (nanmin g) (nth imin (Year df) 0%Z);
                                     MeanGrowthLine (nanmean gr);
                                     MaxGrowthLine (nanmax gr) (nth (S p) (Year df) 0%Z)]
                                 ++ summary_foot df))
      end
  end.
Proof.
  intros Hdata Hgdp Hwf gr.
  assert (Hlen : length g = nrows df).
  { destruct Hwf as (_ & _ & _ & _ & _ & Hg & _). apply Hg. exact Hgdp. }
  unfold print_summary. rewrite (bind_require_data _ w df Hdata).
  do 4 step_print.
  unfold col_GDP. rewrite Hgdp, bind_lift_ok. step_print.
  rewrite idxmax_with_labels, idxmin_with_labels, idxmax_slice, slice_values.
  fold gr. unfold summary_head, summary_foot.
  destruct (nanargmax idx_skips_nan g) as [imax|e] eqn:Emax.
  2:{ rewrite bind_lift_raise, <- !app_assoc. reflexivity. }
  rewrite bind_lift_ok.
  rewrite loc_Year_nth by (apply nanargmax_bound in Emax; lia).
  rewrite bind_lift_ok. step_print.
  destruct (nanargmin idx_skips_nan g) as [imin|e] eqn:Emin.
  2:{ rewrite bind_lift_raise, <- !app_assoc. reflexivity. }
  rewrite bind_lift_ok.
  rewrite loc_Year_nth by (apply nanargmin_bound in Emin; lia).
  rewrite bind_lift_ok. do 2 step_print.
  destruct (nanargmax idx_skips_nan gr) as [p|e] eqn:Egr.
  2:{ rewrite bind_lift_raise, <- !app_assoc. reflexivity. }
  rewrite bind_lift_ok.
  rewrite loc_Year_nth.
  - rewrite bind_lift_ok. do 5 step_print.
    unfold print. rewrite stdout_with_stdout. 
    rewrite <- !app_assoc. reflexivity.
  - apply nanargmax_bound in Egr. unfold gr in Egr.
    rewrite length_skipn, growth_rate_length in Egr. lia.
Qed.

Lemma table_of_well_formed years gdp :
  length years = length gdp -> well_formed (table_of years gdp).
Proof.
  intros H. unfold well_formed, table_of, nrows. cbn [Year Consumption Investment
    Government_Spending Exports Imports GDP Net_Exports].
  rewrite !length_map, H. repeat split.
  - intros g [= <-]. reflexivity.
  - intros nx [= <-]. apply length_map.
Qed.

Lemma no_nan_all_na_false xs : xs <> [] -> no_nan xs = true -> all_na xs = false.
Proof.
  destruct xs as [|x xs]; [congruence |]. intros _. apply no_nan_not_all_na.
Qed.

Lemma skipn_growth_rate pad g :
  pad = false \/ no_nan g = true ->
  skipn 1 (growth_rate pad g) = growth_after_first g.
Proof.
  intros H. rewrite growth_rate_unfold by assumption.
  destruct g; reflexivity.
Qed.

(** ** Growth per period *)

(** Membership in a printed summary, line by line. *)
Ltac in_lines H :=
  unfold summary_head, summary_foot in H;
  repeat (apply in_app_or in H; destruct H as [H|H]);
  cbn [In] in H;
  repeat (destruct H as [H|H]);
  try discriminate H; try contradiction.

(** C3 (as the code has it): the growth rate of period i >= 1 is
    (d[i] / d[i-1] - 1) * 100 in binary64 arithmetic, where d is the GDP
    column, or, when [pct_change] pads, the GDP column with every NaN
    replaced by the last value before it; on a column without NaN d is the
    column.  The first period has NaN.  The mean and the maximum of
    growth that the summary prints are those of the growth rates after
    the first period, and the year printed with the maximum is the year
    of a period after the first; the mean is printed whenever the GDP
    column has a value other than NaN, the maximum whenever the growth
    rates after the first have one too.  GDP values [100, 110] give the
    growth rates [NaN, 10.000000000000009], the second within 1e-9 of
    10. *)
Theorem growth_rate_by_period {L : Libraries} (w : world) (df : DataFrame) (g : list float) :
  self_data w = Some df -> GDP df = Some g -> well_formed df ->
  let d := if pct_change_pads then ffill g else g in
  let growth := growth_rate pct_change_pads g in
  (forall i prev cur,
      nth_error d i = Some prev -> nth_error d (S i) = Some cur ->
      nth_error growth (S i) = Some ((cur / prev - 1) * 100))
  /\ (no_nan g = true -> d = g)
  /\ (g <> [] -> nth_error growth 0 = Some nan)
  /\ (exists out,
        stdout (snd (print_summary w)) = stdout w ++ out
        /\ (forall v, In (MeanGrowthLine v) out -> v = nanmean (skipn 1 growth))
        /\ (forall v y, In (MaxGrowthLine v y) out ->
              v = nanmax (skipn 1 growth)
              /\ exists p, nth_error (Year df) (S p) = Some y)
        /\ (all_na g = false -> In (MeanGrowthLine (nanmean (skipn 1 growth))) out)
        /\ (all_na g = false -> all_na (skipn 1 growth) = false ->
              exists y, In (MaxGrowthLine (nanmax (skipn 1 growth)) y) out))
  /\ growth_rate pct_change_pads [100; 110] = [nan; 0x1.4000000000005p+3]
  /\ (abs (0x1.4000000000005p+3 - 10) <=? 10 / 1000000000) = true.
Proof.
  intros Hdata Hgdp Hwf d growth.
  assert (Hlen : length g = nrows df).
  { destruct Hwf as (_ & _ & _ & _ & _ & Hg & _). apply Hg. exact Hgdp. }
  split; [|split; [|split; [|split; [|split]]]].
  - intros i prev cur Hp Hc. unfold growth. rewrite growth_rate_of_data. fold d.
    destruct d as [|x rest]; [destruct i; discriminate |]. cbn [nth_error].
    apply nth_error_growth_after_first; assumption.
  - intros Hnn. apply data_no_nan. right. exact Hnn.
  - intros Hne. unfold growth. rewrite growth_rate_of_data. fold d.
    assert (Hd : length d = length g)
      by (unfold d, ffill; destruct pct_change_pads; [apply ffill_from_length | reflexivity]).
    destruct d as [|x rest]; [|reflexivity].
    destruct g; [congruence | discriminate Hd].
  - rewrite (print_summary_run w df g Hdata Hgdp Hwf). cbn zeta. fold growth.
    destruct (nanargmax idx_skips_nan g) as [imax|e] eqn:Emax.
    2:{ eexists. cbn [snd with_stdout stdout]. split; [reflexivity |].
        split; [|split; [|split]].
        - intros v Hin. in_lines Hin.
        - intros v y Hin. in_lines Hin.
        - intros Hna. destruct (nanargmax_ok idx_skips_nan g Hna) as (q & Hq & _). congruence.
        - intros Hna. destruct (nanargmax_ok idx_skips_nan g Hna) as (q & Hq & _). congruence. }
    destruct (nanargmin idx_skips_nan g) as [imin|e] eqn:Emin.
    2:{ eexists. cbn [snd with_stdout stdout]. split; [reflexivity |].
        split; [|split; [|split]].
        - intros v Hin. in_lines Hin.
        - intros v y Hin. in_lines Hin.
        - intros Hna. destruct (nanargmin_ok idx_skips_nan g Hna) as (q & Hq & _). congruence.
        - intros Hna. destruct (nanargmin_ok idx_skips_nan g Hna) as (q & Hq & _). congruence. }
    destruct (nanargmax idx_skips_nan (skipn 1 growth)) as [p|e] eqn:Egr.
    + eexists. cbn [snd with_stdout stdout]. split; [reflexivity |].
      assert (Hp : (S p < length (Year df))%nat).
      { apply nanargmax_bound in Egr. unfold growth in Egr.
        rewrite length_skipn, growth_rate_length in Egr. unfold nrows in Hlen. lia. }
      split; [|split; [|split]].
      * intros v Hin. in_lines Hin. congruence.
      * intros v y Hin. in_lines Hin. injection Hin as <- <-.
        split; [reflexivity |]. exists p. apply nth_error_nth'. exact Hp.
      * intros _. apply in_or_app. right. apply in_or_app. left.
        cbn [In]. auto.
      * intros _ _. eexists. apply in_or_app. right. apply in_or_app. left.
        cbn [In]. do 3 right. left. reflexivity.
    + eexists. cbn [snd with_stdout stdout]. split; [reflexivity |].
      split; [|split; [|split]].
      * intros v Hin. in_lines Hin. congruence.
      * intros v y Hin. in_lines Hin.
      * intros _. apply in_or_app. right. cbn [In]. auto.
      * intros _ Hna. destruct (nanargmax_ok idx_skips_nan _ Hna) as (q & Hq & _). congruence.
  - destruct pct_change_pads; vm_compute; reflexivity.
  - vm_compute. reflexivity.
Qed.

Lemma growth_rate_by_period_witness :
  nth_error (growth_rate pct_change_pads [100; 110; 121]) 2
  = Some ((121 / 110 - 1) * 100).
Proof.
  refine (proj1 (growth_rate_by_period
                   (world_of (table_of [2015%Z; 2016%Z; 2017%Z] [100; 110; 121]))
                   (table_of [2015%Z; 2016%Z; 2017%Z] [100; 110; 121])
                   [100; 110; 121] _ _ _) 1%nat 110 121 _ _);
    try reflexivity.
  apply table_of_well_formed. reflexivity.
Defined.

(** The claim as written fails on the table of GDP -2^1023 in 2015 and
    2^1023 in 2016: the summary reports a growth of -200 percent, where
    (GDP[1] - GDP[0]) / GDP[0] * 100 overflows in the difference and is
    -inf.  And where [pct_change] pads, on the GDP column 100, NaN, 110
    the growth rates after the first period are 0 and
    10.000000000000009, where the claimed formula gives NaN twice. *)
Lemma growth_formula_overflows :
  stdout (snd (print_summary
                 (world_of (table_of [2015%Z; 2016%Z] [-0x1p+1023; 0x1p+1023]))))
  = summary_head (table_of [2015%Z; 2016%Z] [-0x1p+1023; 0x1p+1023])
                 [-0x1p+1023; 0x1p+1023]
    ++ [MaxLine 0x1p+1023 2016; MinLine (-0x1p+1023) 2015;
        MeanGrowthLine (-200); MaxGrowthLine (-200) 2016]
    ++ summary_foot (table_of [2015%Z; 2016%Z] [-0x1p+1023; 0x1p+1023])
  /\ (0x1p+1023 - -0x1p+1023) / -0x1p+1023 * 100 = neg_infinity
  /\ (-200 =? neg_infinity) = false
  /\ growth_rate true [100; nan; 110] = [nan; 0; 0x1.4000000000005p+3]
  /\ (nan - 100) / 100 * 100 = nan
  /\ (110 - nan) / nan * 100 = nan.
Proof. vm_compute. repeat split. Qed.

(** ** Short tables *)

Lemma nanargmax_is_ok skips xs : is_ok (nanargmax skips xs) = negb (all_na xs).
Proof.
  destruct (all_na xs) eqn:E.
  - rewrite nanargmax_all_na by assumption. reflexivity.
  - destruct (nanargmax_ok skips xs E) as (p & -> & _). reflexivity.
Qed.

Lemma nanargmin_is_ok skips xs : is_ok (nanargmin skips xs) = negb (all_na xs).
Proof.
  destruct (all_na xs) eqn:E.
  - rewrite nanargmin_all_na by assumption. reflexivity.
  - destruct (nanargmin_ok skips xs E) as (p & -> & _). reflexivity.
Qed.

Lemma print_summary_is_ok {L : Libraries} w df g :
  self_data w = Some df -> GDP df = Some g -> well_formed df ->
  is_ok (fst (print_summary w))
  = negb (all_na g) && negb (all_na (skipn 1 (growth_rate pct_change_pads g))).
Proof.
  intros Hdata Hgdp Hwf. rewrite (print_summary_run w df g Hdata Hgdp Hwf). cbn zeta.
  rewrite <- (nanargmax_is_ok idx_skips_nan g), <- (nanargmax_is_ok idx_skips_nan).
  pose proof (nanargmin_is_ok idx_skips_nan g) as Hmin.
  rewrite <- (nanargmax_is_ok idx_skips_nan g) in Hmin.
  destruct (nanargmax idx_skips_nan g), (nanargmin idx_skips_nan g);
    try discriminate Hmin; try reflexivity.
  destruct (nanargmax _ _); reflexivity.
Qed.

(** The sum of one value: [0.0 + (0.0 + v)]. *)
Lemma np_sum_single v : np_sum [v] = 0 + v.
Proof.
  unfold np_sum, pairwise_sum, sum_sequential. cbn [length Nat.ltb Nat.leb fold_left].
  apply FloatFacts.add_zero_l_twice.
Qed.

Lemma nanmean_single v : is_nan v = false -> (nanmean [v] =? v) = true.
Proof.
  intros Hv. unfold nanmean, count_valid, fill_na.
  cbn [filter map]. rewrite Hv. cbn [negb length Nat.ltb Nat.leb].
  rewrite np_sum_single.
  change (float_of_int (Z.of_nat 1)) with 1.
  rewrite FloatFacts.div_one. apply FloatFacts.add_zero_l. exact Hv.
Qed.

(** C5 (as the code has it): the summary completes exactly when the GDP
    column has a value other than NaN and so have the growth rates after
    the first period; so it raises on every table of fewer than two
    records.  With no record it raises at the lookup of the year of the
    maximum, after the period and mean lines; with one record (its GDP a
    number) it prints mean, max and min equal to that GDP and a NaN mean
    growth, and raises at the lookup of the year of the maximum growth. *)
Theorem print_summary_short_tables {L : Libraries} (w : world) (df : DataFrame)
    (g : list float) :
  self_data w = Some df -> GDP df = Some g -> well_formed df ->
  is_ok (fst (print_summary w))
  = negb (all_na g) && negb (all_na (skipn 1 (growth_rate pct_change_pads g)))
  /\ ((length g < 2)%nat -> is_ok (fst (print_summary w)) = false)
  /\ (g = [] ->
      print_summary w
      = (Raise EmptyArg,
         with_stdout w (stdout w ++ [Text "======"; Text "GDP SUMMARY"; Text "======";
                                     PeriodLine None None; MeanLine nan])))
  /\ (forall v, g = [v] -> is_nan v = false ->
      exists y mean,
        Year df = [y] /\ (mean =? v) = true
        /\ print_summary w
           = (Raise EmptyArg,
              with_stdout w (stdout w ++ [Text "======"; Text "GDP SUMMARY"; Text "======";
                                          PeriodLine (Some y) (Some y); MeanLine mean;
                                          MaxLine v y; MinLine v y; MeanGrowthLine nan]))).
Proof.
  intros Hdata Hgdp Hwf.
  assert (Hlen : length g = nrows df).
  { destruct Hwf as (_ & _ & _ & _ & _ & Hg & _). apply Hg. exact Hgdp. }
  split; [|split; [|split]].
  - apply (print_summary_is_ok w df g); assumption.
  - intros Hshort. rewrite (print_summary_is_ok w df g) by assumption.
    assert (Hgr : skipn 1 (growth_rate pct_change_pads g) = []).
    { apply length_zero_iff_nil. rewrite length_skipn, growth_rate_length. lia. }
    rewrite Hgr. apply andb_false_r.
  - intros ->. rewrite (print_summary_run w df [] Hdata Hgdp Hwf). cbn zeta.
    rewrite (nanargmax_all_na idx_skips_nan []) by reflexivity.
    unfold summary_head. unfold nrows in Hlen.
    destruct (Year df); [reflexivity | discriminate Hlen].
  - intros v -> Hv. unfold nrows in Hlen.
    destruct (Year df) as [|y [|y' ys]] eqn:Hy; try discriminate Hlen.
    exists y, (nanmean [v]). split; [reflexivity |]. split; [apply nanmean_single; exact Hv |].
    rewrite (print_summary_run w df [v] Hdata Hgdp Hwf). cbn zeta.
    assert (Hgr : skipn 1 (growth_rate pct_change_pads [v]) = []).
    { apply length_zero_iff_nil. rewrite length_skipn, growth_rate_length. reflexivity. }
    rewrite Hgr.
    assert (Hna : all_na [v] = false) by (unfold all_na; cbn [forallb]; rewrite Hv; reflexivity).
    destruct (nanargmax_ok idx_skips_nan [v] Hna) as (p & -> & Hp).
    destruct (nanargmin_ok idx_skips_nan [v] Hna) as (q & -> & Hq).
    cbn [length] in Hp, Hq.
    assert (p = 0%nat) by lia. assert (q = 0%nat) by lia. subst p q.
    rewrite (nanargmax_all_na idx_skips_nan []) by reflexivity.
    unfold nanmax, nanmin, all_na, fill_na, summary_head.
    cbn [map forallb np_reduce fold_left length Nat.eqb nth].
    rewrite Hv, Hy. reflexivity.
Qed.

Lemma print_summary_short_tables_witness :
  is_ok (fst (print_summary (world_of (table_of [2015%Z] [8700])))) = false.
Proof.
  refine (proj1 (proj2 (print_summary_short_tables
                          (world_of (table_of [2015%Z] [8700]))
                          (table_of [2015%Z] [8700]) [8700] _ _ _)) _);
    try reflexivity.
  - apply table_of_well_formed. reflexivity.
  - simpl. lia.
Defined.

(** The claim as written fails on a table of one record: the summary
    raises. *)
Lemma print_summary_single_record_raises :
  fst (print_summary (world_of (table_of [2015%Z] [8700]))) = Raise EmptyArg.
Proof. vm_compute. reflexivity. Qed.

(** ** Ties *)

Lemma earliest_bound p xs k : earliest p xs = Some k -> (k < length xs)%nat.
Proof.
  revert k. induction xs as [|x xs IH]; intros k; simpl; [discriminate |].
  destruct (p x).
  - intros [= <-]. lia.
  - destruct (earliest p xs) as [j|]; simpl; [|discriminate].
    intros [= <-]. specialize (IH j eq_refl). lia.
Qed.

(** C6 (as the code has it): on a table whose GDP column has a value
    other than NaN, the year printed with the maximum GDP is that of the
    earliest period whose GDP equals the maximum, provided NaN cannot be
    taken for the maximum: [idxmax] leaves NaN out (pandas from 3.0 on),
    or the column has no NaN, or the maximum is above -inf.  Likewise for
    the minimum, with +inf.  When the growth rates after the first period
    have a value other than NaN, the year printed with the maximum growth
    is, under the same proviso on those growth rates, that of the
    earliest period whose growth equals the maximum growth; when they
    have none, no year is printed for the growth.  On a table whose GDP
    column is empty or all NaN no year is printed at all. *)
Theorem summary_ties_earliest {L : Libraries} (w : world) (df : DataFrame)
    (g : list float) :
  self_data w = Some df -> GDP df = Some g -> well_formed df ->
  let gr := skipn 1 (growth_rate pct_change_pads g) in
  (all_na g = true ->
   stdout (snd (print_summary w)) = stdout w ++ summary_head df g)
  /\ (all_na g = false ->
      exists imax imin post,
        (imax < nrows df)%nat /\ (imin < nrows df)%nat
        /\ stdout (snd (print_summary w))
           = stdout w ++ summary_head df g
             ++ [MaxLine (nanmax g) (nth imax (Year df) 0%Z);
                 MinLine (nanmin g) (nth imin (Year df) 0%Z)]
             ++ post
        /\ (idx_skips_nan = true \/ no_nan g = true
            \/ (neg_infinity <? nanmax g) = true ->
            earliest (fun x => x =? nanmax g) g = Some imax)
        /\ (idx_skips_nan = true \/ no_nan g = true
            \/ (nanmin g <? infinity) = true ->
            earliest (fun x => x =? nanmin g) g = Some imin)
        /\ (no_nan g = true -> gr = growth_after_first g)
        /\ (all_na gr = true -> post = [MeanGrowthLine (nanmean gr)])
        /\ (all_na gr = false ->
            exists k,
              (S k < nrows df)%nat
              /\ post = [MeanGrowthLine (nanmean gr);
                         MaxGrowthLine (nanmax gr) (nth (S k) (Year df) 0%Z)]
                        ++ summary_foot df
              /\ (idx_skips_nan = true \/ no_nan gr = true
                  \/ (neg_infinity <? nanmax gr) = true ->
                  earliest (fun x => x =? nanmax gr) gr = Some k))).
Proof.
  intros Hdata Hgdp Hwf gr.
  assert (Hlen : length g = nrows df).
  { destruct Hwf as (_ & _ & _ & _ & _ & Hg & _). apply Hg. exact Hgdp. }
  rewrite (print_summary_run w df g Hdata Hgdp Hwf). cbn zeta. fold gr.
  split.
  { intros Hna. rewrite (nanargmax_all_na idx_skips_nan g Hna). reflexivity. }
  intros Hna.
  destruct (nanargmax_ok idx_skips_nan g Hna) as (imax & Hmax & Bmax).
  destruct (nanargmin_ok idx_skips_nan g Hna) as (imin & Hmin & Bmin).
  rewrite Hmax, Hmin.
  assert (Emax : idx_skips_nan = true \/ no_nan g = true
                 \/ (neg_infinity <? nanmax g) = true ->
                 earliest (fun x => x =? nanmax g) g = Some imax).
  { intros Hc. destruct (nanargmax_earliest idx_skips_nan g Hna Hc) as (p & Hp & Ep).
    congruence. }
  assert (Emin : idx_skips_nan = true \/ no_nan g = true
                 \/ (nanmin g <? infinity) = true ->
                 earliest (fun x => x =? nanmin g) g = Some imin).
  { intros Hc. destruct (nanargmin_earliest idx_skips_nan g Hna Hc) as (p & Hp & Ep).
    congruence. }
  assert (Egr : no_nan g = true -> gr = growth_after_first g)
    by (intros Hnn; apply skipn_growth_rate; right; exact Hnn).
  exists imax, imin.
  destruct (nanargmax idx_skips_nan gr) as [p|e] eqn:Ep.
  - exists ([MeanGrowthLine (nanmean gr);
             MaxGrowthLine (nanmax gr) (nth (S p) (Year df) 0%Z)] ++ summary_foot df).
    split; [lia |]. split; [lia |]. split; [reflexivity |].
    split; [exact Emax |]. split; [exact Emin |]. split; [exact Egr |].
    split.
    + intros Hgna. rewrite (nanargmax_all_na idx_skips_nan gr Hgna) in Ep. discriminate Ep.
    + intros Hgna. exists p. split; [|split; [reflexivity |]].
      * apply nanargmax_bound in Ep. unfold gr in Ep.
        rewrite length_skipn, growth_rate_length in Ep. lia.
      * intros Hc.
        destruct (nanargmax_earliest idx_skips_nan gr Hgna Hc) as (k & Hk & Ek).
        congruence.
  - exists [MeanGrowthLine (nanmean gr)].
    split; [lia |]. split; [lia |]. split; [reflexivity |].
    split; [exact Emax |]. split; [exact Emin |]. split; [exact Egr |].
    split; [reflexivity |].
    intros Hgna. destruct (nanargmax_ok idx_skips_nan gr Hgna) as (k & Hk & _).
    congruence.
Qed.

(** Maximum, minimum and maximum growth are each attained twice here. *)
Lemma summary_ties_earliest_witness :
  exists imax imin post,
    stdout (snd (print_summary
                   (world_of (table_of [2015%Z; 2016%Z; 2017%Z; 2018%Z]
                                       [100; 150; 100; 150]))))
    = summary_head (table_of [2015%Z; 2016%Z; 2017%Z; 2018%Z] [100; 150; 100; 150])
                   [100; 150; 100; 150]
      ++ [MaxLine (nanmax [100; 150; 100; 150])
                  (nth imax [2015%Z; 2016%Z; 2017%Z; 2018%Z] 0%Z);
          MinLine (nanmin [100; 150; 100; 150])
                  (nth imin [2015%Z; 2016%Z; 2017%Z; 2018%Z] 0%Z)]
      ++ post
    /\ earliest (fun x => x =? nanmax [100; 150; 100; 150]) [100; 150; 100; 150]
       = Some imax
    /\ earliest (fun x => x =? nanmin [100; 150; 100; 150]) [100; 150; 100; 150]
       = Some imin.
Proof.
  destruct (summary_ties_earliest
              (world_of (table_of [2015%Z; 2016%Z; 2017%Z; 2018%Z] [100; 150; 100; 150]))
              (table_of [2015%Z; 2016%Z; 2017%Z; 2018%Z] [100; 150; 100; 150])
              [100; 150; 100; 150] eq_refl eq_refl
              (table_of_well_formed [2015%Z; 2016%Z; 2017%Z; 2018%Z]
                                    [100; 150; 100; 150] eq_refl))
    as (_ & Hsome).
  destruct (Hsome eq_refl) as (imax & imin & post & _ & _ & Hout & Hmax & Hmin & _).
  exists imax, imin, post. split; [exact Hout |].
  split; [apply Hmax | apply Hmin]; right; left; reflexivity.
Defined.

Example ties_run :
  stdout (snd (print_summary
                 (world_of (table_of [2015%Z; 2016%Z; 2017%Z; 2018%Z]
                                     [100; 150; 100; 150]))))
  = summary_head (table_of [2015%Z; 2016%Z; 2017%Z; 2018%Z] [100; 150; 100; 150])
                 [100; 150; 100; 150]
    ++ [MaxLine 150 2016; MinLine 100 2015;
        MeanGrowthLine (nanmean (growth_after_first [100; 150; 100; 150]));
        MaxGrowthLine 50 2016]
    ++ summary_foot (table_of [2015%Z; 2016%Z; 2017%Z; 2018%Z] [100; 150; 100; 150]).
Proof. vm_compute. reflexivity. Qed.

(** The claim as written fails, with pandas before 3.0, on the table of
    GDP 0, 0, -2^-1000, 2^1000 in the years 2015 to 2018.  Its growth
    rates are NaN (0 over 0) in 2016 and -inf in 2017 and in 2018, so the
    maximum growth is -inf, attained first in 2017; the summary prints
    the year 2016 with it. *)
Lemma max_growth_year_not_earliest :
  stdout (snd (print_summary
                 (world_of (table_of [2015%Z; 2016%Z; 2017%Z; 2018%Z]
                                     [0; 0; -0x1p-1000; 0x1p+1000]))))
  = summary_head (table_of [2015%Z; 2016%Z; 2017%Z; 2018%Z]
                           [0; 0; -0x1p-1000; 0x1p+1000])
                 [0; 0; -0x1p-1000; 0x1p+1000]
    ++ [MaxLine 0x1p+1000 2018; MinLine (-0x1p-1000) 2017;
        MeanGrowthLine neg_infinity; MaxGrowthLine neg_infinity 2016]
    ++ summary_foot (table_of [2015%Z; 2016%Z; 2017%Z; 2018%Z]
                              [0; 0; -0x1p-1000; 0x1p+1000])
  /\ growth_rate pct_change_pads [0; 0; -0x1p-1000; 0x1p+1000]
     = [nan; nan; neg_infinity; neg_infinity]
  /\ earliest (fun x => x =? neg_infinity)
              (growth_rate pct_change_pads [0; 0; -0x1p-1000; 0x1p+1000])
     = Some 2%nat
  /\ nth 2 [2015%Z; 2016%Z; 2017%Z; 2018%Z] 0%Z = 2017%Z
  /\ forallb is_finite [0; 0; -0x1p-1000; 0x1p+1000] = true.
Proof. vm_compute. repeat split. Qed.

(** With pandas from 3.0 on the same table gets the year 2017. *)
Example max_growth_year_pandas3 :
  stdout (snd (@print_summary pandas3_libraries
                 (@Build_world pandas3_libraries
                    (Some (table_of [2015%Z; 2016%Z; 2017%Z; 2018%Z]
                                    [0; 0; -0x1p-1000; 0x1p+1000]))
                    None 0%Z [] [])))
  = summary_head (table_of [2015%Z; 2016%Z; 2017%Z; 2018%Z]
                           [0; 0; -0x1p-1000; 0x1p+1000])
                 [0; 0; -0x1p-1000; 0x1p+1000]
    ++ [MaxLine 0x1p+1000 2018; MinLine (-0x1p-1000) 2017;
        MeanGrowthLine neg_infinity; MaxGrowthLine neg_infinity 2017]
    ++ summary_foot (table_of [2015%Z; 2016%Z; 2017%Z; 2018%Z]
                              [0; 0; -0x1p-1000; 0x1p+1000]).
Proof. vm_compute. reflexivity. Qed.

(** ** Constant series *)

Lemma growth_after_first_constant g v :
  (forall x, In x g -> x = v) ->
  growth_after_first g = repeat ((v / v - 1) * 100) (length g - 1).
Proof.
  intros Hall. unfold growth_after_first.
  destruct g as [|x rest]; [reflexivity |].
  cbn [tl length]. rewrite Nat.sub_succ, Nat.sub_0_r.
  assert (Hx : x = v) by (apply Hall; left; reflexivity).
  assert (Hrest : forall y, In y rest -> y = v)
    by (intros y Hy; apply Hall; right; exact Hy).
  clear Hall. revert x Hx Hrest.
  induction rest as [|y rest IH]; intros x Hx Hrest; [reflexivity |].
  cbn [zip_with repeat length].
  rewrite (Hrest y) by (left; reflexivity). rewrite Hx. f_equal.
  rewrite <- (Hrest y) at 1 by (left; reflexivity).
  apply IH.
  - apply Hrest. left. reflexivity.
  - intros z Hz. apply Hrest. right. exact Hz.
Qed.

Lemma constant_no_nan g v :
  (forall x, In x g -> x = v) -> is_nan v = false -> no_nan g = true.
Proof.
  intros Hall Hv. unfold no_nan. apply forallb_forall. intros x Hx.
  rewrite (Hall x Hx), Hv. reflexivity.
Qed.

Lemma is_infinity_not_nan (v : float) : is_infinity v = true -> is_nan v = false.
Proof.
  intros H. apply FloatFacts.is_nan_false. intros E.
  unfold is_infinity in H. rewrite eqb_spec, abs_spec, E in H. discriminate H.
Qed.

(** C8 (as the code has it): when every period has the same GDP [v], and
    [v] is a finite number other than zero, the growth rate of every
    period after the first is 0 and the growth chart that
    [plot_growth_rate] hands to matplotlib has a bar of height 0 for each
    of them; when [v] is an infinity, the growth rate of every period
    after the first is NaN. *)
Theorem constant_gdp_zero_growth {L : Libraries} (w : world) (df : DataFrame)
    (g : list float) (v : float) (save_path : string) :
  self_data w = Some df -> GDP df = Some g ->
  (forall x, In x g -> x = v) ->
  (finite_nonzero v = true ->
   (forall i, (1 <= i < length g)%nat ->
       nth_error (growth_rate pct_change_pads g) i = Some 0)
   /\ plot_growth_rate save_path w
      = rendered w save_path
                 (GrowthFigure (skipn 1 (Year df)) (repeat 0 (length g - 1))))
  /\ (is_infinity v = true ->
      forall i, (1 <= i < length g)%nat ->
        nth_error (growth_rate pct_change_pads g) i = Some nan).
Proof.
  intros Hdata Hgdp Hall.
  pose proof (growth_after_first_constant g v Hall) as Hgr.
  assert (Hnth : forall s i, is_nan v = false -> (v / v - 1) * 100 = s ->
                   (1 <= i < length g)%nat ->
                   nth_error (growth_rate pct_change_pads g) i = Some s).
  { intros s i Hv Hs Hi.
    rewrite growth_rate_unfold by (right; apply (constant_no_nan g v Hall Hv)).
    destruct g as [|x rest]; [simpl in Hi; lia |].
    destruct i as [|i]; [lia |]. cbn [nth_error]. rewrite Hgr, Hs.
    apply nth_error_repeat. simpl in *. lia. }
  split.
  - intros Hv.
    assert (Hs : (v / v - 1) * 100 = 0)
      by (rewrite FloatFacts.div_self by exact Hv; reflexivity).
    pose proof (FloatFacts.finite_nonzero_not_nan v Hv) as Hn.
    split.
    + intros i Hi. apply Hnth; assumption.
    + unfold plot_growth_rate. rewrite (bind_require_data _ w df Hdata).
      unfold col_GDP. rewrite Hgdp, bind_lift_ok.
      rewrite skipn_growth_rate by (right; apply (constant_no_nan g v Hall Hn)).
      rewrite Hgr, Hs. apply render_run.
  - intros Hv i Hi. apply Hnth; [apply is_infinity_not_nan; exact Hv | | exact Hi].
    apply FloatFacts.growth_of_infinity. exact Hv.
Qed.

Lemma constant_gdp_zero_growth_witness :
  nth_error (growth_rate pct_change_pads [8700; 8700; 8700]) 2 = Some 0.
Proof.
  refine (proj1 (proj1 (constant_gdp_zero_growth
                   (world_of (table_of [2015%Z; 2016%Z; 2017%Z] [8700; 8700; 8700]))
                   (table_of [2015%Z; 2016%Z; 2017%Z] [8700; 8700; 8700])
                   [8700; 8700; 8700] 8700 "gdp_growth_rate.png" _ _ _) _) 2%nat _);
    try reflexivity.
  - intros x [<- | [<- | [<- | []]]]; reflexivity.
  - simpl. lia.
Defined.

(** The claim as written fails on a table whose GDP is +inf in every
    period, a nonzero value: the growth rates after the first period,
    and the bars of the growth chart, are NaN and not 0. *)
Lemma constant_infinite_gdp_growth_is_nan :
  growth_rate pct_change_pads [infinity; infinity; infinity] = [nan; nan; nan]
  /\ map snd (files (snd (plot_growth_rate "gdp_growth_rate.png"
                            (world_of (table_of [2015%Z; 2016%Z; 2017%Z]
                                                [infinity; infinity; infinity])))))
     = [GrowthFigure [2016%Z; 2017%Z] [nan; nan]]
  /\ is_zero infinity = false
  /\ (nan =? 0) = false.
Proof. vm_compute. repeat split. Qed.

(** ** Failures of [calculate_gdp] *)

(** Arrays of lengths other than one broadcast only when the lengths agree. *)
Lemma np_binop_arrays op xs ys :
  length xs <> 1%nat -> length ys <> 1%nat ->
  np_binop op (NpArray xs) (NpArray ys)
  = if Nat.eqb (length xs) (length ys) then Ok (NpArray (zip_with op xs ys))
    else Raise (BroadcastError (length xs) (length ys)).
Proof.
  intros Hx Hy. unfold np_binop.
  destruct (Nat.eqb (length xs) (length ys)); [reflexivity |].
  destruct xs as [|x [|x' xs]]; [| simpl in Hx; congruence |];
    destruct ys as [|y [|y' ys]]; try reflexivity; simpl in Hy; congruence.
Qed.

Lemma np_binop_raise op a b e :
  np_binop op a b = Raise e ->
  exists n k, e = BroadcastError n k /\ n <> k /\ n <> 1%nat /\ k <> 1%nat.
Proof.
  destruct a as [x|xs], b as [y|ys]; simpl; try discriminate.
  destruct (Nat.eqb_spec (length xs) (length ys)) as [|Hne]; [discriminate |].
  destruct xs as [|x [|x' xs]]; try discriminate;
    destruct ys as [|y [|y' ys]]; try discriminate;
    intros [= <-]; eexists; eexists; (split; [reflexivity |]); simpl in *;
    repeat split; congruence.
Qed.

Lemma gdp_formula_raise (c i g x m : npvalue) e :
  gdp_formula c i g x m = Raise e ->
  exists n k, e = BroadcastError n k /\ n <> k /\ n <> 1%nat /\ k <> 1%nat.
Proof.
  unfold gdp_formula. cbn [py_add py_sub np_operand].
  destruct (np_binop sub x m) as [nx|e1] eqn:E1;
    [| intros [= <-]; eapply np_binop_raise; exact E1].
  cbn [rbind].
  destruct (np_binop add c i) as [t1|e2] eqn:E2;
    [| intros [= <-]; eapply np_binop_raise; exact E2].
  cbn [rbind].
  destruct (np_binop add t1 g) as [t2|e3] eqn:E3;
    [| intros [= <-]; eapply np_binop_raise; exact E3].
  cbn [rbind]. apply np_binop_raise.
Qed.

Lemma gdp_formula_arrays_ok cs vs gs xs ms :
  length cs <> 1%nat -> length vs <> 1%nat -> length gs <> 1%nat ->
  length xs <> 1%nat -> length ms <> 1%nat ->
  is_ok (gdp_formula (NpArray cs) (NpArray vs) (NpArray gs) (NpArray xs) (NpArray ms)) = true
  <-> length vs = length cs /\ length gs = length cs
      /\ length xs = length cs /\ length ms = length cs.
Proof.
  intros Hc Hv Hg Hx Hm. unfold gdp_formula. cbn [py_add py_sub np_operand].
  rewrite (np_binop_arrays sub xs ms Hx Hm).
  destruct (Nat.eqb_spec (length xs) (length ms)) as [Exm | Exm];
    [| split; [discriminate | intros (_ & _ & H1 & H2); congruence]].
  cbn [rbind]. rewrite (np_binop_arrays add cs vs Hc Hv).
  destruct (Nat.eqb_spec (length cs) (length vs)) as [Ecv | Ecv];
    [| split; [discriminate | intros (H1 & _); congruence]].
  cbn [rbind].
  assert (Ht1 : length (zip_with add cs vs) = length cs)
    by (rewrite zip_with_length; lia).
  rewrite (np_binop_arrays add (zip_with add cs vs) gs) by congruence.
  rewrite Ht1.
  destruct (Nat.eqb_spec (length cs) (length gs)) as [Ecg | Ecg];
    [| split; [discriminate | intros (_ & H1 & _); congruence]].
  cbn [rbind].
  assert (Ht2 : length (zip_with add (zip_with add cs vs) gs) = length cs)
    by (rewrite !zip_with_length; lia).
  assert (Hnx : length (zip_with sub xs ms) = length xs)
    by (rewrite zip_with_length; lia).
  rewrite np_binop_arrays by congruence.
  rewrite Ht2, Hnx.
  destruct (Nat.eqb_spec (length cs) (length xs)) as [Ecx | Ecx].
  - split; [intros _ | reflexivity]. repeat split; congruence.
  - split; [discriminate | intros (_ & _ & H1 & _); congruence].
Qed.

(** C4 (as the code has it): [calculate_gdp] validates nothing.  On
    floats and ints it always returns the formula, whatever the values;
    on pandas Series it always returns, aligning Series of different
    lengths; on NumPy arrays none of which has length one it returns
    exactly when all five lengths agree (3 against 5 raises), and the only
    error it ever raises on NumPy operands is NumPy's broadcast
    ValueError, for two lengths that differ and are both other than
    one. *)
Theorem calculate_gdp_failures {L : Libraries} (w : world) :
  (forall c i g x m : float,
      fst (calculate_gdp c i g x m w) = Ok (c + i + g + (x - m)))
  /\ (forall c i g x m : Z,
      fst (calculate_gdp c i g x m w) = Ok (c + i + g + (x - m))%Z)
  /\ (forall c i g x m : Series, is_ok (fst (calculate_gdp c i g x m w)) = true)
  /\ (forall cs vs gs xs ms : list float,
      length cs <> 1%nat -> length vs <> 1%nat -> length gs <> 1%nat ->
      length xs <> 1%nat -> length ms <> 1%nat ->
      (is_ok (fst (calculate_gdp (NpArray cs) (NpArray vs) (NpArray gs)
                                 (NpArray xs) (NpArray ms) w)) = true
       <-> length vs = length cs /\ length gs = length cs
           /\ length xs = length cs /\ length ms = length cs))
  /\ (forall (c i g x m : npvalue) (e : exn),
      fst (calculate_gdp c i g x m w) = Raise e ->
      exists n k, e = BroadcastError n k /\ n <> k /\ n <> 1%nat /\ k <> 1%nat)
  /\ fst (calculate_gdp (NpArray [1; 2; 3]) (NpArray [1; 2; 3; 4; 5])
                        (NpArray [1; 2; 3; 4; 5]) (NpArray [1; 2; 3; 4; 5])
                        (NpArray [1; 2; 3; 4; 5]) w)
     = Raise (BroadcastError 3 5).
Proof.
  split; [|split; [|split; [|split; [|split]]]].
  - reflexivity.
  - reflexivity.
  - intros. reflexivity.
  - intros cs vs gs xs ms Hc Hv Hg Hx Hm. rewrite calculate_gdp_run.
    apply gdp_formula_arrays_ok; assumption.
  - intros c i g x m e. rewrite calculate_gdp_run. apply gdp_formula_raise.
  - reflexivity.
Qed.

Lemma calculate_gdp_failures_witness :
  is_ok (fst (calculate_gdp (NpArray [5000; 5200]) (NpArray [1500; 1580])
                            (NpArray [2000; 2100]) (NpArray [1800; 1890])
                            (NpArray [1600; 1685]) fresh_world)) = true.
Proof.
  refine (proj2 (proj1 (proj2 (proj2 (proj2 (calculate_gdp_failures fresh_world))))
                   [5000; 5200] [1500; 1580] [2000; 2100] [1800; 1890] [1600; 1685]
                   _ _ _ _ _) _);
    simpl; lia.
Defined.

(** The claim as written fails: mismatched lengths are accepted when the
    inputs are Series (3 against 5, the missing labels give NaN) and when
    an array has length one (1 against 5, it is broadcast). *)
Lemma mismatched_lengths_accepted :
  fst (calculate_gdp (mkSeries [1; 2; 3]) (mkSeries [1; 1; 1; 1; 1])
                     (mkSeries [1; 1; 1; 1; 1]) (mkSeries [1; 1; 1; 1; 1])
                     (mkSeries [1; 1; 1; 1; 1]) fresh_world)
  = Ok (mkSeries [3; 4; 5; nan; nan])
  /\ fst (calculate_gdp (NpArray [1; 2; 3; 4; 5]) (NpArray [1; 1; 1; 1; 1])
                        (NpArray [1; 1; 1; 1; 1]) (NpArray [10])
                        (NpArray [1; 1; 1; 1; 1]) fresh_world)
     = Ok (NpArray [12; 13; 14; 15; 16]).
Proof. vm_compute. split; reflexivity. Qed.

(** * Further properties *)

(** ** More facts about binary64 arithmetic *)

Module FloatMore.

Lemma is_nan_eq (x : float) : is_nan x = true -> x = nan.
Proof.
  intros H. apply FloatFacts.is_nan_spec in H. apply Prim2SF_inj. rewrite H. reflexivity.
Qed.

Lemma add_nan_l (x : float) : nan + x = nan.
Proof.
  apply Prim2SF_inj. rewrite add_spec. change (Prim2SF nan) with S754_nan. reflexivity.
Qed.

Lemma add_nan_r (x : float) : x + nan = nan.
Proof.
  apply Prim2SF_inj. rewrite add_spec. change (Prim2SF nan) with S754_nan.
  destruct (Prim2SF x); reflexivity.
Qed.

Lemma sub_nan_l (x : float) : nan - x = nan.
Proof.
  apply Prim2SF_inj. rewrite sub_spec. change (Prim2SF nan) with S754_nan. reflexivity.
Qed.

Lemma sub_nan_r (x : float) : x - nan = nan.
Proof.
  apply Prim2SF_inj. rewrite sub_spec. change (Prim2SF nan) with S754_nan.
  destruct (Prim2SF x); reflexivity.
Qed.

Lemma SFadd_comm (x y : spec_float) : SF64add x y = SF64add y x.
Proof.
  unfold SF64add, SFadd.
  destruct x as [sx|sx| |sx mx ex], y as [sy|sy| |sy my ey]; try reflexivity.
  - destruct sx, sy; reflexivity.
  - destruct sx, sy; reflexivity.
  - rewrite (Z.min_comm ey ex), Z.add_comm. reflexivity.
Qed.

Lemma add_comm (x y : float) : x + y = y + x.
Proof.
  apply Prim2SF_inj. rewrite !add_spec. apply SFadd_comm.
Qed.

Lemma SFleb_trans x y z :
  SFleb x y = true -> SFleb y z = true -> SFleb x z = true.
Proof. FloatFacts.sf_crush. Qed.

Lemma leb_trans (x y z : float) :
  (x <=? y) = true -> (y <=? z) = true -> (x <=? z) = true.
Proof. rewrite !leb_spec. apply SFleb_trans. Qed.

Lemma leb_connected (x y : float) :
  is_nan x = false -> is_nan y = false -> (x <=? y) = false -> (y <=? x) = true.
Proof.
  intros Hx Hy H. apply FloatFacts.ltb_leb. apply FloatFacts.leb_total; assumption.
Qed.

(** Division of a finite nonzero value by a zero is an infinity, and so
    is what [pct_change] and the percentage make of it. *)
Lemma growth_over_zero (cur prev : float) :
  is_zero prev = true -> finite_nonzero cur = true ->
  is_infinity ((cur / prev - 1) * 100) = true.
Proof.
  intros Hz Hc. destruct (FloatFacts.finite_nonzero_inv _ Hc) as (s & m & e & E).
  unfold is_zero in Hz. rewrite eqb_spec in Hz.
  change (Prim2SF zero) with (S754_zero false) in Hz.
  unfold is_infinity. rewrite eqb_spec, abs_spec, mul_spec, sub_spec, div_spec, E.
  change (Prim2SF infinity) with (S754_infinity false).
  change (Prim2SF 1) with (S754_finite false 4503599627370496 (-52)).
  change (Prim2SF 100) with (S754_finite false 7036874417766400 (-46)).
  destruct (Prim2SF prev) as [sz|sz| |sz mz ez];
    unfold SFeqb in Hz; simpl in Hz;
    try discriminate Hz; try (destruct sz; discriminate Hz).
  destruct s, sz; reflexivity.
Qed.

Lemma growth_zero_over_zero (cur prev : float) :
  is_zero prev = true -> is_zero cur = true ->
  (cur / prev - 1) * 100 = nan.
Proof.
  intros Hz Hc. unfold is_zero in *. rewrite eqb_spec in *.
  change (Prim2SF zero) with (S754_zero false) in *.
  apply Prim2SF_inj. rewrite mul_spec, sub_spec, div_spec.
  change (Prim2SF nan) with S754_nan.
  destruct (Prim2SF prev) as [sz|sz| |sz mz ez];
    unfold SFeqb in Hz; simpl in Hz;
    try discriminate Hz; try (destruct sz; discriminate Hz).
  destruct (Prim2SF cur) as [sc|sc| |sc mc ec];
    unfold SFeqb in Hc; simpl in Hc;
    try discriminate Hc; try (destruct sc; discriminate Hc).
  reflexivity.
Qed.

End FloatMore.

(** ** Broadcasting in [calculate_gdp] *)

Lemma zip_with_repeat {A B C} (f : A -> B -> C) x y n :
  zip_with f (repeat x n) (repeat y n) = repeat (f x y) n.
Proof. induction n as [|n IH]; simpl; [reflexivity | rewrite IH; reflexivity]. Qed.

Lemma zip_with_repeat_l {A B C} (f : A -> B -> C) x ys :
  zip_with f (repeat x (length ys)) ys = map (f x) ys.
Proof. induction ys as [|y ys IH]; simpl; [reflexivity | rewrite IH; reflexivity]. Qed.

Lemma zip_with_repeat_r {A B C} (f : A -> B -> C) xs y :
  zip_with f xs (repeat y (length xs)) = map (fun x => f x y) xs.
Proof. induction xs as [|x xs IH]; simpl; [reflexivity | rewrite IH; reflexivity]. Qed.

Lemma stretch_array n xs : length xs = n -> stretch n (NpArray xs) = Some xs.
Proof.
  intros <-. unfold stretch. rewrite Nat.eqb_refl.
  destruct xs as [|x [|x' xs]]; reflexivity.
Qed.

Lemma stretch_array_inv n xs s :
  stretch n (NpArray xs) = Some s ->
  (length xs = n /\ s = xs) \/ (exists x, xs = [x] /\ s = repeat x n).
Proof.
  unfold stretch. destruct xs as [|x [|x' xs]].
  - destruct (Nat.eqb_spec (length (@nil float)) n); [|discriminate].
    intros [= <-]. left. auto.
  - intros [= <-]. right. eauto.
  - destruct (Nat.eqb_spec (length (x :: x' :: xs)) n); [|discriminate].
    intros [= <-]. left. auto.
Qed.

(** One operation: the operands broadcast to [n], so the operation
    succeeds and its result broadcasts to the elementwise result. *)
Lemma np_binop_stretch op n a b sa sb :
  stretch n a = Some sa -> stretch n b = Some sb ->
  exists r, np_binop op a b = Ok r /\ stretch n r = Some (zip_with op sa sb).
Proof.
  intros Ha Hb. destruct a as [x|xs], b as [y|ys].
  - injection Ha as <-. injection Hb as <-.
    eexists. split; [reflexivity |]. simpl. rewrite zip_with_repeat. reflexivity.
  - injection Ha as <-.
    destruct (stretch_array_inv _ _ _ Hb) as [[Hlen ->] | (y & -> & ->)].
    + eexists. split; [reflexivity |].
      rewrite stretch_array by (rewrite length_map; exact Hlen).
      rewrite <- Hlen, zip_with_repeat_l. reflexivity.
    + eexists. split; [reflexivity |]. simpl. rewrite zip_with_repeat. reflexivity.
  - injection Hb as <-.
    destruct (stretch_array_inv _ _ _ Ha) as [[Hlen ->] | (x & -> & ->)].
    + eexists. split; [reflexivity |].
      rewrite stretch_array by (rewrite length_map; exact Hlen).
      rewrite <- Hlen, zip_with_repeat_r. reflexivity.
    + eexists. split; [reflexivity |]. simpl. rewrite zip_with_repeat. reflexivity.
  - destruct (stretch_array_inv _ _ _ Ha) as [[Hla ->] | (x & -> & ->)];
      destruct (stretch_array_inv _ _ _ Hb) as [[Hlb ->] | (y & -> & ->)].
    + rewrite np_binop_same by congruence. eexists. split; [reflexivity |].
      apply stretch_array. rewrite zip_with_length. lia.
    + (* [ys] has one element *)
      unfold np_binop. destruct (Nat.eqb_spec (length xs) (length [y])) as [E|E].
      * simpl in E. destruct xs as [|x [|x' xs]]; try discriminate E.
        simpl in Hla. subst n. eexists. split; reflexivity.
      * eexists. split.
        -- destruct xs as [|x [|x' xs]]; try reflexivity. simpl in E. congruence.
        -- rewrite stretch_array by (rewrite length_map; exact Hla).
           rewrite <- Hla, zip_with_repeat_r. reflexivity.
    + unfold np_binop. destruct (Nat.eqb_spec (length [x]) (length ys)) as [E|E].
      * simpl in E. destruct ys as [|y [|y' ys]]; try discriminate E.
        simpl in Hlb. subst n. eexists. split; reflexivity.
      * eexists. split; [reflexivity |].
        rewrite stretch_array by (rewrite length_map; exact Hlb).
        rewrite <- Hlb, zip_with_repeat_l. reflexivity.
    + eexists. split; [reflexivity |]. simpl. rewrite zip_with_repeat. reflexivity.
Qed.

(** X1: NumPy operands that are scalars, one-element arrays or arrays of
    one common length [n] always go through [calculate_gdp], and the
    result, broadcast to [n], is the formula at every position over the
    broadcast inputs. *)
Theorem calculate_gdp_broadcasts {L : Libraries} (w : world) (n : nat)
    (c i g x m : npvalue) (sc si sg sx sm : list float) :
  stretch n c = Some sc -> stretch n i = Some si -> stretch n g = Some sg ->
  stretch n x = Some sx -> stretch n m = Some sm ->
  exists r out,
    calculate_gdp c i g x m w = (Ok r, w)
    /\ stretch n r = Some out
    /\ length out = n
    /\ forall k vc vi vg vx vm,
        nth_error sc k = Some vc -> nth_error si k = Some vi ->
        nth_error sg k = Some vg -> nth_error sx k = Some vx ->
        nth_error sm k = Some vm ->
        nth_error out k = Some (vc + vi + vg + (vx - vm)).
Proof.
  intros Hc Hi Hg Hx Hm.
  destruct (np_binop_stretch sub n x m sx sm Hx Hm) as (nx & Enx & Snx).
  destruct (np_binop_stretch add n c i sc si Hc Hi) as (t1 & Et1 & St1).
  destruct (np_binop_stretch add n t1 g _ sg St1 Hg) as (t2 & Et2 & St2).
  destruct (np_binop_stretch add n t2 nx _ _ St2 Snx) as (r & Er & Sr).
  exists r. eexists. split; [|split; [exact Sr | split]].
  - rewrite calculate_gdp_run. unfold gdp_formula. cbn [py_add py_sub np_operand].
    rewrite Enx. cbn [rbind]. rewrite Et1. cbn [rbind]. rewrite Et2. cbn [rbind].
    rewrite Er. reflexivity.
  - assert (Hlen : forall v s, stretch n v = Some s -> length s = n).
    { intros [y|ys] s Hs.
      - injection Hs as <-. apply repeat_length.
      - destruct (stretch_array_inv _ _ _ Hs) as [[Hl ->] | (y & _ & ->)];
          [exact Hl | apply repeat_length]. }
    apply length_formula; eapply Hlen; eassumption.
  - intros. apply nth_error_formula; assumption.
Qed.

Lemma calculate_gdp_broadcasts_witness :
  exists r out,
    calculate_gdp (NpArray [5000; 5200]) (NpArray [1500; 1580]) (NpFloat 2000)
                  (NpArray [1800]) (NpArray [1600; 1685]) fresh_world
    = (Ok r, fresh_world)
    /\ stretch 2 r = Some out
    /\ nth_error out 1 = Some (5200 + 1580 + 2000 + (1800 - 1685)).
Proof.
  destruct (calculate_gdp_broadcasts fresh_world 2
              (NpArray [5000; 5200]) (NpArray [1500; 1580]) (NpFloat 2000)
              (NpArray [1800]) (NpArray [1600; 1685])
              [5000; 5200] [1500; 1580] [2000; 2000] [1800; 1800] [1600; 1685]
              eq_refl eq_refl eq_refl eq_refl eq_refl)
    as (r & out & Hrun & Hs & _ & Hnth).
  exists r, out. split; [exact Hrun | split; [exact Hs |]].
  apply Hnth; reflexivity.
Defined.

(** ** Alignment of Series in [calculate_gdp] *)

Lemma reindex_length n xs : length (reindex n xs) = n.
Proof.
  unfold reindex. rewrite length_firstn, length_app, repeat_length. lia.
Qed.

Lemma at_label_beyond xs k : (length xs <= k)%nat -> at_label xs k = nan.
Proof. intros H. unfold at_label. apply nth_overflow. exact H. Qed.

Lemma at_label_reindex n xs k :
  at_label (reindex n xs) k = if Nat.ltb k n then at_label xs k else nan.
Proof.
  unfold at_label, reindex. destruct (Nat.ltb_spec k n) as [Hk | Hk].
  - rewrite nth_firstn. apply Nat.ltb_lt in Hk. rewrite Hk.
    destruct (Nat.lt_ge_cases k (length xs)) as [Hin | Hout].
    + apply app_nth1. exact Hin.
    + rewrite app_nth2 by exact Hout. rewrite (nth_overflow xs) by exact Hout.
      apply nth_repeat.
  - apply nth_overflow. rewrite length_firstn. lia.
Qed.

Lemma at_label_zip_with op xs ys k :
  op nan nan = nan -> length xs = length ys ->
  at_label (zip_with op xs ys) k = op (at_label xs k) (at_label ys k).
Proof.
  intros Hop. unfold at_label. revert ys k.
  induction xs as [|x xs IH]; intros [|y ys] [|k] Hlen; simpl in *;
    try discriminate; auto.
Qed.

(** One operation on two Series: as long as the longer, and at every
    label the operation on the two values, NaN standing for a missing
    one. *)
Lemma series_binop_at op a b :
  op nan nan = nan ->
  exists r,
    series_binop op (mkSeries a) (mkSeries b) = Ok (mkSeries r)
    /\ length r = Nat.max (length a) (length b)
    /\ forall k, at_label r k = op (at_label a k) (at_label b k).
Proof.
  intros Hop. eexists. split; [reflexivity |]. cbn [values]. split.
  - rewrite zip_with_length, !reindex_length. lia.
  - intros k. rewrite at_label_zip_with by (rewrite ?reindex_length; auto).
    rewrite !at_label_reindex.
    destruct (Nat.ltb_spec k (Nat.max (length a) (length b))) as [Hk | Hk];
      [reflexivity |].
    rewrite !at_label_beyond by lia. reflexivity.
Qed.

Lemma nth_error_at_label xs k :
  (k < length xs)%nat -> nth_error xs k = Some (at_label xs k).
Proof. intros H. unfold at_label. apply nth_error_nth'. exact H. Qed.

(** X2: on pandas Series of any lengths [calculate_gdp] returns a Series
    as long as the longest input; at every label it holds the formula
    over the inputs' values at that label, NaN standing for the value of
    an input that is too short, so that such a label gets NaN. *)
Theorem calculate_gdp_aligns_series {L : Libraries} (w : world)
    (cs vs gs xs ms : list float) :
  exists out,
    calculate_gdp (mkSeries cs) (mkSeries vs) (mkSeries gs) (mkSeries xs) (mkSeries ms) w
    = (Ok (mkSeries out), w)
    /\ length out
       = Nat.max (Nat.max (Nat.max (length cs) (length vs)) (length gs))
                 (Nat.max (length xs) (length ms))
    /\ (forall k,
          at_label out k
          = at_label cs k + at_label vs k + at_label gs k
            + (at_label xs k - at_label ms k))
    /\ (forall k,
          (k < length out)%nat ->
          (length cs <= k \/ length vs <= k \/ length gs <= k
           \/ length xs <= k \/ length ms <= k)%nat ->
          nth_error out k = Some nan).
Proof.
  destruct (series_binop_at sub xs ms eq_refl) as (nx & Enx & Lnx & Anx).
  destruct (series_binop_at add cs vs eq_refl) as (t1 & Et1 & Lt1 & At1).
  destruct (series_binop_at add t1 gs eq_refl) as (t2 & Et2 & Lt2 & At2).
  destruct (series_binop_at add t2 nx eq_refl) as (out & Eout & Lout & Aout).
  assert (Hat : forall k,
             at_label out k
             = at_label cs k + at_label vs k + at_label gs k
               + (at_label xs k - at_label ms k)).
  { intros k. rewrite Aout, At2, At1, Anx. reflexivity. }
  exists out. split; [|split; [|split]].
  - rewrite calculate_gdp_run. unfold gdp_formula. cbn [py_add py_sub series_operand].
    rewrite Enx. cbn [rbind]. rewrite Et1. cbn [rbind]. rewrite Et2. cbn [rbind].
    rewrite Eout. reflexivity.
  - rewrite Lout, Lt2, Lt1, Lnx. reflexivity.
  - exact Hat.
  - intros k Hk Hshort. rewrite nth_error_at_label by exact Hk. f_equal.
    rewrite Hat.
    destruct Hshort as [H | [H | [H | [H | H]]]];
      rewrite (at_label_beyond _ _ H);
      repeat first [ rewrite FloatMore.sub_nan_l | rewrite FloatMore.sub_nan_r
                   | rewrite FloatMore.add_nan_l | rewrite FloatMore.add_nan_r ];
      reflexivity.
Qed.

Lemma calculate_gdp_aligns_series_witness :
  exists out,
    calculate_gdp (mkSeries [5000; 5200; 5400]) (mkSeries [1500; 1580; 1660])
                  (mkSeries [2000; 2100; 2200]) (mkSeries [1800; 1890])
                  (mkSeries [1600; 1685; 1770]) fresh_world
    = (Ok (mkSeries out), fresh_world)
    /\ nth_error out 2 = Some nan.
Proof.
  destruct (calculate_gdp_aligns_series fresh_world
              [5000; 5200; 5400] [1500; 1580; 1660] [2000; 2100; 2200]
              [1800; 1890] [1600; 1685; 1770])
    as (out & Hrun & Hlen & _ & Hnan).
  exists out. split; [exact Hrun |].
  apply Hnan.
  - rewrite Hlen. simpl. lia.
  - simpl. lia.
Defined.

(** ** NaN and the order of the operands *)

(** X3: a NaN in any of the five float inputs makes the GDP NaN; nothing
    is raised. *)
Theorem calculate_gdp_nan_propagates {L : Libraries} (w : world) (c i g x m : float) :
  is_nan c || is_nan i || is_nan g || is_nan x || is_nan m = true ->
  calculate_gdp c i g x m w = (Ok nan, w).
Proof.
  intros H. rewrite calculate_gdp_run. unfold gdp_formula. cbn. do 2 f_equal.
  repeat (apply orb_true_iff in H; destruct H as [H | H]);
    apply FloatMore.is_nan_eq in H; subst;
    repeat first [ rewrite FloatMore.sub_nan_l | rewrite FloatMore.sub_nan_r
                 | rewrite FloatMore.add_nan_l | rewrite FloatMore.add_nan_r ];
    reflexivity.
Qed.

Lemma calculate_gdp_nan_propagates_witness :
  calculate_gdp 5000 1500 2000 (0 / 0) 1600 fresh_world = (Ok nan, fresh_world).
Proof.
  apply (calculate_gdp_nan_propagates fresh_world 5000 1500 2000 (0 / 0) 1600).
  reflexivity.
Defined.

Lemma zip_with_comm {A C} (f : A -> A -> C) xs ys :
  (forall a b, f a b = f b a) -> zip_with f xs ys = zip_with f ys xs.
Proof.
  intros Hf. revert ys. induction xs as [|x xs IH]; intros [|y ys]; simpl; auto.
  rewrite Hf, IH. reflexivity.
Qed.

(** X4: exchanging consumption and investment does not change the
    outcome, on floats, on ints and on Series of any lengths. *)
Theorem calculate_gdp_swaps_consumption_investment {L : Libraries} (w : world) :
  (forall c i g x m : float,
      calculate_gdp c i g x m w = calculate_gdp i c g x m w)
  /\ (forall c i g x m : Z,
      calculate_gdp c i g x m w = calculate_gdp i c g x m w)
  /\ (forall c i g x m : Series,
      calculate_gdp c i g x m w = calculate_gdp i c g x m w).
Proof.
  split; [|split].
  - intros. rewrite !calculate_gdp_run. unfold gdp_formula. cbn.
    rewrite (FloatMore.add_comm c i). reflexivity.
  - intros. rewrite !calculate_gdp_run. unfold gdp_formula. cbn.
    rewrite (Z.add_comm c i). reflexivity.
  - intros [c] [i] g x m. rewrite !calculate_gdp_run. unfold gdp_formula.
    cbn [py_add py_sub series_operand].
    assert (E : series_binop add (mkSeries c) (mkSeries i)
                = series_binop add (mkSeries i) (mkSeries c)).
    { unfold series_binop. cbn [values]. rewrite (Nat.max_comm (length c)).
      rewrite (zip_with_comm add _ _ FloatMore.add_comm). reflexivity. }
    rewrite E. reflexivity.
Qed.

(** ** What the consumers leave alone *)

Lemma console_grew_refl {L : Libraries} (w : world) : console_grew w w.
Proof.
  unfold console_grew. repeat split. exists []. rewrite app_nil_r. reflexivity.
Qed.

Lemma console_grew_trans {L : Libraries} (w1 w2 w3 : world) :
  console_grew w1 w2 -> console_grew w2 w3 -> console_grew w1 w3.
Proof.
  intros (Hd & Hg & Hr & Hf & o1 & Ho1) (Hd' & Hg' & Hr' & Hf' & o2 & Ho2).
  unfold console_grew. repeat split; try congruence.
  exists (o1 ++ o2). rewrite Ho2, Ho1, app_assoc. reflexivity.
Qed.

Lemma console_grew_bind {L : Libraries} {A B} (c : M A) (k : A -> M B) :
  (forall w, console_grew w (snd (c w))) ->
  (forall a w, console_grew w (snd (k a w))) ->
  forall w, console_grew w (snd (bind c k w)).
Proof.
  intros Hc Hk w. unfold bind. specialize (Hc w).
  destruct (c w) as [[a | e] w']; cbn [snd] in *.
  - eapply console_grew_trans; [exact Hc | apply Hk].
  - exact Hc.
Qed.

Lemma console_grew_print {L : Libraries} (l : line) (w : world) :
  console_grew w (snd (print l w)).
Proof. unfold console_grew. cbn. repeat split. exists [l]. reflexivity. Qed.

Lemma console_grew_lift {L : Libraries} {A} (r : result A) (w : world) :
  console_grew w (snd (lift r w)).
Proof. apply console_grew_refl. Qed.

Lemma console_grew_require_data {L : Libraries} (w : world) :
  console_grew w (snd (require_data w)).
Proof.
  unfold require_data, bind, get_data. destruct (self_data w); apply console_grew_refl.
Qed.

(** X5: whatever the stored table and however it ends, [print_summary]
    leaves the table, [gdp_values], the generator and the files as they
    were, and only adds lines after those already on the console. *)
Theorem print_summary_only_prints {L : Libraries} (w : world) :
  self_data (snd (print_summary w)) = self_data w
  /\ self_gdp_values (snd (print_summary w)) = self_gdp_values w
  /\ np_random (snd (print_summary w)) = np_random w
  /\ files (snd (print_summary w)) = files w
  /\ exists out, stdout (snd (print_summary w)) = stdout w ++ out.
Proof.
  change (console_grew w (snd (print_summary w))). revert w.
  unfold print_summary.
  repeat (apply console_grew_bind;
          [ first [ apply console_grew_require_data
                  | apply console_grew_print
                  | apply console_grew_lift ]
          | intros ]).
  apply console_grew_print.
Qed.

(** ** Charts *)

(** X7: on a table that has no GDP column the trend, growth and
    all-components charts raise KeyError and change nothing, and the
    summary raises KeyError after the banner and the period line; the
    components chart does not read GDP: it needs Net_Exports, raises
    KeyError without it and with it hands its chart to matplotlib. *)
Theorem consumers_need_their_columns {L : Libraries} (w : world) (df : DataFrame)
    (save_path : string) :
  self_data w = Some df -> GDP df = None ->
  plot_gdp_trend save_path w = (Raise (KeyError "GDP"), w)
  /\ plot_growth_rate save_path w = (Raise (KeyError "GDP"), w)
  /\ plot_all_components_trends save_path w = (Raise (KeyError "GDP"), w)
  /\ print_summary w
     = (Raise (KeyError "GDP"),
        with_stdout w (stdout w ++ [Text "======"; Text "GDP SUMMARY"; Text "======";
                                    PeriodLine (int_min (Year df)) (int_max (Year df))]))
  /\ plot_gdp_components save_path w
     = match Net_Exports df with
       | None => (Raise (KeyError "Net_Exports"), w)
       | Some nx =>
           rendered w save_path
                    (ComponentsFigure (Year df) (Consumption df) (Investment df)
                                      (Government_Spending df) nx)
       end.
Proof.
  intros Hdata Hgdp.
  unfold plot_gdp_trend, plot_gdp_components, plot_growth_rate,
    plot_all_components_trends, print_summary.
  rewrite !(bind_require_data _ w df Hdata).
  unfold col_GDP, col_Net_Exports. rewrite Hgdp, !bind_lift_raise.
  repeat split.
  - do 4 step_print. rewrite bind_lift_raise, <- !app_assoc. reflexivity.
  - destruct (Net_Exports df); [|reflexivity].
    rewrite bind_lift_ok. apply render_run.
Qed.

Lemma consumers_need_their_columns_witness :
  plot_gdp_trend "gdp_trend.png"
    (world_of (without_derived (table_of [2015%Z; 2016%Z] [100; 110])))
  = (Raise (KeyError "GDP"),
     world_of (without_derived (table_of [2015%Z; 2016%Z] [100; 110]))).
Proof.
  apply (consumers_need_their_columns
           (world_of (without_derived (table_of [2015%Z; 2016%Z] [100; 110])))
           (without_derived (table_of [2015%Z; 2016%Z] [100; 110]))
           "gdp_trend.png");
    reflexivity.
Defined.

(** ** The generated table and its consumers *)

Lemma sample_table_columns {L : Libraries} years start_year :
  exists g nx,
    GDP (sample_table years start_year) = Some g
    /\ Net_Exports (sample_table years start_year) = Some nx
    /\ length g = Z.to_nat years.
Proof.
  unfold sample_table. pose proof (sample_draws_lengths years) as H.
  destruct (sample_draws years) as [[[[[c i] g] x] m] g5].
  destruct H as (Hc & Hi & Hg & Hx & Hm).
  eexists. eexists. cbn [GDP Net_Exports]. split; [reflexivity |].
  split; [reflexivity |]. apply length_formula; assumption.
Qed.

Lemma nanargmax_raise skips xs e :
  nanargmax skips xs = Raise e -> e = EmptyArg \/ e = AllNA.
Proof.
  destruct (all_na xs) eqn:E.
  - rewrite nanargmax_all_na by exact E. intros [= <-].
    destruct (Nat.eqb (length xs) 0); auto.
  - destruct (nanargmax_ok skips xs E) as (p & -> & _). discriminate.
Qed.

Lemma nanargmin_raise skips xs e :
  nanargmin skips xs = Raise e -> e = EmptyArg \/ e = AllNA.
Proof.
  destruct (all_na xs) eqn:E.
  - rewrite nanargmin_all_na by exact E. intros [= <-].
    destruct (Nat.eqb (length xs) 0); auto.
  - destruct (nanargmin_ok skips xs E) as (p & -> & _). discriminate.
Qed.

(** What each plotting method does on a table that has the column it
    reads. *)
Lemma plot_gdp_trend_run {L : Libraries} w df g path :
  self_data w = Some df -> GDP df = Some g ->
  plot_gdp_trend path w = rendered w path (TrendFigure (Year df) g).
Proof.
  intros Hd Hg. unfold plot_gdp_trend. rewrite (bind_require_data _ w df Hd).
  unfold col_GDP. rewrite Hg, bind_lift_ok. apply render_run.
Qed.

Lemma plot_gdp_components_run {L : Libraries} w df nx path :
  self_data w = Some df -> Net_Exports df = Some nx ->
  plot_gdp_components path w
  = rendered w path
             (ComponentsFigure (Year df) (Consumption df) (Investment df)
                               (Government_Spending df) nx).
Proof.
  intros Hd Hn. unfold plot_gdp_components. rewrite (bind_require_data _ w df Hd).
  unfold col_Net_Exports. rewrite Hn, bind_lift_ok. apply render_run.
Qed.

Lemma plot_growth_rate_run {L : Libraries} w df g path :
  self_data w = Some df -> GDP df = Some g ->
  plot_growth_rate path w
  = rendered w path
             (GrowthFigure (skipn 1 (Year df))
                           (skipn 1 (growth_rate pct_change_pads g))).
Proof.
  intros Hd Hg. unfold plot_growth_rate. rewrite (bind_require_data _ w df Hd).
  unfold col_GDP. rewrite Hg, bind_lift_ok. apply render_run.
Qed.

Lemma plot_all_components_trends_run {L : Libraries} w df g path :
  self_data w = Some df -> GDP df = Some g ->
  plot_all_components_trends path w
  = rendered w path
             (AllTrendsFigure (Year df) (Consumption df) (Investment df)
                              (Government_Spending df) (Exports df) (Imports df) g).
Proof.
  intros Hd Hg. unfold plot_all_components_trends. rewrite (bind_require_data _ w df Hd).
  unfold col_GDP. rewrite Hg, bind_lift_ok. apply render_run.
Qed.

(** X9: after [generate_sample_data], whatever [years] and [start_year],
    the guard on [self.data] and the column lookups of the consumers
    cannot fail: every plotting method hands matplotlib the chart of the
    generated table, so that it can only fail inside matplotlib, and the
    summary can only fail in [idxmax] or [idxmin] (empty or all-NaN
    data). *)
Theorem generated_table_feeds_consumers {L : Libraries} (years start_year : Z)
    (save_path : string) (w : world) :
  let w1 := snd (generate_sample_data years start_year w) in
  exists df g nx,
    self_data w1 = Some df /\ GDP df = Some g /\ Net_Exports df = Some nx
    /\ plot_gdp_trend save_path w1 = rendered w1 save_path (TrendFigure (Year df) g)
    /\ plot_gdp_components save_path w1
       = rendered w1 save_path
                  (ComponentsFigure (Year df) (Consumption df) (Investment df)
                                    (Government_Spending df) nx)
    /\ plot_growth_rate save_path w1
       = rendered w1 save_path
                  (GrowthFigure (skipn 1 (Year df))
                                (skipn 1 (growth_rate pct_change_pads g)))
    /\ plot_all_components_trends save_path w1
       = rendered w1 save_path
                  (AllTrendsFigure (Year df) (Consumption df) (Investment df)
                                   (Government_Spending df) (Exports df) (Imports df) g)
    /\ (forall e, fst (plot_gdp_trend save_path w1) = Raise e -> e = MatplotlibError)
    /\ (forall e, fst (plot_gdp_components save_path w1) = Raise e -> e = MatplotlibError)
    /\ (forall e, fst (plot_growth_rate save_path w1) = Raise e -> e = MatplotlibError)
    /\ (forall e, fst (plot_all_components_trends save_path w1) = Raise e
                  -> e = MatplotlibError)
    /\ forall e, fst (print_summary w1) = Raise e -> e = EmptyArg \/ e = AllNA.
Proof.
  cbn zeta. rewrite generate_sample_data_run. cbn [snd].
  set (w1 := with_data _ _).
  assert (Hdata : self_data w1 = Some (sample_table years start_year)) by reflexivity.
  destruct (sample_table_columns years start_year) as (g & nx & Eg & Enx & _).
  destruct (sample_table_spec years start_year) as (Hwf & _).
  assert (Hfail : forall path fig e,
            fst (rendered w1 path fig) = Raise e -> e = MatplotlibError).
  { intros path fig e. unfold rendered.
    destruct (mpl_tight_layout fig); [|intros [= <-]; reflexivity].
    destruct (mpl_savefig path fig); [discriminate | intros [= <-]; reflexivity]. }
  exists (sample_table years start_year), g, nx.
  rewrite (plot_gdp_trend_run w1 _ g save_path Hdata Eg),
          (plot_gdp_components_run w1 _ nx save_path Hdata Enx),
          (plot_growth_rate_run w1 _ g save_path Hdata Eg),
          (plot_all_components_trends_run w1 _ g save_path Hdata Eg).
  do 7 (split; [reflexivity || assumption |]).
  do 4 (split; [apply Hfail |]).
  intros e. rewrite (print_summary_run w1 _ g Hdata Eg Hwf). cbn zeta.
  destruct (nanargmax idx_skips_nan g) as [imax|e1] eqn:E1;
    [| intros [= <-]; eapply nanargmax_raise; exact E1].
  destruct (nanargmin idx_skips_nan g) as [imin|e2] eqn:E2;
    [| intros [= <-]; eapply nanargmin_raise; exact E2].
  destruct (nanargmax idx_skips_nan (skipn 1 _)) as [p|e3] eqn:E3;
    [discriminate | intros [= <-]; eapply nanargmax_raise; exact E3].
Qed.

Lemma fold_min_first (rest : list Z) (a : Z) :
  (forall y, In y rest -> (a <= y)%Z) -> fold_left Z.min rest a = a.
Proof.
  revert a. induction rest as [|y rest IH]; intros a H; simpl; [reflexivity |].
  rewrite Z.min_l by (apply H; left; reflexivity).
  apply IH. intros z Hz. apply H. right. exact Hz.
Qed.

Lemma fold_max_attained (rest : list Z) (a m : Z) :
  (a <= m)%Z -> (forall y, In y rest -> (y <= m)%Z) -> a = m \/ In m rest ->
  fold_left Z.max rest a = m.
Proof.
  revert a. induction rest as [|y rest IH]; intros a Ha Hall Hin; simpl.
  - destruct Hin as [-> | []]. reflexivity.
  - assert (Hy : (y <= m)%Z) by (apply Hall; left; reflexivity).
    apply IH.
    + lia.
    + intros z Hz. apply Hall. right. exact Hz.
    + destruct Hin as [-> | [-> | Hin]]; [left; lia | left; lia | right; exact Hin].
Qed.

Lemma py_range_min_max a n :
  (1 <= n)%Z ->
  int_min (py_range a (a + n)) = Some a
  /\ int_max (py_range a (a + n)) = Some (a + n - 1)%Z.
Proof.
  intros Hn. unfold py_range.
  replace (a + n - a)%Z with n by lia.
  destruct (Z.to_nat n) as [|k] eqn:Ek; [lia |].
  cbn [seq map int_min int_max]. rewrite Z.add_0_r.
  assert (Hin : forall y, In y (map (fun j => (a + Z.of_nat j)%Z) (seq 1 k)) ->
                          (a <= y <= a + n - 1)%Z).
  { intros y Hy. apply in_map_iff in Hy as (j & <- & Hj).
    apply in_seq in Hj. lia. }
  split; f_equal.
  - apply fold_min_first. intros y Hy. apply Hin in Hy. lia.
  - apply fold_max_attained.
    + lia.
    + intros y Hy. apply Hin in Hy. lia.
    + destruct k as [|k]; [left; lia |].
      right. apply in_map_iff. exists (S k). split; [lia |].
      apply in_seq. lia.
Qed.

(** X10: the summary of a freshly generated table raises whenever
    [years < 2]; whenever [years >= 1] the period it prints runs from
    [start_year] to [start_year + years - 1]. *)
Theorem summary_of_generated_table {L : Libraries} (years start_year : Z) (w : world) :
  let w1 := snd (generate_sample_data years start_year w) in
  ((years < 2)%Z -> is_ok (fst (print_summary w1)) = false)
  /\ ((1 <= years)%Z ->
      exists mean rest,
        stdout (snd (print_summary w1))
        = stdout w ++ [Text "======"; Text "GDP SUMMARY"; Text "======";
                       PeriodLine (Some start_year) (Some (start_year + years - 1)%Z);
                       MeanLine mean] ++ rest).
Proof.
  cbn zeta. rewrite generate_sample_data_run. cbn [snd].
  set (w1 := with_data _ _).
  assert (Hdata : self_data w1 = Some (sample_table years start_year)) by reflexivity.
  assert (Hout : stdout w1 = stdout w) by reflexivity.
  destruct (sample_table_columns years start_year) as (g & nx & Eg & Enx & Hlen).
  destruct (sample_table_spec years start_year) as (Hwf & _ & _ & Hy).
  split.
  - intros Hshort. rewrite (print_summary_is_ok w1 _ g Hdata Eg Hwf).
    assert (Hgr : skipn 1 (growth_rate pct_change_pads g) = []).
    { apply length_zero_iff_nil. rewrite length_skipn, growth_rate_length. lia. }
    rewrite Hgr. apply andb_false_r.
  - intros Hone. rewrite (print_summary_run w1 _ g Hdata Eg Hwf). cbn zeta.
    unfold summary_head. rewrite Hy.
    destruct (py_range_min_max start_year years Hone) as [-> ->].
    exists (nanmean g).
    destruct (nanargmax idx_skips_nan g) as [imax|e1].
    2:{ exists []. cbn [snd with_stdout stdout]. rewrite Hout. reflexivity. }
    destruct (nanargmin idx_skips_nan g) as [imin|e2].
    2:{ eexists. cbn [snd with_stdout stdout]. rewrite Hout. reflexivity. }
    destruct (nanargmax idx_skips_nan (skipn 1 _)) as [p|e3];
      eexists; cbn [snd with_stdout stdout]; rewrite Hout; reflexivity.
Qed.

Lemma summary_of_generated_table_witness :
  is_ok (fst (print_summary (snd (generate_sample_data 1 2015 fresh_world)))) = false.
Proof.
  apply (proj1 (summary_of_generated_table 1 2015 fresh_world)). lia.
Defined.

(** X11: [generate_sample_data] prints nothing, saves nothing and leaves
    [gdp_values] alone; the table it stores has both derived columns; and
    calling it again with the same arguments changes nothing more. *)
Theorem generate_sample_data_frame {L : Libraries} (years start_year : Z) (w : world) :
  let w1 := snd (generate_sample_data years start_year w) in
  stdout w1 = stdout w
  /\ files w1 = files w
  /\ self_gdp_values w1 = self_gdp_values w
  /\ (exists df g nx,
        self_data w1 = Some df /\ GDP df = Some g /\ Net_Exports df = Some nx)
  /\ generate_sample_data years start_year w1 = generate_sample_data years start_year w.
Proof.
  cbn zeta. rewrite !generate_sample_data_run. cbn [snd].
  destruct (sample_table_columns years start_year) as (g & nx & Eg & Enx & _).
  repeat split.
  exists (sample_table years start_year), g, nx. repeat split; assumption.
Qed.

(** ** Extremes *)

Lemma fold_pick_In keep rest a : In (fold_left (np_pick keep) rest a) (a :: rest).
Proof.
  revert a. induction rest as [|x rest IH]; intros a; [left; reflexivity |].
  cbn [fold_left]. specialize (IH (np_pick keep a x)).
  destruct IH as [IH | IH].
  - rewrite <- IH. unfold np_pick.
    destruct (keep a x || is_nan a); [left | right; left]; reflexivity.
  - right. right. exact IH.
Qed.

Section Bound.

Variable le : float -> float -> bool.

Hypothesis le_total :
  forall x y, is_nan x = false -> is_nan y = false -> le x y = false -> le y x = true.
Hypothesis le_trans :
  forall x y z, le x y = true -> le y z = true -> le x z = true.
Hypothesis le_refl : forall x, is_nan x = false -> le x x = true.

(** The reduction returns a bound of everything it went through. *)
Lemma fold_pick_bound rest : forall a,
  is_nan a = false -> no_nan rest = true ->
  forall x, In x (a :: rest) ->
            le x (fold_left (np_pick (fun mp y => le y mp)) rest a) = true.
Proof.
  induction rest as [|y rest IH]; intros a Ha Hrest x Hx.
  - destruct Hx as [<- | []]. apply le_refl. exact Ha.
  - apply no_nan_cons in Hrest as [Hy Hrest]. cbn [fold_left].
    assert (Hpick : np_pick (fun mp y => le y mp) a y = if le y a then a else y)
      by (unfold np_pick; rewrite Ha, orb_false_r; reflexivity).
    rewrite Hpick. destruct (le y a) eqn:E.
    + destruct Hx as [<- | [<- | Hx]].
      * apply IH; [assumption | assumption | left; reflexivity].
      * eapply le_trans; [exact E |].
        apply IH; [assumption | assumption | left; reflexivity].
      * apply IH; [assumption | assumption | right; exact Hx].
    + destruct Hx as [<- | [<- | Hx]].
      * eapply le_trans; [apply le_total; [exact Hy | exact Ha | exact E] |].
        apply IH; [assumption | assumption | left; reflexivity].
      * apply IH; [assumption | assumption | left; reflexivity].
      * apply IH; [assumption | assumption | right; exact Hx].
Qed.

End Bound.

Lemma nanmax_bound xs :
  xs <> [] -> no_nan xs = true ->
  In (nanmax xs) xs /\ forall x, In x xs -> (x <=? nanmax xs) = true.
Proof.
  intros Hne Hnn. destruct xs as [|a rest]; [congruence |].
  unfold nanmax. rewrite fill_na_no_nan by assumption.
  rewrite (no_nan_not_all_na _ _ Hnn). cbn [np_reduce].
  apply no_nan_cons in Hnn as [Ha Hrest]. split.
  - apply fold_pick_In.
  - apply (fold_pick_bound (fun x y => x <=? y)); try assumption.
    + intros x y. apply FloatMore.leb_connected.
    + intros x y z. apply FloatMore.leb_trans.
    + apply FloatFacts.leb_refl.
Qed.

Lemma nanmin_bound xs :
  xs <> [] -> no_nan xs = true ->
  In (nanmin xs) xs /\ forall x, In x xs -> (nanmin xs <=? x) = true.
Proof.
  intros Hne Hnn. destruct xs as [|a rest]; [congruence |].
  unfold nanmin. rewrite fill_na_no_nan by assumption.
  rewrite (no_nan_not_all_na _ _ Hnn). cbn [np_reduce].
  apply no_nan_cons in Hnn as [Ha Hrest]. split.
  - apply fold_pick_In.
  - apply (fold_pick_bound (fun x y => y <=? x)); try assumption.
    + intros x y Hx Hy. apply FloatMore.leb_connected; assumption.
    + intros x y z H1 H2. eapply FloatMore.leb_trans; eassumption.
    + apply FloatFacts.leb_refl.
Qed.

(** X12: on a non-empty table whose GDP values are numbers, the maximum
    and the minimum that the summary prints are GDP values of the table,
    no GDP value is above the one or below the other, and the minimum is
    not above the maximum. *)
Theorem summary_extremes_bound_the_table {L : Libraries} (w : world) (df : DataFrame)
    (g : list float) :
  self_data w = Some df -> GDP df = Some g -> well_formed df ->
  g <> [] -> no_nan g = true ->
  exists vmax ymax vmin ymin post,
    stdout (snd (print_summary w))
    = stdout w ++ summary_head df g ++ [MaxLine vmax ymax; MinLine vmin ymin] ++ post
    /\ In vmax g /\ In vmin g
    /\ (forall x, In x g -> (x <=? vmax) = true /\ (vmin <=? x) = true)
    /\ (vmin <=? vmax) = true.
Proof.
  intros Hdata Hgdp Hwf Hne Hnn.
  destruct (nanmax_bound g Hne Hnn) as [Hmax_in Hmax].
  destruct (nanmin_bound g Hne Hnn) as [Hmin_in Hmin].
  destruct (nanargmax_ok idx_skips_nan g (no_nan_all_na_false g Hne Hnn))
    as (imax & Emax & _).
  destruct (nanargmin_ok idx_skips_nan g (no_nan_all_na_false g Hne Hnn))
    as (imin & Emin & _).
  exists (nanmax g), (nth imax (Year df) 0%Z), (nanmin g), (nth imin (Year df) 0%Z).
  rewrite (print_summary_run w df g Hdata Hgdp Hwf). cbn zeta. rewrite Emax, Emin.
  destruct (nanargmax idx_skips_nan (skipn 1 _)) as [p|e];
    (eexists; split; [cbn [snd with_stdout stdout app]; reflexivity |]);
    (split; [exact Hmax_in | split; [exact Hmin_in | split]]);
    try (intros x Hx; split; [apply Hmax | apply Hmin]; exact Hx);
    apply Hmax; exact Hmin_in.
Qed.

Lemma summary_extremes_bound_the_table_witness :
  exists vmax ymax vmin ymin post,
    stdout (snd (print_summary
                   (world_of (table_of [2015%Z; 2016%Z; 2017%Z] [110; 100; 121]))))
    = summary_head (table_of [2015%Z; 2016%Z; 2017%Z] [110; 100; 121]) [110; 100; 121]
      ++ [MaxLine vmax ymax; MinLine vmin ymin] ++ post
    /\ (vmin <=? vmax) = true.
Proof.
  destruct (summary_extremes_bound_the_table
              (world_of (table_of [2015%Z; 2016%Z; 2017%Z] [110; 100; 121]))
              (table_of [2015%Z; 2016%Z; 2017%Z] [110; 100; 121])
              [110; 100; 121] eq_refl eq_refl
              (table_of_well_formed [2015%Z; 2016%Z; 2017%Z] [110; 100; 121] eq_refl)
              ltac:(discriminate) eq_refl)
    as (vmax & ymax & vmin & ymin & post & Hout & _ & _ & _ & Hle).
  exists vmax, ymax, vmin, ymin, post. split; assumption.
Defined.

(** ** Growth over a zero *)

(** X13: a period that follows a period of zero GDP does not raise: its
    growth rate is an infinity when its own GDP is finite and nonzero,
    and NaN when its own GDP is zero too. *)
Theorem growth_after_zero_gdp (pad : bool) (g : list float) (i : nat)
    (prev cur : float) :
  no_nan g = true ->
  nth_error g i = Some prev -> nth_error g (S i) = Some cur ->
  is_zero prev = true ->
  exists r,
    nth_error (growth_rate pad g) (S i) = Some r
    /\ (finite_nonzero cur = true -> is_infinity r = true)
    /\ (is_zero cur = true -> r = nan).
Proof.
  intros Hnn Hp Hc Hz. exists ((cur / prev - 1) * 100). split; [|split].
  - rewrite growth_rate_unfold by (right; exact Hnn).
    destruct g as [|x rest]; [destruct i; discriminate |]. cbn [nth_error].
    apply nth_error_growth_after_first; assumption.
  - intros Hfin. apply FloatMore.growth_over_zero; assumption.
  - intros Hzero. apply FloatMore.growth_zero_over_zero; assumption.
Qed.

Lemma growth_after_zero_gdp_witness :
  exists r,
    nth_error (growth_rate true [0; 8700]) 1 = Some r
    /\ is_infinity r = true.
Proof.
  destruct (growth_after_zero_gdp true [0; 8700] 0 0 8700
              eq_refl eq_refl eq_refl eq_refl) as (r & Hr & Hinf & _).
  exists r. split; [exact Hr |]. apply Hinf. reflexivity.
Defined.

(** ** [main] *)








(** ** The summary and the rest of the world *)

(** X15: the summary is a function of the stored table: two worlds that
    hold the same well-formed table get the same outcome and the same new
    lines, whatever is on their consoles, in their files and in their
    generators; so saving charts before a summary does not change it. *)
Theorem summary_depends_on_table_only {L : Libraries} (w w' : world) (df : DataFrame)
    (g : list float) :
  self_data w = Some df -> self_data w' = Some df ->
  GDP df = Some g -> well_formed df ->
  fst (print_summary w') = fst (print_summary w)
  /\ exists out,
       stdout (snd (print_summary w)) = stdout w ++ out
       /\ stdout (snd (print_summary w')) = stdout w' ++ out.
Proof.
  intros Hd Hd' Hg Hwf.
  rewrite (print_summary_run w df g Hd Hg Hwf), (print_summary_run w' df g Hd' Hg Hwf).
  cbn zeta.
  destruct (nanargmax idx_skips_nan g) as [imax|e1];
    [| split; [reflexivity | eexists; split; reflexivity]].
  destruct (nanargmin idx_skips_nan g) as [imin|e2];
    [| split; [reflexivity | eexists; split; reflexivity]].
  destruct (nanargmax idx_skips_nan (skipn 1 _)) as [p|e3];
    (split; [reflexivity | eexists; split; reflexivity]).
Qed.

Lemma summary_depends_on_table_only_witness :
  fst (print_summary
         (snd (plot_gdp_trend "gdp_trend.png"
                 (world_of (table_of [2015%Z; 2016%Z] [100; 110])))))
  = fst (print_summary (world_of (table_of [2015%Z; 2016%Z] [100; 110]))).
Proof.
  apply (summary_depends_on_table_only
           (world_of (table_of [2015%Z; 2016%Z] [100; 110]))
           (snd (plot_gdp_trend "gdp_trend.png"
                   (world_of (table_of [2015%Z; 2016%Z] [100; 110]))))
           (table_of [2015%Z; 2016%Z] [100; 110]) [100; 110]
           eq_refl eq_refl eq_refl
           (table_of_well_formed [2015%Z; 2016%Z] [100; 110] eq_refl)).
Defined.

(** ** Attaching a column *)

(** X16: assigning a Series to the GDP or Net_Exports column of a table
    that has rows, or an empty Series to a table that has none, keeps the
    table rectangular whatever the length of the Series: a Series of the
    table's length is stored as it is, a longer one is cut, and a shorter
    one is completed with NaN. *)
Theorem attaching_keeps_table_rectangular (df : DataFrame) (s : Series) :
  well_formed df ->
  (0 < nrows df)%nat \/ values s = [] ->
  exists df1 df2 g,
    set_GDP df s = Ok df1 /\ set_Net_Exports df s = Ok df2
    /\ well_formed df1 /\ well_formed df2
    /\ Year df1 = Year df /\ Year df2 = Year df
    /\ GDP df1 = Some g /\ Net_Exports df2 = Some g
    /\ length g = nrows df
    /\ (length (values s) = nrows df -> g = values s)
    /\ (forall k, (k < nrows df)%nat ->
          nth_error g k
          = Some (if Nat.ltb k (length (values s)) then at_label (values s) k
                  else nan)).
Proof.
  intros (Hc & Hi & Hg & Hx & Hm & Hgdp & Hnx) Hrows.
  assert (Hgrow : grows_frame df s = false).
  { unfold grows_frame. destruct Hrows as [Hpos | ->].
    - destruct (nrows df); [lia | reflexivity].
    - apply andb_false_r. }
  unfold set_GDP, set_Net_Exports. rewrite Hgrow.
  eexists. eexists. exists (reindex (nrows df) (values s)).
  split; [reflexivity |]. split; [reflexivity |].
  split; [|split].
  - unfold well_formed, nrows in *.
    cbn [Year Consumption Investment Government_Spending Exports Imports GDP Net_Exports].
    repeat split; try assumption.
    intros g [= <-]. apply reindex_length.
  - unfold well_formed, nrows in *.
    cbn [Year Consumption Investment Government_Spending Exports Imports GDP Net_Exports].
    repeat split; try assumption.
    intros g [= <-]. apply reindex_length.
  - split; [reflexivity |]. split; [reflexivity |].
    split; [reflexivity |]. split; [reflexivity |].
    split; [apply reindex_length |]. split.
    + intros Hlen. apply reindex_same. exact Hlen.
    + intros k Hk. rewrite nth_error_at_label by (rewrite reindex_length; exact Hk).
      rewrite at_label_reindex.
      apply Nat.ltb_lt in Hk. rewrite Hk.
      destruct (Nat.ltb_spec k (length (values s))) as [Hin | Hout]; [reflexivity |].
      rewrite at_label_beyond by exact Hout. reflexivity.
Qed.

Lemma attaching_keeps_table_rectangular_witness :
  exists df1 g,
    set_GDP (table_of [2015%Z; 2016%Z; 2017%Z] [100; 110; 121]) (mkSeries [100; 110])
    = Ok df1
    /\ GDP df1 = Some g /\ nth_error g 2 = Some nan.
Proof.
  destruct (attaching_keeps_table_rectangular
              (table_of [2015%Z; 2016%Z; 2017%Z] [100; 110; 121]) (mkSeries [100; 110])
              (table_of_well_formed [2015%Z; 2016%Z; 2017%Z] [100; 110; 121] eq_refl)
              (or_introl (Nat.lt_0_succ 2)))
    as (df1 & df2 & g & H1 & _ & _ & _ & _ & _ & Hg & _ & _ & _ & Hk).
  exists df1, g. split; [exact H1 |]. split; [exact Hg |].
  apply (Hk 2%nat). unfold nrows, table_of. cbn [Year length]. lia.
Defined.
